(** * scripts/verify.py: submitting a spell and its action contract to Etherscan

    A shallow embedding of the script.  Python values are an inductive type,
    dictionaries that are only looked up are finite maps, dictionaries whose
    order is visible (JSON objects, request bodies) are association lists.
    Everything the script does to the outside (printing, running a program,
    posting a request, sleeping, writing a file) is an event appended to a
    history; everything it reads from the outside comes from a [world]: the
    environment, the arguments, the files, what the programs it runs print,
    what the server answers to its n-th request, and the clock.

    The two [while] loops of [verify_contract] have no bound in the script.
    Here each takes a budget of turns and ends in [OutOfFuel] when the budget
    is spent; the statements about runs that finish hold for every budget
    from an explicit bound on.

    Not modelled: the JSON parser (a function of the world), the encoding of
    files (a file is its text, or cannot be read), failures of writing the
    log (a write always succeeds). *)

From Stdlib Require Import ZArith Ascii String List Lia Bool.
From stdpp Require Import base option list gmap strings pretty.

Set Warnings "-register-all".
Local Open Scope Z_scope.

(** ** Text *)

(** Python [str] is modelled by [string] read as a sequence of code points
    below 256.  On that range [str.lower] maps A-Z and the accented capitals
    (U+00C0 to U+00DE except the multiplication sign U+00D7) 32 places up and
    leaves every other code point alone. *)
Definition lower_char (c : ascii) : ascii :=
  let n := N_of_ascii c in
  if ((65 <=? n) && (n <=? 90))%N
     || ((192 <=? n) && (n <=? 222) && negb (n =? 215))%N
  then ascii_of_N (n + 32) else c.

Fixpoint lower (s : string) : string :=
  match s with
  | EmptyString => EmptyString
  | String c t => String (lower_char c) (lower t)
  end.

(** [needle in hay] on two [str]: [needle] occurs as a contiguous block. *)
Fixpoint contains (needle hay : string) : bool :=
  String.prefix needle hay ||
  match hay with
  | EmptyString => false
  | String _ t => contains needle t
  end.

(** [s[:-1]]: everything but the last character; the empty string stays. *)
Fixpoint drop_last (s : string) : string :=
  match s with
  | EmptyString => EmptyString
  | String c t =>
      match t with
      | EmptyString => EmptyString
      | String _ _ => String c (drop_last t)
      end
  end.

Definition nl : string := String (ascii_of_nat 10) EmptyString.

(** ** Python values *)

(** What [json.load] produces and what a request body holds.  A float is
    kept as its 64-bit pattern; the script only ever tests one for truth. *)
Inductive value : Type :=
| VNone
| VBool (b : bool)
| VInt (n : Z)
| VFloat (bits : Z)
| VStr (s : string)
| VList (l : list value)
| VDict (d : list (string * value)).

Abbreviation dict := (list (string * value)).

Fixpoint dict_get (k : string) (d : dict) : option value :=
  match d with
  | [] => None
  | (k', v) :: rest => if String.eqb k k' then Some v else dict_get k rest
  end.

(** Truth value of an object, as [x if c else y] tests it. *)
Definition truthy (v : value) : bool :=
  match v with
  | VNone => false
  | VBool b => b
  | VInt n => negb (n =? 0)
  | VFloat bits => negb (bits mod 2 ^ 63 =? 0)
  | VStr s => negb (String.eqb s EmptyString)
  | VList l => match l with [] => false | _ => true end
  | VDict d => match d with [] => false | _ => true end
  end.

(** [x == {}]: only a dictionary without entries equals the empty one. *)
Definition is_empty_dict (v : value) : bool :=
  match v with
  | VDict [] => true
  | _ => false
  end.

(** [x != 'text']: everything that is not that very string differs. *)
Definition differs_from_str (v : value) (s : string) : bool :=
  match v with
  | VStr s' => negb (String.eqb s' s)
  | _ => true
  end.

(** ** Exceptions, events, the world *)

Inductive exn : Type :=
| KeyError (key : value)
| TypeError
| AttributeError
| IndexError
| FileNotFoundError (path : string)
| OtherError (msg : string)          (* a class the script has no clause for, with its text *)
| ValueError (msg : string)
| Exception (msg : string).

Inductive event : Type :=
| Print (v : value)
| PrintErr (v : value)
| Run (cmd : list string) (env : gmap string string)
| Post (url : string) (headers params data : dict)
| Sleep (seconds : Z)
| Write (path content : string).

Abbreviation history := (list event).

(** How a run of the script, or of a part of it, ends. *)
Inductive result (A : Type) : Type :=
| Done (a : A)
| Raised (e : exn)
| Exited (code : option string)      (* exit() and exit('text') *)
| OutOfFuel.                         (* the loop budget of the model ran out *)
Arguments Done {A} a.
Arguments Raised {A} e.
Arguments Exited {A} code.
Arguments OutOfFuel {A}.

Inductive file : Type :=
| Absent
| Unreadable (msg : string)
| Text (content : string).

Inductive proc : Type :=
| CannotStart (program : string)
| Completed (stdout : option string). (* None: the bytes are not UTF-8 *)

Inductive reply : Type :=
| NoResponse (msg : string)
| Response (text : string).

Record world : Type := {
  environ : gmap string string;                          (* os.environ *)
  argv : list string;                                    (* sys.argv *)
  files : string -> file;                                (* the files the script finds *)
  json_loads : string -> option value;                   (* the json module's parser *)
  subprocess_run : list string -> gmap string string -> proc;
  http : nat -> reply;                                   (* answer to the n-th request, from 0 *)
  timestamp : string;                                    (* text of datetime.now().timestamp() *)
}.

(** ** The monad of the script: a history threaded through, with failure *)

Definition M (A : Type) : Type := history -> result A * history.

Definition ret {A} (a : A) : M A := fun h => (Done a, h).

Definition bind {A B} (m : M A) (k : A -> M B) : M B :=
  fun h =>
    match m h with
    | (Done a, h') => k a h'
    | (Raised e, h') => (Raised e, h')
    | (Exited c, h') => (Exited c, h')
    | (OutOfFuel, h') => (OutOfFuel, h')
    end.

Definition raise {A} (e : exn) : M A := fun h => (Raised e, h).
Definition exit {A} (code : option string) : M A := fun h => (Exited code, h).
Definition out_of_fuel {A} : M A := fun h => (OutOfFuel, h).
Definition emit (e : event) : M unit := fun h => (Done tt, h ++ [e]).
Definition get_history : M history := fun h => (Done h, h).

(** [try: m except ...: handler]; [exit] is not an [Exception] and passes,
    and so does the model's own [OutOfFuel]. *)
Definition try_except {A} (m : M A) (handler : exn -> M A) : M A :=
  fun h =>
    match m h with
    | (Raised e, h') => handler e h'
    | r => r
    end.

Declare Scope py_scope.
Delimit Scope py_scope with py.
Notation "x <- c ;; k" := (bind c (fun x => k))
  (at level 100, c at next level, right associativity) : py_scope.
Notation "c ;;; k" := (bind c (fun _ => k))
  (at level 100, right associativity) : py_scope.
Local Open Scope py_scope.

Definition print (s : string) : M unit := emit (Print (VStr s)).
Definition print_value (v : value) : M unit := emit (Print v).
Definition sleep (seconds : Z) : M unit := emit (Sleep seconds).

(** [v[k]] for a string key. *)
Definition getitem (v : value) (k : string) : M value :=
  match v with
  | VDict d =>
      match dict_get k d with
      | Some x => ret x
      | None => raise (KeyError (VStr k))
      end
  | _ => raise TypeError
  end.

(** [v.lower()]. *)
Definition lower_method (v : value) : M string :=
  match v with
  | VStr s => ret (lower s)
  | _ => raise AttributeError
  end.

(** ['text' + v]. *)
Definition str_add (s : string) (v : value) : M string :=
  match v with
  | VStr s' => ret (s +:+ s')
  | _ => raise TypeError
  end.

(** [l[i]] on a list of strings. *)
Definition item (l : list string) (i : nat) : M string :=
  match l !! i with
  | Some x => ret x
  | None => raise IndexError
  end.

(** ** Files and requests seen through the history *)

(** The last text the script itself wrote to [path], if any. *)
Fixpoint last_write (path : string) (h : history) : option string :=
  match h with
  | [] => None
  | e :: rest =>
      match last_write path rest with
      | Some c => Some c
      | None =>
          match e with
          | Write p c => if String.eqb p path then Some c else None
          | _ => None
          end
      end
  end.

Definition is_post (e : event) : bool :=
  match e with
  | Post _ _ _ _ => true
  | _ => false
  end.

(** How many requests have been posted so far. *)
Definition requests_sent (h : history) : nat := length (List.filter is_post h).

(** ** The script *)

Definition module : string := "contract".
Definition action : string := "verifysourcecode".
Definition code_format : string := "solidity-single-file".
Definition flatten_output_path : string := "out/flat.sol".
Definition library_name : string := "DssExecLib".
Definition api_url : string := "https://api.etherscan.io/v2/api".

Definition license_numbers : gmap string Z :=
  {[ "GPL-3.0-or-later" := 5; "AGPL-3.0-or-later" := 13 ]}.

Definition etherscan_subdomains : gmap string string :=
  {[ "1" := EmptyString; "11155111" := "sepolia." ]}.

(** The module-level variables that [verify_contract] reads. *)
Record globals : Type := {
  api_key : string;
  chain_id : string;
  library_address : string;
  spell_constructor_arguments : string;
}.

(** *** The pattern [:DssExecLib:(0x[0-9a-fA-F]{40})] *)

Definition is_hex_digit (c : ascii) : bool :=
  let n := N_of_ascii c in
  (((48 <=? n) && (n <=? 57)) || ((97 <=? n) && (n <=? 102))
   || ((65 <=? n) && (n <=? 70)))%N.

(** The first [n] characters of [s], when there are that many and all are
    hexadecimal digits. *)
Fixpoint take_hex (n : nat) (s : string) : option string :=
  match n with
  | O => Some EmptyString
  | S n' =>
      match s with
      | EmptyString => None
      | String c t =>
          if is_hex_digit c then String c <$> take_hex n' t else None
      end
  end.

Fixpoint strip_prefix (p s : string) : option string :=
  match p with
  | EmptyString => Some s
  | String a p' =>
      match s with
      | EmptyString => None
      | String b s' => if Ascii.eqb a b then strip_prefix p' s' else None
      end
  end.

(** A match that starts at the first character; the result is group 1. *)
Definition match_library_here (s : string) : option string :=
  match strip_prefix ":DssExecLib:0x" s with
  | Some rest => String.append "0x" <$> take_hex 40 rest
  | None => None
  end.

(** [re.search(...)] followed by [.group(1)]: the leftmost match. *)
Fixpoint re_search_library (config : string) : option string :=
  match match_library_here config with
  | Some a => Some a
  | None =>
      match config with
      | EmptyString => None
      | String _ t => re_search_library t
      end
  end.

Section Script.

Context (w : world).

(** What [open(path)] followed by a read meets. *)
Definition read_file (h : history) (path : string) : file :=
  match last_write path h with
  | Some c => Text c
  | None => files w path
  end.

Definition open_read (path : string) : M string :=
  h <- get_history;;
  match read_file h path with
  | Absent => raise (FileNotFoundError path)
  | Unreadable msg => raise (OtherError msg)
  | Text c => ret c
  end.

(** [subprocess.run(cmd, env=env)]. *)
Definition run (cmd : list string) (env : gmap string string) : M (option string) :=
  emit (Run cmd env);;;
  match subprocess_run w cmd env with
  | CannotStart p => raise (FileNotFoundError p)
  | Completed out => ret out
  end.

(** [stdout.decode('utf-8')]. *)
Definition decode_utf8 (out : option string) : M string :=
  match out with
  | Some s => ret s
  | None => raise (OtherError "UnicodeDecodeError")
  end.

(** Lines 70-84.  The three [except] clauses turn a missing file, a failed
    search ([None.group]) and every other failure into a [ValueError]. *)
Definition get_library_address : M string :=
  h <- get_history;;
  match read_file h "foundry.toml" with
  | Absent => raise (ValueError "No foundry.toml found")
  | Unreadable msg => raise (ValueError msg)
  | Text config =>
      match re_search_library config with
      | Some address => ret address
      | None => raise (ValueError "No DssExecLib configured in foundry.toml")
      end
  end.

(** Lines 98-116. *)
Definition send_etherscan_api_request (params data : dict) : M value :=
  let url := api_url in
  let headers := [("User-Agent", VStr EmptyString)] in
  print "Sending verification request...";;;
  h <- get_history;;
  emit (Post url headers params data);;;
  match http w (requests_sent h) with
  | NoResponse msg => raise (OtherError msg)
  | Response text =>
      match json_loads w text with
      | Some payload => ret payload
      | None =>
          emit (PrintErr (VStr text));;;
          raise (Exception "Error: Etherscan responded with invalid JSON.")
      end
  end.

(** Lines 122-128. *)
Definition load_artifact (output_path : string) : M value :=
  h <- get_history;;
  match read_file h output_path with
  | Absent => raise (Exception "run forge build first")
  | Unreadable msg => raise (OtherError msg)
  | Text document =>
      match json_loads w document with
      | Some content => ret content
      | None => raise (Exception "run forge build again")
      end
  end.

(** Line 140: [license_numbers[license_name]]. *)
Definition license_number_of (license_name : value) : M Z :=
  match license_name with
  | VStr s =>
      match license_numbers !! s with
      | Some n => ret n
      | None => raise (KeyError license_name)
      end
  | VList _ | VDict _ => raise TypeError
  | _ => raise (KeyError license_name)
  end.

(** [r['status'] != '1' or r['message'] != 'OK']. *)
Definition not_ok (r : value) : M bool :=
  status <- getitem r "status";;
  if differs_from_str status "1" then ret true
  else (message <- getitem r "message";; ret (differs_from_str message "OK")).

(** [needle in r['result'].lower()]. *)
Definition result_mentions (needle : string) (r : value) : M bool :=
  result <- getitem r "result";;
  lowered <- lower_method result;;
  ret (contains needle lowered).

(** Lines 170-174: resubmit while the answer talks of locating. *)
Fixpoint submit_loop (fuel : nat) (params data : dict) (verify_response : value)
  : M value :=
  again <- result_mentions "locate" verify_response;;
  if again : bool then
    match fuel with
    | O => out_of_fuel
    | S fuel' =>
        result <- getitem verify_response "result";;
        print_value result;;;
        print "Waiting for 15 seconds for the network to update...";;;
        sleep 15;;;
        verify_response <- send_etherscan_api_request params data;;
        submit_loop fuel' params data verify_response
    end
  else ret verify_response.

Definition status_request (g : globals) (guid : value) : dict :=
  [("apikey", VStr (api_key g));
   ("module", VStr module);
   ("action", VStr "checkverifystatus");
   ("guid", guid)].

(** Lines 189-201: ask for the status until it is no longer pending. *)
Fixpoint poll_loop (fuel : nat) (g : globals) (params : dict) (guid : value)
    (check_response : value) : M value :=
  again <- (if is_empty_dict check_response then ret true
            else result_mentions "pending" check_response);;
  if again : bool then
    match fuel with
    | O => out_of_fuel
    | S fuel' =>
        (if negb (is_empty_dict check_response) then
           result <- getitem check_response "result";;
           print_value result;;;
           print "Waiting for 15 seconds for Etherscan to process the request...";;;
           sleep 15
         else ret tt);;;
        check_response <- send_etherscan_api_request params (status_request g guid);;
        poll_loop fuel' g params guid check_response
    end
  else ret check_response.

Definition verify_request (g : globals) (name address code compiler_version : string)
    (optimizer_enabled optimizer_runs evm_version : value) (license_number : Z) : dict :=
  [("apikey", VStr (api_key g));
   ("module", VStr module);
   ("action", VStr action);
   ("contractaddress", VStr address);
   ("sourceCode", VStr code);
   ("codeFormat", VStr code_format);
   ("contractName", VStr name);
   ("compilerversion", VStr compiler_version);
   ("optimizationUsed", VStr (if truthy optimizer_enabled then "1" else "0"));
   ("runs", optimizer_runs);
   ("constructorArguements", VStr (spell_constructor_arguments g));
   ("evmversion", evm_version);
   ("licenseType", VInt license_number);
   ("libraryname1", VStr library_name);
   ("libraryaddress1", VStr (library_address g))].

(** Lines 120-166: the artifact's metadata, the flattened source and the
    request body made of them.  Nothing here touches the outside. *)
Definition build_request (g : globals)
    (name address input_path output_path : string) : M (string * dict) :=
  content <- load_artifact output_path;;
  metadata <- getitem content "metadata";;
  compiler <- getitem metadata "compiler";;
  version <- getitem compiler "version";;
  compiler_version <- str_add "v" version;;
  settings <- getitem metadata "settings";;
  evm_version <- getitem settings "evmVersion";;
  settings <- getitem metadata "settings";;
  optimizer <- getitem settings "optimizer";;
  optimizer_enabled <- getitem optimizer "enabled";;
  settings <- getitem metadata "settings";;
  optimizer <- getitem settings "optimizer";;
  optimizer_runs <- getitem optimizer "runs";;
  sources <- getitem metadata "sources";;
  source <- getitem sources input_path;;
  license_name <- getitem source "license";;
  license_number <- license_number_of license_name;;
  code <- open_read flatten_output_path;;
  ret (code, verify_request g name address code compiler_version
               optimizer_enabled optimizer_runs evm_version license_number).

(** Lines 168-174. *)
Definition submit (fuel : nat) (params data : dict) : M value :=
  verify_response <- send_etherscan_api_request params data;;
  submit_loop fuel params data verify_response.

(** Lines 187-213: the polling phase and its verdict. *)
Definition poll (g : globals) (fuel : nat) (params : dict)
    (code : string) (guid : value) : M unit :=
  check_response <- poll_loop fuel g params guid (VDict []);;
  failed <- not_ok check_response;;
  if failed : bool then
    result <- getitem check_response "result";;
    line <- str_add "Error: " result;;
    print line;;;
    verified <- result_mentions "already verified" check_response;;
    if verified : bool then ret tt
    else
      let log_name := "verify-" +:+ timestamp w +:+ ".log" in
      emit (Write log_name code);;;
      print ("log written to " +:+ log_name);;;
      raise (Exception "Failed to get verification status")
  else ret tt.

(** Lines 119-213.  [fuel] bounds the turns of each of the two loops. *)
Definition verify_contract (g : globals) (fuel : nat)
    (name address input_path output_path : string) : M unit :=
  request <- build_request g name address input_path output_path;;
  let code := fst request in
  let data := snd request in
  let params := [("chainid", VStr (chain_id g))] in
  verify_response <- submit fuel params data;;
  failed <- not_ok verify_response;;
  if failed : bool then
    result <- getitem verify_response "result";;
    line <- str_add "Error: " result;;
    print line;;;
    verified <- result_mentions "already verified" verify_response;;
    if verified : bool then ret tt else raise (Exception "Failed to verify")
  else
    result <- getitem verify_response "result";;
    line <- str_add "Sent verification request with guid " result;;
    print line;;;
    guid <- getitem verify_response "result";;
    poll g fuel params code guid.

(** *** The top level *)

Definition api_key_help : string :=
  "  You need an Etherscan API key to verify contracts." +:+ nl +:+
  "  Create one at https://etherscan.io/myapikey" +:+ nl +:+ nl +:+
  "  Then export it with `export ETHERSCAN_API_KEY=xxxxxxxx'" +:+ nl.

Definition rpc_url_help : string :=
  "  You need a valid ETH_RPC_URL." +:+ nl +:+
  "  Get a public one one at https://chainlist.org/ or provide your own" +:+ nl +:+
  "  Then export it with `export ETHERSCAN_API_KEY=xxxxxxxx'" +:+ nl.

Definition usage : string :=
  "usage:" +:+ nl +:+ nl +:+
  "./verify.py <contractname> <address> [constructorArgs]" +:+ nl.

(** [os.environ[name]], leaving with the help text when it is not set. *)
Definition getenv_or_exit (name help : string) : M string :=
  match environ w !! name with
  | Some x => ret x
  | None => print help;;; exit None
  end.

(** Lines 87-96. *)
Definition resolve_library : M string :=
  try_except
    (library_address <- get_library_address;;
     print ("Using library " +:+ library_name +:+ " at address " +:+ library_address);;;
     ret library_address)
    (fun e =>
       match e with
       | ValueError msg =>
           print msg;;;
           print "WARNING: Assuming this contract uses no libraries";;;
           ret EmptyString
       | _ => raise e
       end).

(** Lines 15-53: credentials and arguments.  Gives the key, the spell's
    name and address, and the constructor arguments. *)
Definition arguments : M (string * string * string * string) :=
  api_key <- getenv_or_exit "ETHERSCAN_API_KEY" api_key_help;;
  rpc_url <- getenv_or_exit "ETH_RPC_URL" rpc_url_help;;
  if negb (bool_decide (length (argv w) ∈ [3; 4]%nat)) then
    print usage;;; exit None
  else
  spell_contract_name <- item (argv w) 1;;
  spell_contract_address <- item (argv w) 2;;
  print ("Attempting to verify contract " +:+ spell_contract_name +:+
         " at address " +:+ spell_contract_address +:+ "...");;;
  if negb (String.length spell_contract_address =? 42)%nat then
    exit (Some "malformed address")
  else
  spell_constructor_arguments <-
    (if (length (argv w) =? 4)%nat then item (argv w) 3 else ret EmptyString);;
  print ("DssSpell address: " +:+ spell_contract_address);;;
  ret (api_key, spell_contract_name, spell_contract_address,
       spell_constructor_arguments).

Definition flatten_command : list string :=
  ["forge"; "flatten"; "src/DssSpell.sol"; "--output"; flatten_output_path].

(** Lines 64-96: chain id and library address. *)
Definition surroundings : M (string * string) :=
  print "Obtaining chain ID... ";;;
  cast_chain_id <- run ["cast"; "chain-id"] (environ w);;
  decoded <- decode_utf8 cast_chain_id;;
  let chain_id := drop_last decoded in
  print ("CHAIN_ID: " +:+ chain_id);;;
  library_address <- resolve_library;;
  ret (chain_id, library_address).

(** Lines 15-96: the module-level variables and the spell's name and
    address. *)
Definition prologue : M (globals * string * string) :=
  given <- arguments;;
  let '(api_key, spell_contract_name, spell_contract_address,
        spell_constructor_arguments) := given in
  run flatten_command (environ w);;;
  found <- surroundings;;
  let '(chain_id, library_address) := found in
  ret ({| api_key := api_key;
          chain_id := chain_id;
          library_address := library_address;
          spell_constructor_arguments := spell_constructor_arguments |},
       spell_contract_name, spell_contract_address).

(** [etherscan_subdomains[chain_id]]. *)
Definition subdomain_of (chain_id : string) : M string :=
  match etherscan_subdomains !! chain_id with
  | Some s => ret s
  | None => raise (KeyError (VStr chain_id))
  end.

Definition verified_line (what subdomain address : string) : string :=
  what +:+ " Contract verified at https://" +:+ subdomain +:+
  "etherscan.io/address/" +:+ address +:+ "#code".

(** Lines 221-253: the spell, then the action contract it points to. *)
Definition verify_both (g : globals) (fuel : nat)
    (spell_contract_name spell_contract_address : string) : M unit :=
  verify_contract g fuel spell_contract_name spell_contract_address
    "src/DssSpell.sol" "out/DssSpell.sol/DssSpell.json";;;
  subdomain <- subdomain_of (chain_id g);;
  print (verified_line "Spell" subdomain spell_contract_address);;;
  cast_call_actions <-
    run ["cast"; "call"; spell_contract_address; "action()(address)"]
        ({[ "ETH_GAS_PRICE" := "0"; "ETH_PRIO_FEE" := "0" ]} ∪ environ w);;
  let action_contract_name := "DssSpellAction" in
  decoded <- decode_utf8 cast_call_actions;;
  let action_contract_address := drop_last decoded in
  print ("Spell DssAction address: " +:+ action_contract_address);;;
  verify_contract g fuel action_contract_name action_contract_address
    "src/DssSpell.sol" "out/DssSpell.sol/DssSpellAction.json";;;
  subdomain <- subdomain_of (chain_id g);;
  print (verified_line "Action" subdomain action_contract_address).

(** The whole script. *)
Definition main (fuel : nat) : M unit :=
  start <- prologue;;
  verify_both (fst (fst start)) fuel (snd (fst start)) (snd start).

End Script.

(** ** Vocabulary of the statements *)

(** The test the script applies to a result text: the needle, given in
    lower case, occurs in the lowered text. *)
Definition mentions (needle s : string) : bool := contains needle (lower s).

(** [r[k]] when [r] is a dictionary that has the key. *)
Definition field (k : string) (r : value) : option value :=
  match r with
  | VDict d => dict_get k d
  | _ => None
  end.

(** A status of '1' together with a message of 'OK'. *)
Definition ok_pair (status message : value) : bool :=
  negb (differs_from_str status "1") && negb (differs_from_str message "OK").

(** The chain identifier as the specification words it: the output with a
    terminating newline taken off and nothing else. *)
Fixpoint strip_trailing_newline (s : string) : string :=
  match s with
  | EmptyString => EmptyString
  | String c t =>
      match t with
      | EmptyString => if Ascii.eqb c (ascii_of_nat 10) then EmptyString else s
      | String _ _ => String c (strip_trailing_newline t)
      end
  end.

(** A string that looks like an address: 0x and then hexadecimal digits
    to the end, 42 characters in all. *)
Definition hex_address (s : string) : bool :=
  match s with
  | String "0" (String "x" digits) =>
      forallb is_hex_digit (list_ascii_of_string digits)
      && (String.length digits =? 40)%nat
  | _ => false
  end.

(** A field of the body of a request, and a parameter of its URL. *)
Definition request_field (k : string) (e : event) : option value :=
  match e with
  | Post _ _ _ data => dict_get k data
  | _ => None
  end.

Definition request_param (k : string) (e : event) : option value :=
  match e with
  | Post _ _ params _ => dict_get k params
  | _ => None
  end.

Definition sending : event := Print (VStr "Sending verification request...").

Definition post (params data : dict) : event :=
  Post api_url [("User-Agent", VStr EmptyString)] params data.

(** What one more turn of the submission loop adds to the history. *)
Definition resubmission (params data : dict) (r : string) : list event :=
  [Print (VStr r);
   Print (VStr "Waiting for 15 seconds for the network to update...");
   Sleep 15; sending; post params data].

(** What one more turn of the polling loop adds after a pending answer. *)
Definition requery (params data : dict) (r : string) : list event :=
  [Print (VStr r);
   Print (VStr "Waiting for 15 seconds for Etherscan to process the request...");
   Sleep 15; sending; post params data].

(** The history of a submission that was told [rs] before it settled, and
    of a polling phase that was. *)
Definition submission_events (params data : dict) (rs : list string) : list event :=
  [sending; post params data] ++ flat_map (resubmission params data) rs.

Definition polling_events (params data : dict) (rs : list string) : list event :=
  [sending; post params data] ++ flat_map (requery params data) rs.

Definition chain_params (g : globals) : dict := [("chainid", VStr (chain_id g))].

Definition log_name (w : world) : string := "verify-" +:+ timestamp w +:+ ".log".

(** [v[k1][k2]...] when every step is a dictionary with the key. *)
Fixpoint path (ks : list string) (v : value) : option value :=
  match ks with
  | [] => Some v
  | k :: ks' =>
      match field k v with
      | Some x => path ks' x
      | None => None
      end
  end.

Definition is_submission (e : event) : bool :=
  match e with
  | Post _ _ _ data =>
      match dict_get "action" data with
      | Some (VStr a) => String.eqb a action
      | _ => false
      end
  | _ => false
  end.

Definition is_status_query (e : event) : bool :=
  match e with
  | Post _ _ _ data =>
      match dict_get "action" data with
      | Some (VStr a) => String.eqb a "checkverifystatus"
      | _ => false
      end
  | _ => false
  end.

Definition is_write (e : event) : bool :=
  match e with
  | Write _ _ => true
  | _ => false
  end.

(** For each event of [events] that has [f], in order, the sleeps since the
    event with [f] before it, or since the start; [acc] holds the sleeps met
    so far. *)
Fixpoint waits_between (f : event -> bool) (acc : list Z) (events : list event)
  : list (list Z) :=
  match events with
  | [] => []
  | e :: rest =>
      if f e then acc :: waits_between f [] rest
      else
        match e with
        | Sleep z => waits_between f (acc ++ [z]) rest
        | _ => waits_between f acc rest
        end
  end.

(** Every request of a run is one of the two the script builds from its
    module-level variables, for a contract named in [names]. *)
Definition request_shape (g : globals) (names : list string) (e : event) : Prop :=
  match e with
  | Post url headers params data =>
      url = api_url /\
      params = [("chainid", VStr (chain_id g))] /\
      ((exists name address code version enabled runs evm license,
           In name names /\
           data = verify_request g name address code version enabled runs evm license)
       \/ (exists guid, data = status_request g guid))
  | _ => True
  end.

(** [m] only appends to the history, and every event it appends has [P]. *)
Definition emits {A} (P : event -> Prop) (m : M A) : Prop :=
  forall h, exists t, snd (m h) = h ++ t /\ Forall P t.

(** [m] leaves the history alone and, when it returns, returns a value
    that has [Q]. *)
Definition gives {A} (Q : A -> Prop) (m : M A) : Prop :=
  forall h, snd (m h) = h /\ forall a, fst (m h) = Done a -> Q a.

Section Answers.

Context (w : world).

(** The payload the script gets for its [n]-th request. *)
Definition answer_of (n : nat) : option value :=
  match http w n with
  | Response text => json_loads w text
  | NoResponse _ => None
  end.

(** The result text of that payload. *)
Definition result_at (n : nat) : option string :=
  match answer_of n with
  | Some p =>
      match field "result" p with
      | Some (VStr r) => Some r
      | _ => None
      end
  | None => None
  end.

(** A field of that payload. *)
Definition field_at (n : nat) (k : string) : option value :=
  match answer_of n with
  | Some p => field k p
  | None => None
  end.

(** From request [n] on, the answers carry the result texts [rs] in turn,
    and each of them mentions [needle]. *)
Fixpoint stalls (needle : string) (n : nat) (rs : list string) : Prop :=
  match rs with
  | [] => True
  | r :: rs' =>
      result_at n = Some r /\ mentions needle r = true /\ stalls needle (S n) rs'
  end.

(** ... and the answer after them has these three fields and does not
    mention [needle]. *)
Definition settles (needle : string) (n : nat) (rs : list string)
    (status message : value) (r : string) : Prop :=
  stalls needle n rs /\
  field_at (n + length rs) "status" = Some status /\
  field_at (n + length rs) "message" = Some message /\
  result_at (n + length rs) = Some r /\
  mentions needle r = false.

(** The artifact at [output_path] is there and holds all that lines 130-135
    read from it, and so is the flattened source. *)
Definition artifact_ready (h : history) (input_path output_path : string)
    (version : string) (evm enabled runs license : value) (code : string) : Prop :=
  exists document content,
    read_file w h output_path = Text document /\
    json_loads w document = Some content /\
    path ["metadata"; "compiler"; "version"] content = Some (VStr version) /\
    path ["metadata"; "settings"; "evmVersion"] content = Some evm /\
    path ["metadata"; "settings"; "optimizer"; "enabled"] content = Some enabled /\
    path ["metadata"; "settings"; "optimizer"; "runs"] content = Some runs /\
    path ["metadata"; "sources"; input_path; "license"] content = Some license /\
    read_file w h flatten_output_path = Text code.

(** Credentials are set and the arguments are a name, an address and
    possibly constructor arguments. *)
Definition invoked (name address : string) : Prop :=
  is_Some (environ w !! "ETHERSCAN_API_KEY") /\
  is_Some (environ w !! "ETH_RPC_URL") /\
  (length (argv w) = 3 \/ length (argv w) = 4)%nat /\
  argv w !! 1%nat = Some name /\
  argv w !! 2%nat = Some address.

(** What the module-level variables hold once lines 15-96 are through. *)
Definition configured (g : globals) (name address : string) : Prop :=
  environ w !! "ETHERSCAN_API_KEY" = Some (api_key g) /\
  (length (argv w) = 3 \/ length (argv w) = 4)%nat /\
  argv w !! 1%nat = Some name /\
  argv w !! 2%nat = Some address /\
  String.length address = 42%nat /\
  (exists out,
      subprocess_run w ["cast"; "chain-id"] (environ w) = Completed (Some out) /\
      chain_id g = drop_last out) /\
  spell_constructor_arguments g
  = (if (length (argv w) =? 4)%nat then default EmptyString (argv w !! 3%nat)
     else EmptyString) /\
  (library_address g = EmptyString \/
   exists config, files w "foundry.toml" = Text config /\
                  re_search_library config = Some (library_address g)).

(** [get_library_address] has nothing to return: no configuration file,
    one that cannot be read, or one without the pattern. *)
Definition no_library : Prop :=
  match files w "foundry.toml" with
  | Text config => re_search_library config = None
  | _ => True
  end.

End Answers.

(** ** Vocabulary of the statements about the rest of the script *)

(** [config] has the fixed part of the library pattern, followed by [a]. *)
Definition library_entry (config a : string) : Prop :=
  exists before after, config = before +:+ ":DssExecLib:" +:+ a +:+ after.

(** The environment [cast call] is run in. *)
Definition call_environment (w : world) : gmap string string :=
  {[ "ETH_GAS_PRICE" := "0"; "ETH_PRIO_FEE" := "0" ]} ∪ environ w.

Definition call_command (address : string) : list string :=
  ["cast"; "call"; address; "action()(address)"].

(** What a run of the script may do besides printing: sleep 15 seconds,
    write the log, run one of three commands, post to the API. *)
Definition permitted (w : world) (e : event) : Prop :=
  match e with
  | Sleep z => z = 15
  | Write path _ => path = log_name w
  | Run cmd env =>
      (cmd = flatten_command /\ env = environ w) \/
      (cmd = ["cast"; "chain-id"] /\ env = environ w) \/
      (exists address,
          argv w !! 2%nat = Some address /\
          cmd = call_command address /\ env = call_environment w)
  | Post url headers _ _ =>
      url = api_url /\ headers = [("User-Agent", VStr EmptyString)]
  | _ => True
  end.

(** A verification request is for the spell at [address], or for the action
    contract at the address that [cast call] printed for it. *)
Definition aimed_at (w : world) (name address : string) (e : event) : Prop :=
  is_submission e = true ->
  (request_field "contractName" e = Some (VStr name) /\
   request_field "contractaddress" e = Some (VStr address))
  \/ (request_field "contractName" e = Some (VStr "DssSpellAction") /\
      exists out,
        subprocess_run w (call_command address) (call_environment w)
        = Completed (Some out) /\
        request_field "contractaddress" e = Some (VStr (drop_last out))).

(** [m] only appends to the history, and appends no write, or else it ends
    by raising [e] right after one write and a print. *)
Definition writes_only_raising {A} (e : exn) (m : M A) : Prop :=
  forall h,
    exists t,
      snd (m h) = h ++ t /\
      (Forall (fun x => is_write x = false) t \/
       (fst (m h) = Raised e /\
        exists before path content,
          t = before ++ [Write path content;
                         Print (VStr ("log written to " +:+ path))] /\
          Forall (fun x => is_write x = false) before)).

(** The history of [n] status queries made back to back. *)
Fixpoint bare_queries (params data : dict) (n : nat) : list event :=
  match n with
  | O => []
  | S n' => [sending; post params data] ++ bare_queries params data n'
  end.

(** The exception that reading [p['result'].lower()] ends in, if any. *)
Definition result_error (p : value) : option exn :=
  match p with
  | VDict d =>
      match dict_get "result" d with
      | None => Some (KeyError (VStr "result"))
      | Some (VStr _) => None
      | Some _ => Some AttributeError
      end
  | _ => Some TypeError
  end.

(** ** Example worlds *)

Module Sample.

Definition dq : string := String (ascii_of_nat 34) EmptyString.

(** The JSON text of a value built from strings, integers, lists and
    objects, which is all the examples use (a float is not rendered). *)
Fixpoint render (v : value) : string :=
  match v with
  | VNone => "null"
  | VBool b => if b then "true" else "false"
  | VInt n => pretty n
  | VFloat _ => "null"
  | VStr s => dq +:+ s +:+ dq
  | VList l =>
      "[" +:+
      (fix go (l : list value) : string :=
         match l with
         | [] => EmptyString
         | [x] => render x
         | x :: r => render x +:+ ", " +:+ go r
         end) l +:+ "]"
  | VDict d =>
      "{" +:+
      (fix go (d : list (string * value)) : string :=
         match d with
         | [] => EmptyString
         | [(k, x)] => dq +:+ k +:+ dq +:+ ": " +:+ render x
         | (k, x) :: r => dq +:+ k +:+ dq +:+ ": " +:+ render x +:+ ", " +:+ go r
         end) d +:+ "}"
  end.

(** A parser that knows the texts of the values listed. *)
Definition parse_known (known : list value) (text : string) : option value :=
  find (fun v => String.eqb (render v) text) known.

Definition answer (status message result : string) : value :=
  VDict [("status", VStr status); ("message", VStr message); ("result", VStr result)].

Definition artifact (license : string) : value :=
  VDict
    [("metadata",
      VDict
        [("compiler", VDict [("version", VStr "0.8.16+commit.07a7930e")]);
         ("settings",
          VDict [("evmVersion", VStr "london");
                 ("optimizer", VDict [("enabled", VBool true); ("runs", VInt 200)])]);
         ("sources", VDict [("src/DssSpell.sol", VDict [("license", VStr license)])])])].

Definition spell_address : string := "0x1111111111111111111111111111111111111111".
Definition action_address : string := "0x2222222222222222222222222222222222222222".
Definition odd_address : string := "0xZZZZZZZZZZZZZZZZZZZZZZZZZZZZZZZZZZZZZZZZ".
Definition flat_source : string := "contract DssSpell {}".
Definition toml : string :=
  "libraries = ['lib/dss-exec-lib/src/DssExecLib.sol:DssExecLib:0xfD88CeE74f7D78697775aBDAE53f9Da1559728E4']".

(** A checkout that has been built, on a machine with forge and cast, and
    a server that gives [answers] in turn and then stops answering. *)
Definition world_of (args : list string) (config : file) (chain_id_output : string)
    (license : string) (answers : list value) : world :=
  {| environ := {[ "ETHERSCAN_API_KEY" := "KEY"; "ETH_RPC_URL" := "http://localhost:8545" ]};
     argv := "./verify.py" :: args;
     files := fun path =>
       if String.eqb path "foundry.toml" then config
       else if String.eqb path "out/flat.sol" then Text flat_source
       else if String.eqb path "out/DssSpell.sol/DssSpell.json"
       then Text (render (artifact license))
       else if String.eqb path "out/DssSpell.sol/DssSpellAction.json"
       then Text (render (artifact license))
       else Absent;
     json_loads := parse_known (artifact license :: answers);
     subprocess_run := fun cmd _ =>
       match cmd with
       | ["cast"; "chain-id"] => Completed (Some chain_id_output)
       | "cast" :: "call" :: _ => Completed (Some (action_address +:+ nl))
       | _ => Completed (Some EmptyString)
       end;
     http := fun n =>
       match answers !! n with
       | Some a => Response (render a)
       | None => NoResponse "connection refused"
       end;
     timestamp := "1730000000.123456" |}.

Definition g0 : globals :=
  {| api_key := "KEY"; chain_id := "11155111";
     library_address := EmptyString; spell_constructor_arguments := "0xabcd" |}.

Definition located : value := answer "0" "NOTOK" "Unable to locate ContractCode at 0x11".
Definition accepted : value := answer "1" "OK" "guid-1".
Definition pending : value := answer "0" "NOTOK" "Pending in queue".
Definition passed : value := answer "1" "OK" "Pass - Verified".
Definition rejected : value := answer "0" "NOTOK" "Fail - Unable to verify".
Definition known : value := answer "0" "NOTOK" "Contract source code Already Verified".

Definition args : list string := ["DssSpell"; spell_address; "0xabcd"].

Definition built_world (answers : list value) : world :=
  world_of args (Text toml) ("11155111" +:+ nl) "AGPL-3.0-or-later" answers.

(** The request body these worlds lead to for the spell. *)
Definition request : dict :=
  verify_request g0 "DssSpell" spell_address flat_source "v0.8.16+commit.07a7930e"
    (VBool true) (VInt 200) (VStr "london") 13.

Definition spell_source : string := "src/DssSpell.sol".
Definition spell_artifact : string := "out/DssSpell.sol/DssSpell.json".

Definition chain_output : string := "11155111" +:+ nl.

(** Answers for a run in which both contracts are verified. *)
Definition both_pass : list value :=
  [located; accepted; pending; passed; accepted; passed].

(** The address argument is too short. *)
Definition short_world : world :=
  world_of ["DssSpell"; "0x1234"] (Text toml) chain_output "AGPL-3.0-or-later" both_pass.

(** The address argument has 42 characters that are not hexadecimal. *)
Definition odd_world : world :=
  world_of ["DssSpell"; odd_address] (Text toml) chain_output "AGPL-3.0-or-later" both_pass.

(** There is no foundry.toml. *)
Definition bare_world : world :=
  world_of args Absent chain_output "AGPL-3.0-or-later" both_pass.

(** cast prints the chain id without a newline after it. *)
Definition unterminated_world : world :=
  world_of args (Text toml) "11155111" "AGPL-3.0-or-later" both_pass.

Definition full_world : world :=
  world_of args (Text toml) chain_output "AGPL-3.0-or-later" both_pass.

(** What [unterminated_world] makes of the module-level variables, and the
    request for the spell that follows. *)
Definition g_cut : globals :=
  {| api_key := "KEY"; chain_id := "1115511";
     library_address := "0xfD88CeE74f7D78697775aBDAE53f9Da1559728E4";
     spell_constructor_arguments := "0xabcd" |}.

Definition request_cut : dict :=
  verify_request g_cut "DssSpell" spell_address flat_source "v0.8.16+commit.07a7930e"
    (VBool true) (VInt 200) (VStr "london") 13.

(** The same world with another environment, other files, another server. *)
Definition with_environ (env : gmap string string) (w : world) : world :=
  {| environ := env; argv := argv w; files := files w; json_loads := json_loads w;
     subprocess_run := subprocess_run w; http := http w; timestamp := timestamp w |}.

Definition with_argv (args : list string) (w : world) : world :=
  {| environ := environ w; argv := args; files := files w; json_loads := json_loads w;
     subprocess_run := subprocess_run w; http := http w; timestamp := timestamp w |}.

Definition with_files (f : string -> file) (w : world) : world :=
  {| environ := environ w; argv := argv w; files := f; json_loads := json_loads w;
     subprocess_run := subprocess_run w; http := http w; timestamp := timestamp w |}.

Definition with_http (server : nat -> reply) (w : world) : world :=
  {| environ := environ w; argv := argv w; files := files w; json_loads := json_loads w;
     subprocess_run := subprocess_run w; http := server; timestamp := timestamp w |}.

(** No API key; no RPC URL; one argument too many. *)
Definition keyless_world : world :=
  with_environ {[ "ETH_RPC_URL" := "http://localhost:8545" ]} full_world.

Definition urlless_world : world :=
  with_environ {[ "ETHERSCAN_API_KEY" := "KEY" ]} full_world.

Definition crowded_world : world :=
  with_argv ["./verify.py"; "DssSpell"; spell_address; "0xabcd"; "more"] full_world.

(** The project has not been built; the artifact is not JSON. *)
Definition unbuilt_world : world :=
  with_files (fun path => if String.eqb path "foundry.toml" then Text toml else Absent)
    full_world.

Definition garbled_world : world :=
  with_files (fun path =>
                if String.eqb path spell_artifact then Text "<<<<" else files full_world path)
    full_world.

(** The server answers with a page that is not JSON. *)
Definition html_world : world :=
  with_http (fun _ => Response "<html>Bad Gateway</html>") full_world.

(** The server answers every request with an empty object, or with a
    "locate" text, or accepts the submission and then answers every status
    query with a "pending" text. *)
Definition empty_world : world :=
  world_of args (Text toml) chain_output "AGPL-3.0-or-later" [VDict []].

Definition hollow_world : world :=
  with_http (fun _ => Response (render (VDict []))) empty_world.

Definition unlocated_world : world :=
  with_http (fun _ => Response (render located)) (built_world [located]).

Definition unsettled_world : world :=
  with_http (fun n => Response (render (match n with O => accepted | S _ => pending end)))
    (built_world [accepted; pending]).

(** Answers without a result, with a result that is not a string, with a
    status of '1' and no message, and an answer that is a list. *)
Definition resultless : value := VDict [("status", VStr "0"); ("message", VStr "NOTOK")].
Definition null_result : value :=
  VDict [("status", VStr "0"); ("message", VStr "NOTOK"); ("result", VNone)].
Definition messageless : value := VDict [("status", VStr "1"); ("result", VStr "guid-1")].
Definition curt : value := VDict [("status", VStr "0"); ("result", VStr "already verified")].

(** cast reports a chain the script has no explorer for. *)
Definition holesky_world : world :=
  world_of args (Text toml) ("17000" +:+ nl) "AGPL-3.0-or-later" both_pass.

End Sample.

(** ** Facts about text *)

Lemma append_cons (c : ascii) (s t : string) : String c s +:+ t = String c (s +:+ t).
Proof. reflexivity. Qed.

Lemma prefix_iff (p s : string) : String.prefix p s = true <-> exists t, s = p +:+ t.
Proof.
  revert s. induction p as [|a p IH]; intros s.
  - split; [intros _; exists s; reflexivity | destruct s; reflexivity].
  - destruct s as [|b s]; simpl.
    + split; [discriminate | intros [t Ht]; discriminate].
    + destruct (ascii_dec a b) as [->|Hab].
      * rewrite IH. split; intros [t Ht]; exists t.
        -- rewrite append_cons, <- Ht. reflexivity.
        -- rewrite append_cons in Ht. congruence.
      * split; [discriminate|]. intros [t Ht]. rewrite append_cons in Ht. congruence.
Qed.

(** [contains] is occurrence as a contiguous block. *)
Lemma contains_iff (needle s : string) :
  contains needle s = true <-> exists a b, s = a +:+ needle +:+ b.
Proof.
  induction s as [|c s IH]; cbn [contains]; rewrite orb_true_iff, prefix_iff.
  - split.
    + intros [[t Ht]|?]; [|discriminate]. exists EmptyString, t. exact Ht.
    + intros ([|x a] & b & Hab); [left; exists b; exact Hab|].
      rewrite append_cons in Hab. discriminate.
  - rewrite IH. split.
    + intros [[t Ht]|(a & b & Hab)].
      * exists EmptyString, t. exact Ht.
      * exists (String c a), b. rewrite append_cons, Hab. reflexivity.
    + intros ([|x a] & b & Hab).
      * left. exists b. exact Hab.
      * right. rewrite append_cons in Hab. exists a, b. congruence.
Qed.

Lemma lower_app (a b : string) : lower (a +:+ b) = lower a +:+ lower b.
Proof.
  induction a as [|c a IH]; [reflexivity|].
  rewrite append_cons. simpl. rewrite IH, append_cons. reflexivity.
Qed.

Lemma lower_split (s x y : string) :
  lower s = x +:+ y -> exists a b, s = a +:+ b /\ lower a = x /\ lower b = y.
Proof.
  revert s. induction x as [|c x IH]; intros s H.
  - exists EmptyString, s. auto.
  - destruct s as [|d s]; [discriminate|].
    rewrite append_cons in H. simpl in H. injection H as Hc Hs.
    destruct (IH _ Hs) as (a & b & -> & Ha & Hb).
    exists (String d a), b. rewrite append_cons. simpl. rewrite Ha, Hc. auto.
Qed.

(** The script's test is case-insensitive occurrence: a block of the text
    that differs from the needle only by letter case. *)
Lemma mentions_iff (needle s : string) :
  mentions needle s = true <->
  exists a m b, s = a +:+ m +:+ b /\ lower m = needle.
Proof.
  unfold mentions. rewrite contains_iff. split.
  - intros (x & y & H).
    destruct (lower_split _ _ _ H) as (a & r & -> & _ & Hr).
    destruct (lower_split _ _ _ Hr) as (m & b & -> & Hm & _).
    exists a, m, b. auto.
  - intros (a & m & b & -> & <-). exists (lower a), (lower b).
    rewrite !lower_app. reflexivity.
Qed.

(** [ok_pair] is the success the script tests for: the string '1' for the
    status and the string 'OK' for the message, and nothing else. *)
Lemma ok_pair_true_iff (status message : value) :
  ok_pair status message = true <-> status = VStr "1" /\ message = VStr "OK".
Proof.
  unfold ok_pair, differs_from_str. rewrite andb_true_iff. split.
  - intros [Hs Hm]. destruct status, message; try discriminate.
    rewrite negb_involutive in Hs, Hm.
    apply String.eqb_eq in Hs, Hm. subst. auto.
  - intros [-> ->]. split; reflexivity.
Qed.

Lemma drop_last_snoc (s : string) (c : ascii) :
  drop_last (s +:+ String c EmptyString) = s.
Proof.
  induction s as [|d s IH]; [reflexivity|].
  rewrite append_cons. simpl. rewrite IH.
  destruct s; reflexivity.
Qed.

(** ** Running the monad *)

Lemma bind_done {A B} (m : M A) (k : A -> M B) (h h' : history) (a : A) :
  m h = (Done a, h') -> bind m k h = k a h'.
Proof. intros H. unfold bind. rewrite H. reflexivity. Qed.

Lemma bind_raised {A B} (m : M A) (k : A -> M B) (h h' : history) (e : exn) :
  m h = (Raised e, h') -> bind m k h = (Raised e, h').
Proof. intros H. unfold bind. rewrite H. reflexivity. Qed.

Lemma requests_sent_app (h t : history) :
  requests_sent (h ++ t) = (requests_sent h + requests_sent t)%nat.
Proof. unfold requests_sent. rewrite List.filter_app, length_app. reflexivity. Qed.

Lemma getitem_field (r : value) (k : string) (v : value) (h : history) :
  field k r = Some v -> getitem r k h = (Done v, h).
Proof.
  destruct r; simpl; try discriminate. intros ->. reflexivity.
Qed.

Lemma result_mentions_field (needle : string) (r : value) (s : string) (h : history) :
  field "result" r = Some (VStr s) ->
  result_mentions needle r h = (Done (mentions needle s), h).
Proof.
  intros H. unfold result_mentions.
  rewrite (bind_done _ _ _ _ _ (getitem_field _ _ _ h H)). reflexivity.
Qed.

Lemma not_ok_fields (r status message : value) (h : history) :
  field "status" r = Some status -> field "message" r = Some message ->
  not_ok r h = (Done (negb (ok_pair status message)), h).
Proof.
  intros Hs Hm. unfold not_ok, ok_pair.
  rewrite (bind_done _ _ _ _ _ (getitem_field _ _ _ h Hs)).
  destruct (differs_from_str status "1"); [reflexivity|].
  rewrite (bind_done _ _ _ _ _ (getitem_field _ _ _ h Hm)).
  unfold ret. simpl. rewrite negb_involutive. reflexivity.
Qed.

Lemma field_not_empty (k : string) (r v : value) :
  field k r = Some v -> is_empty_dict r = false.
Proof. destruct r as [| | | | | |[|? ?]]; simpl; congruence. Qed.

Section Loops.

Context (w : world).

Lemma send_answered (params data : dict) (h : history) (p : value) :
  answer_of w (requests_sent h) = Some p ->
  send_etherscan_api_request w params data h = (Done p, h ++ [sending; post params data]).
Proof.
  unfold answer_of, send_etherscan_api_request, bind, print, emit, get_history.
  rewrite requests_sent_app, Nat.add_0_r.
  destruct (http w (requests_sent h)) as [msg|text]; [discriminate|].
  intros ->. unfold ret. rewrite <- app_assoc. reflexivity.
Qed.

Lemma result_at_answer (n : nat) (r : string) :
  result_at w n = Some r ->
  exists c, answer_of w n = Some c /\ field "result" c = Some (VStr r).
Proof.
  unfold result_at. destruct (answer_of w n) as [c|]; [|discriminate].
  destruct (field "result" c) as [[]|] eqn:E; try discriminate.
  intros [= ->]. eauto.
Qed.

Lemma stalls_first (needle : string) (n : nat) (rs : list string) (final : value) :
  stalls w needle n rs -> answer_of w (n + length rs) = Some final ->
  exists c, answer_of w n = Some c.
Proof.
  destruct rs as [|r rs]; simpl.
  - rewrite Nat.add_0_r. eauto.
  - intros (Hr & _) _. destruct (result_at_answer _ _ Hr) as (c & Hc & _). eauto.
Qed.

(** The submission loop, entered with the answer to request [n]. *)
Lemma submit_loop_located (params data : dict) (final : value) (rf : string) :
  field "result" final = Some (VStr rf) -> mentions "locate" rf = false ->
  forall (rs : list string) (fuel n : nat) (c : value) (h : history),
    (length rs <= fuel)%nat ->
    requests_sent h = S n ->
    answer_of w n = Some c ->
    stalls w "locate" n rs ->
    answer_of w (n + length rs) = Some final ->
    submit_loop w fuel params data c h
    = (Done final, h ++ flat_map (resubmission params data) rs).
Proof.
  intros Hrf Hno. induction rs as [|r rs IH]; intros fuel n c h Hfuel Hn Hc Hst Hfin.
  - rewrite Nat.add_0_r in Hfin. assert (c = final) as -> by congruence.
    rewrite app_nil_r.
    destruct fuel; cbn [submit_loop];
      rewrite (bind_done _ _ _ _ _ (result_mentions_field _ _ _ h Hrf)), Hno;
      reflexivity.
  - destruct Hst as (Hr & Hm & Hst).
    destruct (result_at_answer _ _ Hr) as (c' & Hc' & Hres).
    assert (c' = c) as -> by congruence.
    destruct fuel as [|fuel]; [simpl in Hfuel; lia|].
    simpl in Hfuel, Hfin.
    destruct (stalls_first _ _ _ _ Hst ltac:(rewrite <- Hfin; f_equal; lia))
      as (c1 & Hc1).
    cbn [submit_loop].
    rewrite (bind_done _ _ _ _ _ (result_mentions_field _ _ _ h Hres)), Hm.
    rewrite (bind_done _ _ _ _ _ (getitem_field _ _ _ h Hres)).
    unfold print_value, print, sleep, emit, bind at 1 2 3.
    set (h1 := ((h ++ _) ++ _) ++ _).
    assert (Hh1 : requests_sent h1 = S n).
    { unfold h1. rewrite !requests_sent_app, Hn. cbn. lia. }
    rewrite (bind_done _ _ _ _ _ (send_answered params data h1 c1 ltac:(rewrite Hh1; exact Hc1))).
    rewrite (IH fuel (S n) c1); try assumption; try lia.
    + f_equal. unfold h1. cbn [flat_map resubmission]. rewrite <- !app_assoc. reflexivity.
    + rewrite requests_sent_app, Hh1. cbn. lia.
    + rewrite <- Hfin. f_equal. lia.
Qed.

(** The whole submission: the first request and the resubmissions. *)
Lemma submit_located (params data : dict) (final : value) (rf : string)
    (rs : list string) (fuel : nat) (h : history) :
  field "result" final = Some (VStr rf) -> mentions "locate" rf = false ->
  (length rs <= fuel)%nat ->
  stalls w "locate" (requests_sent h) rs ->
  answer_of w (requests_sent h + length rs) = Some final ->
  submit w fuel params data h
  = (Done final,
     h ++ [sending; post params data] ++ flat_map (resubmission params data) rs).
Proof.
  intros Hrf Hno Hfuel Hst Hfin.
  destruct (stalls_first _ _ _ _ Hst Hfin) as (c & Hc).
  unfold submit.
  rewrite (bind_done _ _ _ _ _ (send_answered params data h c Hc)).
  rewrite (submit_loop_located params data final rf Hrf Hno rs fuel (requests_sent h) c);
    try assumption.
  - rewrite <- app_assoc. reflexivity.
  - rewrite requests_sent_app. cbn. lia.
Qed.

(** The polling loop, entered with the answer to status query [n]. *)
Lemma poll_loop_pending (g : globals) (params : dict) (guid final : value) (rf : string) :
  field "result" final = Some (VStr rf) -> mentions "pending" rf = false ->
  forall (rs : list string) (fuel n : nat) (c : value) (h : history),
    (length rs <= fuel)%nat ->
    requests_sent h = S n ->
    answer_of w n = Some c ->
    stalls w "pending" n rs ->
    answer_of w (n + length rs) = Some final ->
    poll_loop w fuel g params guid c h
    = (Done final, h ++ flat_map (requery params (status_request g guid)) rs).
Proof.
  intros Hrf Hno. induction rs as [|r rs IH]; intros fuel n c h Hfuel Hn Hc Hst Hfin.
  - rewrite Nat.add_0_r in Hfin. assert (c = final) as -> by congruence.
    rewrite app_nil_r.
    destruct fuel; cbn [poll_loop]; rewrite (field_not_empty _ _ _ Hrf);
      rewrite (bind_done _ _ _ _ _ (result_mentions_field _ _ _ h Hrf)), Hno;
      reflexivity.
  - destruct Hst as (Hr & Hm & Hst).
    destruct (result_at_answer _ _ Hr) as (c' & Hc' & Hres).
    assert (c' = c) as -> by congruence.
    destruct fuel as [|fuel]; [simpl in Hfuel; lia|].
    simpl in Hfuel, Hfin.
    destruct (stalls_first _ _ _ _ Hst ltac:(rewrite <- Hfin; f_equal; lia))
      as (c1 & Hc1).
    cbn [poll_loop]. rewrite (field_not_empty _ _ _ Hres).
    rewrite (bind_done _ _ _ _ _ (result_mentions_field _ _ _ h Hres)), Hm.
    cbn [negb].
    set (h1 := ((h ++ [Print (VStr r)]) ++
                [Print (VStr "Waiting for 15 seconds for Etherscan to process the request...")])
               ++ [Sleep 15]).
    assert (Hwait :
      (result <- getitem c "result";;
       print_value result;;;
       print "Waiting for 15 seconds for Etherscan to process the request...";;;
       sleep 15) h = (Done tt, h1)).
    { rewrite (bind_done _ _ _ _ _ (getitem_field _ _ _ h Hres)). reflexivity. }
    rewrite (bind_done _ _ _ _ _ Hwait).
    assert (Hh1 : requests_sent h1 = S n).
    { unfold h1. rewrite !requests_sent_app, Hn. cbn. lia. }
    rewrite (bind_done _ _ _ _ _
      (send_answered params (status_request g guid) h1 c1 ltac:(rewrite Hh1; exact Hc1))).
    rewrite (IH fuel (S n) c1); try assumption; try lia.
    + f_equal. unfold h1. cbn [flat_map requery]. rewrite <- !app_assoc. reflexivity.
    + rewrite requests_sent_app, Hh1. cbn. lia.
    + rewrite <- Hfin. f_equal. lia.
Qed.

(** The whole polling phase: it starts from the empty dictionary, so the
    first status query goes out at once. *)
Lemma poll_pending (g : globals) (params : dict) (guid final : value) (rf : string)
    (rs : list string) (fuel : nat) (h : history) :
  field "result" final = Some (VStr rf) -> mentions "pending" rf = false ->
  (S (length rs) <= fuel)%nat ->
  stalls w "pending" (requests_sent h) rs ->
  answer_of w (requests_sent h + length rs) = Some final ->
  poll_loop w fuel g params guid (VDict []) h
  = (Done final,
     h ++ [sending; post params (status_request g guid)]
       ++ flat_map (requery params (status_request g guid)) rs).
Proof.
  intros Hrf Hno Hfuel Hst Hfin.
  destruct (stalls_first _ _ _ _ Hst Hfin) as (c & Hc).
  destruct fuel as [|fuel]; [lia|].
  cbn [poll_loop is_empty_dict negb].
  unfold bind at 1. unfold ret at 1. unfold bind at 1. unfold ret at 1.
  rewrite (bind_done _ _ _ _ _ (send_answered params (status_request g guid) h c Hc)).
  rewrite (poll_loop_pending g params guid final rf Hrf Hno rs fuel (requests_sent h) c);
    try assumption; try lia.
  - rewrite <- app_assoc. reflexivity.
  - rewrite requests_sent_app. cbn. lia.
Qed.

End Loops.

(** ** Steps that touch nothing, and steps that only append *)

Lemma gives_ret {A} (Q : A -> Prop) (a : A) : Q a -> gives Q (ret a).
Proof. intros H h. split; [reflexivity|]. simpl. intros ? [= <-]. exact H. Qed.

Lemma gives_raise {A} (Q : A -> Prop) (e : exn) : gives Q (raise e).
Proof. intros h. split; [reflexivity|]. simpl. discriminate. Qed.

Lemma gives_get_history (Q : history -> Prop) :
  (forall h, Q h) -> gives Q get_history.
Proof. intros H h. split; [reflexivity|]. simpl. intros ? [= <-]. apply H. Qed.

Lemma gives_bind {A B} (Q1 : A -> Prop) (Q : B -> Prop) (m : M A) (k : A -> M B) :
  gives Q1 m -> (forall a, Q1 a -> gives Q (k a)) -> gives Q (bind m k).
Proof.
  intros Hm Hk h. destruct (Hm h) as [Hh Ha]. unfold bind.
  destruct (m h) as [[a| | |] h']; simpl in *; subst h';
    try (split; [reflexivity | discriminate]).
  apply Hk. apply Ha. reflexivity.
Qed.

Lemma gives_getitem (v : value) (k : string) : gives (fun _ => True) (getitem v k).
Proof.
  unfold getitem. destruct v; try apply gives_raise.
  destruct (dict_get k d); [apply gives_ret; exact I | apply gives_raise].
Qed.

Lemma gives_str_add (s : string) (v : value) : gives (fun _ => True) (str_add s v).
Proof. destruct v; simpl; try apply gives_raise. apply gives_ret. exact I. Qed.

Lemma gives_lower_method (v : value) : gives (fun _ => True) (lower_method v).
Proof. destruct v; simpl; try apply gives_raise. apply gives_ret. exact I. Qed.

Lemma gives_item (l : list string) (i : nat) : gives (fun _ => True) (item l i).
Proof. unfold item. destruct (l !! i); [apply gives_ret; exact I | apply gives_raise]. Qed.

Lemma gives_decode_utf8 (out : option string) : gives (fun _ => True) (decode_utf8 out).
Proof. destruct out; simpl; [apply gives_ret; exact I | apply gives_raise]. Qed.

Lemma gives_result_mentions (needle : string) (r : value) :
  gives (fun _ => True) (result_mentions needle r).
Proof.
  unfold result_mentions.
  eapply gives_bind; [apply gives_getitem|]. intros v _.
  eapply gives_bind; [apply gives_lower_method|]. intros l _.
  apply gives_ret. exact I.
Qed.

Lemma gives_not_ok (r : value) : gives (fun _ => True) (not_ok r).
Proof.
  unfold not_ok.
  eapply gives_bind; [apply gives_getitem|]. intros st _.
  destruct (differs_from_str st "1"); [apply gives_ret; exact I|].
  eapply gives_bind; [apply gives_getitem|]. intros m _.
  apply gives_ret. exact I.
Qed.

Lemma gives_license_number_of (v : value) :
  gives (fun _ => True) (license_number_of v).
Proof.
  unfold license_number_of. destruct v; try apply gives_raise.
  destruct (license_numbers !! s); [apply gives_ret; exact I | apply gives_raise].
Qed.

Lemma gives_open_read (w : world) (path : string) :
  gives (fun _ => True) (open_read w path).
Proof.
  unfold open_read.
  eapply gives_bind; [apply (gives_get_history (fun _ => True)); auto|]. intros h _.
  destruct (read_file w h path);
    [apply gives_raise | apply gives_raise | apply gives_ret; exact I].
Qed.

Lemma gives_load_artifact (w : world) (path : string) :
  gives (fun _ => True) (load_artifact w path).
Proof.
  unfold load_artifact.
  eapply gives_bind; [apply (gives_get_history (fun _ => True)); auto|]. intros h _.
  destruct (read_file w h path); try apply gives_raise.
  destruct (json_loads w content); [apply gives_ret; exact I | apply gives_raise].
Qed.

(** The request body is one [verify_request], around the very source text
    that is handed on for the log. *)
Lemma gives_build_request (w : world) (g : globals)
    (name address input_path output_path : string) :
  gives (fun request =>
           exists version enabled runs evm license,
             snd request = verify_request g name address (fst request)
                             version enabled runs evm license)
        (build_request w g name address input_path output_path).
Proof.
  unfold build_request.
  eapply gives_bind; [apply gives_load_artifact|]. intros content _.
  do 3 (eapply gives_bind; [apply gives_getitem|]; intros ? _).
  eapply gives_bind; [apply gives_str_add|]. intros compiler_version _.
  do 11 (eapply gives_bind; [apply gives_getitem|]; intros ? _).
  eapply gives_bind; [apply gives_license_number_of|]. intros license_number _.
  eapply gives_bind; [apply gives_open_read|]. intros code _.
  apply gives_ret. simpl. eauto 10.
Qed.

Lemma emits_gives {A} (P : event -> Prop) (Q : A -> Prop) (m : M A) :
  gives Q m -> emits P m.
Proof. intros H h. exists []. rewrite app_nil_r. split; [apply H | constructor]. Qed.

Lemma emits_ret {A} (P : event -> Prop) (a : A) : emits P (ret a).
Proof. intros h. exists []. rewrite app_nil_r. split; [reflexivity | constructor]. Qed.

Lemma emits_raise {A} (P : event -> Prop) (e : exn) : emits P (@raise A e).
Proof. intros h. exists []. rewrite app_nil_r. split; [reflexivity | constructor]. Qed.

Lemma emits_exit {A} (P : event -> Prop) (c : option string) : emits P (@exit A c).
Proof. intros h. exists []. rewrite app_nil_r. split; [reflexivity | constructor]. Qed.

Lemma emits_out_of_fuel {A} (P : event -> Prop) : emits P (@out_of_fuel A).
Proof. intros h. exists []. rewrite app_nil_r. split; [reflexivity | constructor]. Qed.

Lemma emits_emit (P : event -> Prop) (e : event) : P e -> emits P (emit e).
Proof. intros H h. exists [e]. split; [reflexivity | repeat constructor; exact H]. Qed.

Lemma emits_bind {A B} (P : event -> Prop) (m : M A) (k : A -> M B) :
  emits P m -> (forall a, emits P (k a)) -> emits P (bind m k).
Proof.
  intros Hm Hk h. destruct (Hm h) as (t & Ht & HP). unfold bind.
  destruct (m h) as [[a| | |] h']; simpl in Ht; subst h'; simpl; eauto.
  destruct (Hk a (h ++ t)) as (t' & Ht' & HP').
  exists (t ++ t'). rewrite Ht', app_assoc. split; [reflexivity|].
  apply Forall_app; auto.
Qed.

(** The same, when what [m] returns is known to have [Q]. *)
Lemma emits_bind_gives {A B} (P : event -> Prop) (Q : A -> Prop)
    (m : M A) (k : A -> M B) :
  gives Q m -> (forall a, Q a -> emits P (k a)) -> emits P (bind m k).
Proof.
  intros Hm Hk h. destruct (Hm h) as [Hh Ha]. unfold bind.
  destruct (m h) as [[a| | |] h']; simpl in *; subst h';
    try (exists []; rewrite app_nil_r; split; [reflexivity | constructor]).
  apply Hk. apply Ha. reflexivity.
Qed.

Lemma emits_try_except {A} (P : event -> Prop) (m : M A) (handler : exn -> M A) :
  emits P m -> (forall e, emits P (handler e)) -> emits P (try_except m handler).
Proof.
  intros Hm Hk h. destruct (Hm h) as (t & Ht & HP). unfold try_except.
  destruct (m h) as [[a| e | |] h']; simpl in Ht; subst h'; simpl; eauto.
  destruct (Hk e (h ++ t)) as (t' & Ht' & HP').
  exists (t ++ t'). rewrite Ht', app_assoc. split; [reflexivity|].
  apply Forall_app; auto.
Qed.

(** One step of a walk through a piece of the script: what it appends is
    either nothing or a single event that is not a request. *)
Ltac emits_step :=
  first
    [ apply emits_ret | apply emits_raise | apply emits_exit | apply emits_out_of_fuel
    | eapply emits_gives; first
        [ apply gives_getitem | apply gives_str_add | apply gives_lower_method
        | apply gives_item | apply gives_decode_utf8 | apply gives_result_mentions
        | apply gives_not_ok | apply gives_license_number_of | apply gives_open_read
        | apply gives_load_artifact | apply gives_build_request
        | apply (gives_get_history (fun _ => True)); intros; exact I ]
    | apply emits_emit
    | apply emits_bind; [|intros ?]
    | apply emits_try_except; [|intros ?] ].

Section Shapes.

Context (w : world) (P : event -> Prop).
Hypothesis others : forall e, is_post e = false -> P e.

Lemma emits_print (s : string) : emits P (print s).
Proof. apply emits_emit, others. reflexivity. Qed.

Lemma emits_print_value (v : value) : emits P (print_value v).
Proof. apply emits_emit, others. reflexivity. Qed.

Lemma emits_sleep (z : Z) : emits P (sleep z).
Proof. apply emits_emit, others. reflexivity. Qed.

Lemma emits_send (params data : dict) :
  P (post params data) -> emits P (send_etherscan_api_request w params data).
Proof.
  intros Hpost. unfold send_etherscan_api_request.
  apply emits_bind; [apply emits_print|]. intros _.
  apply emits_bind; [emits_step|]. intros h.
  apply emits_bind; [apply emits_emit, Hpost|]. intros _.
  destruct (http w (requests_sent h)); [apply emits_raise|].
  destruct (json_loads w text); [apply emits_ret|].
  apply emits_bind; [apply emits_emit, others; reflexivity|]. intros _.
  apply emits_raise.
Qed.

Lemma emits_submit_loop (params data : dict) :
  P (post params data) ->
  forall fuel c, emits P (submit_loop w fuel params data c).
Proof.
  intros Hpost. induction fuel as [|fuel IH]; intros c; cbn [submit_loop].
  - apply emits_bind; [emits_step|]. intros [|]; [apply emits_out_of_fuel | apply emits_ret].
  - apply emits_bind; [emits_step|]. intros [|]; [|apply emits_ret].
    apply emits_bind; [emits_step|]. intros r.
    apply emits_bind; [apply emits_print_value|]. intros _.
    apply emits_bind; [apply emits_print|]. intros _.
    apply emits_bind; [apply emits_sleep|]. intros _.
    apply emits_bind; [apply emits_send, Hpost|]. intros c'. apply IH.
Qed.

Lemma emits_submit (params data : dict) (fuel : nat) :
  P (post params data) -> emits P (submit w fuel params data).
Proof.
  intros Hpost. unfold submit.
  apply emits_bind; [apply emits_send, Hpost|]. intros c.
  apply emits_submit_loop, Hpost.
Qed.

Lemma emits_poll_loop (g : globals) (params : dict) (guid : value) :
  P (post params (status_request g guid)) ->
  forall fuel c, emits P (poll_loop w fuel g params guid c).
Proof.
  intros Hpost. induction fuel as [|fuel IH]; intros c; cbn [poll_loop].
  - apply emits_bind; [destruct (is_empty_dict c); emits_step|].
    intros [|]; [apply emits_out_of_fuel | apply emits_ret].
  - apply emits_bind; [destruct (is_empty_dict c); emits_step|].
    intros [|]; [|apply emits_ret].
    apply emits_bind.
    + destruct (negb (is_empty_dict c)); [|apply emits_ret].
      apply emits_bind; [emits_step|]. intros r.
      apply emits_bind; [apply emits_print_value|]. intros _.
      apply emits_bind; [apply emits_print|]. intros _. apply emits_sleep.
    + intros _. apply emits_bind; [apply emits_send, Hpost|]. intros c'. apply IH.
Qed.

Lemma emits_poll (g : globals) (fuel : nat) (params : dict) (code : string) (guid : value) :
  P (post params (status_request g guid)) ->
  emits P (poll w g fuel params code guid).
Proof.
  intros Hpost. unfold poll.
  apply emits_bind; [apply emits_poll_loop, Hpost|]. intros c.
  apply emits_bind; [emits_step|]. intros [|]; [|apply emits_ret].
  apply emits_bind; [emits_step|]. intros r.
  apply emits_bind; [emits_step|]. intros line.
  apply emits_bind; [apply emits_print|]. intros _.
  apply emits_bind; [emits_step|]. intros [|]; [apply emits_ret|].
  apply emits_bind; [apply emits_emit, others; reflexivity|]. intros _.
  apply emits_bind; [apply emits_print|]. intros _.
  apply emits_raise.
Qed.

Lemma emits_verify_contract (g : globals) (fuel : nat)
    (name address input_path output_path : string) :
  (forall code version enabled runs evm license,
      P (post (chain_params g)
              (verify_request g name address code version enabled runs evm license))) ->
  (forall guid, P (post (chain_params g) (status_request g guid))) ->
  emits P (verify_contract w g fuel name address input_path output_path).
Proof.
  intros Hsubmit Hstatus. unfold verify_contract.
  eapply emits_bind_gives; [apply gives_build_request|].
  intros [code data] (version & enabled & runs & evm & license & Hdata).
  simpl in Hdata. subst data. cbn [fst snd].
  apply emits_bind; [apply emits_submit, Hsubmit|]. intros c.
  apply emits_bind; [emits_step|]. intros [|].
  - apply emits_bind; [emits_step|]. intros r.
    apply emits_bind; [emits_step|]. intros line.
    apply emits_bind; [apply emits_print|]. intros _.
    apply emits_bind; [emits_step|]. intros [|]; [apply emits_ret | apply emits_raise].
  - apply emits_bind; [emits_step|]. intros r.
    apply emits_bind; [emits_step|]. intros line.
    apply emits_bind; [apply emits_print|]. intros _.
    apply emits_bind; [emits_step|]. intros guid.
    apply emits_poll, Hstatus.
Qed.

End Shapes.

(** ** Runs of [verify_contract] against a server that settles *)

Lemma requests_sent_resubmissions (params data : dict) (rs : list string) :
  requests_sent (flat_map (resubmission params data) rs) = length rs.
Proof.
  induction rs as [|r rs IH]; [reflexivity|].
  cbn [flat_map]. rewrite requests_sent_app, IH. reflexivity.
Qed.

Lemma requests_sent_submission (params data : dict) (rs : list string) :
  requests_sent (submission_events params data rs) = S (length rs).
Proof.
  unfold submission_events. rewrite requests_sent_app, requests_sent_resubmissions.
  reflexivity.
Qed.

Section Runs.

Context (w : world).

Lemma settles_final (needle : string) (n : nat) (rs : list string)
    (status message : value) (r : string) :
  settles w needle n rs status message r ->
  exists final,
    answer_of w (n + length rs) = Some final /\
    field "status" final = Some status /\
    field "message" final = Some message /\
    field "result" final = Some (VStr r).
Proof.
  intros (_ & Hs & Hm & Hr & _).
  unfold field_at in Hs, Hm.
  destruct (result_at_answer _ _ _ Hr) as (final & Ha & Hres).
  rewrite Ha in Hs, Hm. eauto.
Qed.

Lemma submit_settles (params data : dict) (rs : list string)
    (status message : value) (r : string) (fuel : nat) (h : history) :
  settles w "locate" (requests_sent h) rs status message r ->
  (length rs <= fuel)%nat ->
  exists final,
    submit w fuel params data h = (Done final, h ++ submission_events params data rs) /\
    field "status" final = Some status /\
    field "message" final = Some message /\
    field "result" final = Some (VStr r).
Proof.
  intros Hs Hfuel.
  destruct (settles_final _ _ _ _ _ _ Hs) as (final & Ha & Hst & Hm & Hr).
  destruct Hs as (Hstalls & _ & _ & _ & Hno).
  exists final. repeat split; try assumption.
  apply (submit_located w params data final r rs fuel h); assumption.
Qed.

(** The polling phase, whatever its last answer says. *)
Lemma poll_verdict (g : globals) (params : dict) (code : string) (guid : value)
    (rs : list string) (status message : value) (r : string)
    (fuel : nat) (h : history) :
  settles w "pending" (requests_sent h) rs status message r ->
  (S (length rs) <= fuel)%nat ->
  poll w g fuel params code guid h
  = if ok_pair status message then
      (Done tt, h ++ polling_events params (status_request g guid) rs)
    else if mentions "already verified" r then
      (Done tt,
       h ++ polling_events params (status_request g guid) rs
         ++ [Print (VStr ("Error: " +:+ r))])
    else
      (Raised (Exception "Failed to get verification status"),
       h ++ polling_events params (status_request g guid) rs
         ++ [Print (VStr ("Error: " +:+ r));
             Write (log_name w) code;
             Print (VStr ("log written to " +:+ log_name w))]).
Proof.
  intros Hs Hfuel.
  destruct (settles_final _ _ _ _ _ _ Hs) as (final & Ha & Hst & Hm & Hr).
  destruct Hs as (Hstalls & _ & _ & _ & Hno).
  unfold poll.
  rewrite (bind_done _ _ _ _ _
    (poll_pending w g params guid final r rs fuel h Hr Hno Hfuel Hstalls Ha)).
  fold (polling_events params (status_request g guid) rs).
  set (h1 := h ++ polling_events params (status_request g guid) rs).
  rewrite (bind_done _ _ _ _ _ (not_ok_fields _ _ _ h1 Hst Hm)).
  destruct (ok_pair status message); cbn [negb]; [reflexivity|].
  rewrite (bind_done _ _ _ _ _ (getitem_field _ _ _ h1 Hr)).
  cbn [str_add]. unfold bind at 1. unfold ret at 1.
  unfold print at 1. unfold bind at 1. unfold emit at 1.
  rewrite (bind_done _ _ _ _ _ (result_mentions_field _ _ _ _ Hr)).
  unfold h1. destruct (mentions "already verified" r).
  - unfold ret. rewrite <- app_assoc. reflexivity.
  - unfold bind, emit, print, emit, raise. rewrite <- !app_assoc. reflexivity.
Qed.

Section Contract.

Context (g : globals) (fuel : nat) (name address input_path output_path : string).
Context (h : history) (code : string) (data : dict).

Hypothesis built :
  build_request w g name address input_path output_path h = (Done (code, data), h).

(** The submission ends on an answer that is not a clean success. *)
Lemma verify_contract_refused (rs : list string) (status message : value) (r : string) :
  settles w "locate" (requests_sent h) rs status message r ->
  ok_pair status message = false ->
  (length rs <= fuel)%nat ->
  verify_contract w g fuel name address input_path output_path h
  = (if mentions "already verified" r then Done tt
     else Raised (Exception "Failed to verify"),
     h ++ submission_events (chain_params g) data rs
       ++ [Print (VStr ("Error: " +:+ r))]).
Proof.
  intros Hs Hbad Hfuel. unfold verify_contract.
  rewrite (bind_done _ _ _ _ _ built). cbn [fst snd].
  destruct (submit_settles (chain_params g) data rs status message r fuel h Hs Hfuel)
    as (final & Hsub & Hst & Hm & Hr).
  unfold chain_params in Hsub. rewrite (bind_done _ _ _ _ _ Hsub).
  fold (chain_params g).
  set (h1 := h ++ submission_events (chain_params g) data rs).
  rewrite (bind_done _ _ _ _ _ (not_ok_fields _ _ _ h1 Hst Hm)).
  rewrite Hbad. cbn [negb].
  rewrite (bind_done _ _ _ _ _ (getitem_field _ _ _ h1 Hr)).
  cbn [str_add]. unfold bind at 1. unfold ret at 1.
  unfold print at 1. unfold bind at 1. unfold emit at 1.
  rewrite (bind_done _ _ _ _ _ (result_mentions_field _ _ _ _ Hr)).
  unfold h1. rewrite <- app_assoc.
  destruct (mentions "already verified" r); reflexivity.
Qed.

(** The submission ends on a clean success: polling starts with its guid. *)
Lemma verify_contract_accepted (rs : list string) (guid : string) :
  settles w "locate" (requests_sent h) rs (VStr "1") (VStr "OK") guid ->
  (length rs <= fuel)%nat ->
  verify_contract w g fuel name address input_path output_path h
  = poll w g fuel (chain_params g) code (VStr guid)
      (h ++ submission_events (chain_params g) data rs
         ++ [Print (VStr ("Sent verification request with guid " +:+ guid))]).
Proof.
  intros Hs Hfuel. unfold verify_contract.
  rewrite (bind_done _ _ _ _ _ built). cbn [fst snd].
  destruct (submit_settles (chain_params g) data rs _ _ guid fuel h Hs Hfuel)
    as (final & Hsub & Hst & Hm & Hr).
  unfold chain_params in Hsub. rewrite (bind_done _ _ _ _ _ Hsub).
  fold (chain_params g).
  set (h1 := h ++ submission_events (chain_params g) data rs).
  rewrite (bind_done _ _ _ _ _ (not_ok_fields _ _ _ h1 Hst Hm)).
  cbn [ok_pair differs_from_str String.eqb Ascii.eqb Bool.eqb negb andb].
  rewrite (bind_done _ _ _ _ _ (getitem_field _ _ _ h1 Hr)).
  cbn [str_add]. unfold bind at 1. unfold ret at 1.
  unfold print at 1. unfold bind at 1. unfold emit at 1.
  rewrite (bind_done _ _ _ _ _ (getitem_field _ _ _ _ Hr)).
  unfold h1. rewrite <- app_assoc. reflexivity.
Qed.

End Contract.

End Runs.

(** ** Counting in histories *)

Lemma filter_none (f : event -> bool) (l : list event) :
  Forall (fun e => f e = false) l -> List.filter f l = [].
Proof.
  induction 1 as [|e l He _ IH]; [reflexivity|]. simpl. rewrite He. exact IH.
Qed.

Lemma waits_between_none (f : event -> bool) (l : list event) :
  Forall (fun e => f e = false) l -> forall acc, waits_between f acc l = [].
Proof.
  induction 1 as [|e l He _ IH]; intros acc; [reflexivity|].
  simpl. rewrite He. destruct e; apply IH.
Qed.

Section Turns.

Context (f : event -> bool) (turn : string -> list event) (e : event).
Hypothesis turn_shape :
  forall r, exists v1 v2, turn r = [Print v1; Print v2; Sleep 15; sending; e].
Hypothesis f_print : forall v, f (Print v) = false.
Hypothesis f_sleep : forall z, f (Sleep z) = false.

Lemma filter_turns_hit (rs : list string) (tail : list event) :
  f e = true ->
  List.filter f (flat_map turn rs ++ tail) = repeat e (length rs) ++ List.filter f tail.
Proof.
  intros He. induction rs as [|r rs IH]; [reflexivity|].
  destruct (turn_shape r) as (v1 & v2 & Hr).
  cbn [flat_map]. rewrite Hr. unfold sending. simpl.
  rewrite !f_print, f_sleep, He, IH. reflexivity.
Qed.

Lemma filter_turns_miss (rs : list string) :
  f e = false -> Forall (fun x => f x = false) (flat_map turn rs).
Proof.
  intros He. induction rs as [|r rs IH]; [constructor|].
  destruct (turn_shape r) as (v1 & v2 & Hr).
  cbn [flat_map]. rewrite Hr. unfold sending.
  repeat (constructor; [solve [apply f_print | apply f_sleep | exact He]|]).
  exact IH.
Qed.

Lemma waits_between_turns (rs : list string) (tail : list event) :
  f e = true ->
  waits_between f [] (flat_map turn rs ++ tail)
  = repeat [15] (length rs) ++ waits_between f [] tail.
Proof.
  intros He. induction rs as [|r rs IH]; [reflexivity|].
  destruct (turn_shape r) as (v1 & v2 & Hr).
  cbn [flat_map]. rewrite Hr. unfold sending. simpl.
  rewrite !f_print, f_sleep, He, IH. reflexivity.
Qed.

End Turns.

Lemma resubmission_shape (params data : dict) (r : string) :
  exists v1 v2, resubmission params data r
                = [Print v1; Print v2; Sleep 15; sending; post params data].
Proof. unfold resubmission. eauto. Qed.

Lemma requery_shape (params data : dict) (r : string) :
  exists v1 v2, requery params data r
                = [Print v1; Print v2; Sleep 15; sending; post params data].
Proof. unfold requery. eauto. Qed.

Lemma last_write_app (path : string) (h t : history) :
  last_write path (h ++ t)
  = match last_write path t with
    | Some c => Some c
    | None => last_write path h
    end.
Proof.
  induction h as [|e h IH]; simpl.
  - destruct (last_write path t); reflexivity.
  - rewrite IH. destruct (last_write path t); reflexivity.
Qed.

Lemma built_request (w : world) (g : globals)
    (name address input_path output_path : string) (h h' : history)
    (code : string) (data : dict) :
  build_request w g name address input_path output_path h = (Done (code, data), h') ->
  exists version enabled runs evm license,
    data = verify_request g name address code version enabled runs evm license.
Proof.
  intros H.
  destruct (gives_build_request w g name address input_path output_path h) as [_ Hq].
  rewrite H in Hq. exact (Hq _ eq_refl).
Qed.

(** ** The submission and polling protocol *)

Lemma is_submission_not_post (e : event) : is_post e = false -> is_submission e = false.
Proof. destruct e; simpl; congruence. Qed.

Lemma submissions_of_submission (g : globals) (params : dict)
    (name address code version : string) (enabled runs evm : value) (license : Z)
    (rs : list string) (tail : list event) :
  let data := verify_request g name address code version enabled runs evm license in
  Forall (fun e => is_submission e = false) tail ->
  List.filter is_submission (submission_events params data rs ++ tail)
  = repeat (post params data) (S (length rs)) /\
  waits_between is_submission [] (submission_events params data rs ++ tail)
  = [] :: repeat [15] (length rs).
Proof.
  intros data Htail. unfold submission_events. rewrite <- app_assoc. split.
  - change (List.filter is_submission (([sending; post params data]
              ++ flat_map (resubmission params data) rs ++ tail)))
      with (post params data
              :: List.filter is_submission (flat_map (resubmission params data) rs ++ tail)).
    rewrite (filter_turns_hit is_submission _ _ (resubmission_shape params data));
      try reflexivity.
    rewrite (filter_none _ _ Htail), app_nil_r. reflexivity.
  - change (waits_between is_submission [] ([sending; post params data]
              ++ flat_map (resubmission params data) rs ++ tail))
      with ([] :: waits_between is_submission []
                    (flat_map (resubmission params data) rs ++ tail)).
    rewrite (waits_between_turns is_submission _ _ (resubmission_shape params data));
      try reflexivity.
    rewrite (waits_between_none _ _ Htail), app_nil_r. reflexivity.
Qed.

(** C1.  When the first N answers to the submission mention "locate" (in
    any letter case) and the next is a clean success (status '1', message
    'OK', and a result, the guid, that does not mention "locate"),
    [verify_contract] posts the same verification request exactly N+1 times,
    sleeps 15 seconds, once, between one submission and the next and not
    before the first, and every status query it makes afterwards carries the
    guid of that last answer.  The budget of turns must be at least N. *)
Theorem submission_repeats_until_located (w : world) (g : globals) (fuel : nat)
    (name address input_path output_path : string) (h : history)
    (code : string) (data : dict) (rs : list string) (guid : string) :
  build_request w g name address input_path output_path h = (Done (code, data), h) ->
  settles w "locate" (requests_sent h) rs (VStr "1") (VStr "OK") guid ->
  (length rs <= fuel)%nat ->
  exists rest,
    let events :=
      submission_events (chain_params g) data rs
      ++ [Print (VStr ("Sent verification request with guid " +:+ guid))] ++ rest in
    snd (verify_contract w g fuel name address input_path output_path h) = h ++ events /\
    List.filter is_submission events = repeat (post (chain_params g) data) (S (length rs)) /\
    waits_between is_submission [] events = [] :: repeat [15] (length rs) /\
    Forall (fun e => is_post e = true ->
                     e = post (chain_params g) (status_request g (VStr guid))) rest.
Proof.
  intros Hbuilt Hs Hfuel.
  rewrite (verify_contract_accepted w g fuel name address input_path output_path
             h code data Hbuilt rs guid Hs Hfuel).
  set (P := fun e => is_post e = true ->
                     e = post (chain_params g) (status_request g (VStr guid))).
  assert (Hothers : forall e, is_post e = false -> P e).
  { intros e He Hp. congruence. }
  destruct (emits_poll w P Hothers g fuel (chain_params g) code (VStr guid)
              (fun _ => eq_refl)
              (h ++ submission_events (chain_params g) data rs
                 ++ [Print (VStr ("Sent verification request with guid " +:+ guid))]))
    as (rest & Hrest & HP).
  exists rest. cbn zeta. rewrite Hrest, <- !app_assoc.
  split; [reflexivity|].
  destruct (built_request _ _ _ _ _ _ _ _ _ _ Hbuilt)
    as (version & enabled & runs & evm & license & ->).
  assert (Htail : Forall (fun e => is_submission e = false)
                    ([Print (VStr ("Sent verification request with guid " +:+ guid))]
                       ++ rest)).
  { constructor; [reflexivity|].
    eapply Forall_impl; [exact HP|]. intros e He.
    destruct (is_post e) eqn:Hpost; [|apply is_submission_not_post, Hpost].
    rewrite (He Hpost). reflexivity. }
  destruct (submissions_of_submission g (chain_params g) name address code version
              enabled runs evm license rs _ Htail) as [Hf Hw].
  auto.
Qed.

Lemma submission_repeats_until_located_witness :
  exists rest,
    let events :=
      submission_events (chain_params Sample.g0) Sample.request
        ["Unable to locate ContractCode at 0x11"]
      ++ [Print (VStr ("Sent verification request with guid " +:+ "guid-1"))] ++ rest in
    snd (verify_contract
           (Sample.built_world [Sample.located; Sample.accepted; Sample.pending; Sample.passed])
           Sample.g0 3 "DssSpell" Sample.spell_address
           Sample.spell_source Sample.spell_artifact [])
    = [] ++ events /\
    List.filter is_submission events
    = repeat (post (chain_params Sample.g0) Sample.request) 2 /\
    waits_between is_submission [] events = [[]; [15]] /\
    Forall (fun e => is_post e = true ->
                     e = post (chain_params Sample.g0)
                           (status_request Sample.g0 (VStr "guid-1"))) rest.
Proof.
  apply (submission_repeats_until_located
           (Sample.built_world [Sample.located; Sample.accepted; Sample.pending; Sample.passed])
           Sample.g0 3 "DssSpell" Sample.spell_address
           Sample.spell_source Sample.spell_artifact []
           Sample.flat_source Sample.request
           ["Unable to locate ContractCode at 0x11"] "guid-1").
  - vm_compute. reflexivity.
  - vm_compute. repeat split.
  - simpl. lia.
Defined.

Lemma queries_of_polling (g : globals) (params : dict) (guid : value)
    (rs : list string) (tail : list event) :
  let data := status_request g guid in
  Forall (fun e => is_status_query e = false) tail ->
  List.filter is_status_query (polling_events params data rs ++ tail)
  = repeat (post params data) (S (length rs)) /\
  waits_between is_status_query [] (polling_events params data rs ++ tail)
  = [] :: repeat [15] (length rs).
Proof.
  intros data Htail. unfold polling_events. rewrite <- app_assoc. split.
  - change (List.filter is_status_query (([sending; post params data]
              ++ flat_map (requery params data) rs ++ tail)))
      with (post params data
              :: List.filter is_status_query (flat_map (requery params data) rs ++ tail)).
    rewrite (filter_turns_hit is_status_query _ _ (requery_shape params data));
      try reflexivity.
    rewrite (filter_none _ _ Htail), app_nil_r. reflexivity.
  - change (waits_between is_status_query [] ([sending; post params data]
              ++ flat_map (requery params data) rs ++ tail))
      with ([] :: waits_between is_status_query []
                    (flat_map (requery params data) rs ++ tail)).
    rewrite (waits_between_turns is_status_query _ _ (requery_shape params data));
      try reflexivity.
    rewrite (waits_between_none _ _ Htail), app_nil_r. reflexivity.
Qed.

Lemma no_queries_in_submission (g : globals) (params : dict)
    (name address code version : string) (enabled runs evm : value) (license : Z)
    (rs : list string) :
  Forall (fun e => is_status_query e = false)
    (submission_events params
       (verify_request g name address code version enabled runs evm license) rs).
Proof.
  unfold submission_events. apply Forall_app. split.
  - repeat constructor.
  - apply (filter_turns_miss is_status_query _ _ (resubmission_shape params _));
      reflexivity.
Qed.

Lemma no_writes_in_submission (params data : dict) (rs : list string) :
  Forall (fun e => is_write e = false) (submission_events params data rs).
Proof.
  unfold submission_events. apply Forall_app. split.
  - repeat constructor.
  - apply (filter_turns_miss is_write _ _ (resubmission_shape params data));
      reflexivity.
Qed.

Lemma no_writes_in_polling (params data : dict) (rs : list string) :
  Forall (fun e => is_write e = false) (polling_events params data rs).
Proof.
  unfold polling_events. apply Forall_app. split.
  - repeat constructor.
  - apply (filter_turns_miss is_write _ _ (requery_shape params data));
      reflexivity.
Qed.

Lemma requests_sent_announced (h : history) (params data : dict)
    (rs : list string) (v : value) :
  requests_sent (h ++ submission_events params data rs ++ [Print v])
  = (requests_sent h + S (length rs))%nat.
Proof.
  rewrite !requests_sent_app, requests_sent_submission. cbn. lia.
Qed.

(** C2.  When the first M answers to the status query mention "pending"
    (in any letter case) and the next, which does not, is a success or says
    the contract is already verified, the polling phase of [verify_contract]
    makes exactly M+1 status queries, the first at once and each later one
    after a single sleep of 15 seconds, and [verify_contract] returns without
    raising.  The budget of turns must be at least M+1 (and enough for the
    submission that came before). *)
Theorem polling_repeats_while_pending (w : world) (g : globals) (fuel : nat)
    (name address input_path output_path : string) (h : history)
    (code : string) (data : dict) (ls : list string) (guid : string)
    (ps : list string) (status message : value) (r : string) :
  build_request w g name address input_path output_path h = (Done (code, data), h) ->
  settles w "locate" (requests_sent h) ls (VStr "1") (VStr "OK") guid ->
  settles w "pending" (requests_sent h + S (length ls)) ps status message r ->
  ok_pair status message = true \/ mentions "already verified" r = true ->
  (length ls <= fuel)%nat ->
  (S (length ps) <= fuel)%nat ->
  let query := post (chain_params g) (status_request g (VStr guid)) in
  let submitting :=
    submission_events (chain_params g) data ls
    ++ [Print (VStr ("Sent verification request with guid " +:+ guid))] in
  let polling :=
    polling_events (chain_params g) (status_request g (VStr guid)) ps
    ++ (if ok_pair status message then [] else [Print (VStr ("Error: " +:+ r))]) in
  verify_contract w g fuel name address input_path output_path h
  = (Done tt, h ++ submitting ++ polling) /\
  List.filter is_status_query (submitting ++ polling) = repeat query (S (length ps)) /\
  waits_between is_status_query [] polling = [] :: repeat [15] (length ps).
Proof.
  intros Hbuilt Hs Hp Hgood Hfuel Hfuel' query submitting polling.
  assert (Htail : Forall (fun e => is_status_query e = false)
                    (if ok_pair status message then []
                     else [Print (VStr ("Error: " +:+ r))])).
  { destruct (ok_pair status message); repeat constructor. }
  destruct (queries_of_polling g (chain_params g) (VStr guid) ps _ Htail) as [Hf Hw].
  split; [|split; [|exact Hw]].
  - rewrite (verify_contract_accepted w g fuel name address input_path output_path
               h code data Hbuilt ls guid Hs Hfuel).
    rewrite (poll_verdict w g (chain_params g) code (VStr guid) ps status message r fuel);
      [| rewrite requests_sent_announced; exact Hp | exact Hfuel'].
    unfold submitting, polling. rewrite <- !app_assoc.
    destruct (ok_pair status message); [rewrite app_nil_r; reflexivity|].
    destruct Hgood as [?| ->]; [discriminate|]. reflexivity.
  - destruct (built_request _ _ _ _ _ _ _ _ _ _ Hbuilt)
      as (version & enabled & runs & evm & license & ->).
    unfold submitting. rewrite List.filter_app, List.filter_app.
    rewrite (filter_none _ _ (no_queries_in_submission g (chain_params g) name address
                                code version enabled runs evm license ls)).
    exact Hf.
Qed.

Lemma polling_repeats_while_pending_witness :
  let w := Sample.built_world [Sample.located; Sample.accepted; Sample.pending; Sample.passed] in
  let query := post (chain_params Sample.g0) (status_request Sample.g0 (VStr "guid-1")) in
  let submitting :=
    submission_events (chain_params Sample.g0) Sample.request
      ["Unable to locate ContractCode at 0x11"]
    ++ [Print (VStr ("Sent verification request with guid " +:+ "guid-1"))] in
  let polling :=
    polling_events (chain_params Sample.g0) (status_request Sample.g0 (VStr "guid-1"))
      ["Pending in queue"]
    ++ (if ok_pair (VStr "1") (VStr "OK") then []
        else [Print (VStr ("Error: " +:+ "Pass - Verified"))]) in
  verify_contract w Sample.g0 3 "DssSpell" Sample.spell_address
    Sample.spell_source Sample.spell_artifact []
  = (Done tt, [] ++ submitting ++ polling) /\
  List.filter is_status_query (submitting ++ polling) = repeat query 2 /\
  waits_between is_status_query [] polling = [[]; [15]].
Proof.
  apply (polling_repeats_while_pending
           (Sample.built_world [Sample.located; Sample.accepted; Sample.pending; Sample.passed])
           Sample.g0 3 "DssSpell" Sample.spell_address
           Sample.spell_source Sample.spell_artifact []
           Sample.flat_source Sample.request
           ["Unable to locate ContractCode at 0x11"] "guid-1"
           ["Pending in queue"] (VStr "1") (VStr "OK") "Pass - Verified").
  - vm_compute. reflexivity.
  - vm_compute. repeat split.
  - vm_compute. repeat split.
  - left. reflexivity.
  - simpl. lia.
  - simpl. lia.
Defined.

(** C3.  When the answer that ends the polling is not a success (its
    status is not '1' or its message is not 'OK') and does not say the
    contract is already verified, [verify_contract] writes the log file named
    after the timestamp with exactly the flattened source that went out in the
    request, prints the path of the log, and raises "Failed to get
    verification status". *)
Theorem failed_status_is_logged (w : world) (g : globals) (fuel : nat)
    (name address input_path output_path : string) (h : history)
    (code : string) (data : dict) (ls : list string) (guid : string)
    (ps : list string) (status message : value) (r : string) :
  build_request w g name address input_path output_path h = (Done (code, data), h) ->
  settles w "locate" (requests_sent h) ls (VStr "1") (VStr "OK") guid ->
  settles w "pending" (requests_sent h + S (length ls)) ps status message r ->
  ok_pair status message = false ->
  mentions "already verified" r = false ->
  (length ls <= fuel)%nat ->
  (S (length ps) <= fuel)%nat ->
  let run := verify_contract w g fuel name address input_path output_path h in
  run = (Raised (Exception "Failed to get verification status"),
         h ++ submission_events (chain_params g) data ls
           ++ [Print (VStr ("Sent verification request with guid " +:+ guid))]
           ++ polling_events (chain_params g) (status_request g (VStr guid)) ps
           ++ [Print (VStr ("Error: " +:+ r));
               Write ("verify-" +:+ timestamp w +:+ ".log") code;
               Print (VStr ("log written to " +:+ "verify-" +:+ timestamp w +:+ ".log"))]) /\
  dict_get "sourceCode" data = Some (VStr code) /\
  read_file w (snd run) ("verify-" +:+ timestamp w +:+ ".log") = Text code.
Proof.
  intros Hbuilt Hs Hp Hbad Hnot Hfuel Hfuel' run.
  assert (Hrun : run = (Raised (Exception "Failed to get verification status"),
         h ++ submission_events (chain_params g) data ls
           ++ [Print (VStr ("Sent verification request with guid " +:+ guid))]
           ++ polling_events (chain_params g) (status_request g (VStr guid)) ps
           ++ [Print (VStr ("Error: " +:+ r));
               Write (log_name w) code;
               Print (VStr ("log written to " +:+ log_name w))])).
  { unfold run.
    rewrite (verify_contract_accepted w g fuel name address input_path output_path
               h code data Hbuilt ls guid Hs Hfuel).
    rewrite (poll_verdict w g (chain_params g) code (VStr guid) ps status message r fuel);
      [| rewrite requests_sent_announced; exact Hp | exact Hfuel'].
    rewrite Hbad, Hnot, <- !app_assoc. reflexivity. }
  split; [exact Hrun|]. split.
  - destruct (built_request _ _ _ _ _ _ _ _ _ _ Hbuilt)
      as (version & enabled & runs & evm & license & ->).
    reflexivity.
  - rewrite Hrun. cbn [snd]. unfold read_file.
    rewrite !app_assoc, last_write_app. fold (log_name w).
    cbn [last_write]. rewrite String.eqb_refl. reflexivity.
Qed.

Lemma failed_status_is_logged_witness :
  let w := Sample.built_world [Sample.accepted; Sample.pending; Sample.rejected] in
  let run := verify_contract w Sample.g0 2 "DssSpell" Sample.spell_address
               Sample.spell_source Sample.spell_artifact [] in
  run = (Raised (Exception "Failed to get verification status"),
         [] ++ submission_events (chain_params Sample.g0) Sample.request []
           ++ [Print (VStr ("Sent verification request with guid " +:+ "guid-1"))]
           ++ polling_events (chain_params Sample.g0)
                (status_request Sample.g0 (VStr "guid-1")) ["Pending in queue"]
           ++ [Print (VStr ("Error: " +:+ "Fail - Unable to verify"));
               Write ("verify-" +:+ timestamp w +:+ ".log") Sample.flat_source;
               Print (VStr ("log written to " +:+ "verify-" +:+ timestamp w +:+ ".log"))]) /\
  dict_get "sourceCode" Sample.request = Some (VStr Sample.flat_source) /\
  read_file w (snd run) ("verify-" +:+ timestamp w +:+ ".log") = Text Sample.flat_source.
Proof.
  apply (failed_status_is_logged
           (Sample.built_world [Sample.accepted; Sample.pending; Sample.rejected])
           Sample.g0 2 "DssSpell" Sample.spell_address
           Sample.spell_source Sample.spell_artifact []
           Sample.flat_source Sample.request
           [] "guid-1" ["Pending in queue"] (VStr "0") (VStr "NOTOK")
           "Fail - Unable to verify").
  - vm_compute. reflexivity.
  - vm_compute. repeat split.
  - vm_compute. repeat split.
  - reflexivity.
  - reflexivity.
  - simpl. lia.
  - simpl. lia.
Defined.

(** C4.  When the answer that ends the submission, or the answer that ends
    the polling, is not a success but says "already verified" in whatever
    letter case, [verify_contract] returns normally and writes no file. *)
Theorem already_verified_returns (w : world) (g : globals) (fuel : nat)
    (name address input_path output_path : string) (h : history)
    (code : string) (data : dict) (ls : list string)
    (status message : value) (r : string)
    (ps : list string) (status' message' : value) (r' : string) :
  build_request w g name address input_path output_path h = (Done (code, data), h) ->
  settles w "locate" (requests_sent h) ls status message r ->
  (length ls <= fuel)%nat ->
  (ok_pair status message = false /\ mentions "already verified" r = true)
  \/ (status = VStr "1" /\ message = VStr "OK" /\
      settles w "pending" (requests_sent h + S (length ls)) ps status' message' r' /\
      (S (length ps) <= fuel)%nat /\
      ok_pair status' message' = false /\ mentions "already verified" r' = true) ->
  let run := verify_contract w g fuel name address input_path output_path h in
  fst run = Done tt /\
  List.filter is_write (snd run) = List.filter is_write h.
Proof.
  intros Hbuilt Hs Hfuel [[Hbad Hav] | (-> & -> & Hp & Hfuel' & Hbad & Hav)] run.
  - unfold run.
    rewrite (verify_contract_refused w g fuel name address input_path output_path
               h code data Hbuilt ls status message r Hs Hbad Hfuel).
    rewrite Hav. cbn [fst snd]. split; [reflexivity|].
    rewrite !List.filter_app, (filter_none _ _ (no_writes_in_submission _ _ _)).
    cbn. rewrite ?app_nil_r. reflexivity.
  - unfold run.
    rewrite (verify_contract_accepted w g fuel name address input_path output_path
               h code data Hbuilt ls r Hs Hfuel).
    rewrite (poll_verdict w g (chain_params g) code (VStr r) ps status' message' r' fuel);
      [| rewrite requests_sent_announced; exact Hp | exact Hfuel'].
    rewrite Hbad, Hav. cbn [fst snd]. split; [reflexivity|].
    rewrite !List.filter_app, (filter_none _ _ (no_writes_in_submission _ _ _)),
      (filter_none _ _ (no_writes_in_polling _ _ _)).
    cbn. rewrite ?app_nil_r. reflexivity.
Qed.

Lemma already_verified_returns_witness :
  (let run := verify_contract (Sample.built_world [Sample.located; Sample.known])
                Sample.g0 1 "DssSpell" Sample.spell_address
                Sample.spell_source Sample.spell_artifact [] in
   fst run = Done tt /\ List.filter is_write (snd run) = List.filter is_write [])
  /\
  (let run := verify_contract
                (Sample.built_world [Sample.accepted; Sample.pending; Sample.known])
                Sample.g0 2 "DssSpell" Sample.spell_address
                Sample.spell_source Sample.spell_artifact [] in
   fst run = Done tt /\ List.filter is_write (snd run) = List.filter is_write []).
Proof.
  split.
  - apply (already_verified_returns
             (Sample.built_world [Sample.located; Sample.known])
             Sample.g0 1 "DssSpell" Sample.spell_address
             Sample.spell_source Sample.spell_artifact []
             Sample.flat_source Sample.request
             ["Unable to locate ContractCode at 0x11"] (VStr "0") (VStr "NOTOK")
             "Contract source code Already Verified"
             [] VNone VNone EmptyString).
    + vm_compute. reflexivity.
    + vm_compute. repeat split.
    + simpl. lia.
    + left. split; reflexivity.
  - apply (already_verified_returns
             (Sample.built_world [Sample.accepted; Sample.pending; Sample.known])
             Sample.g0 2 "DssSpell" Sample.spell_address
             Sample.spell_source Sample.spell_artifact []
             Sample.flat_source Sample.request
             [] (VStr "1") (VStr "OK") "guid-1"
             ["Pending in queue"] (VStr "0") (VStr "NOTOK")
             "Contract source code Already Verified").
    + vm_compute. reflexivity.
    + vm_compute. repeat split.
    + simpl. lia.
    + right. repeat split; try reflexivity; try (simpl; lia).
Defined.

(** ** The metadata and the license *)

Lemma open_read_text (w : world) (path : string) (h : history) (c : string) :
  read_file w h path = Text c -> open_read w path h = (Done c, h).
Proof. intros H. unfold open_read, bind, get_history. rewrite H. reflexivity. Qed.

Lemma load_artifact_parsed (w : world) (path : string) (h : history)
    (document : string) (content : value) :
  read_file w h path = Text document -> json_loads w document = Some content ->
  load_artifact w path h = (Done content, h).
Proof.
  intros H1 H2. unfold load_artifact, bind, get_history. rewrite H1, H2. reflexivity.
Qed.

Lemma license_other (s : string) :
  s <> "GPL-3.0-or-later" -> s <> "AGPL-3.0-or-later" -> license_numbers !! s = None.
Proof.
  intros H1 H2. unfold license_numbers.
  rewrite lookup_insert_ne by congruence.
  apply lookup_singleton_ne. congruence.
Qed.

(** Lines 120-166 on an artifact that has all the fields and a license that
    is a string: the request, or the failed lookup of the license. *)
Lemma build_request_ready (w : world) (g : globals)
    (name address input_path output_path : string) (h : history)
    (version : string) (evm enabled runs : value) (license code : string) :
  artifact_ready w h input_path output_path version evm enabled runs (VStr license) code ->
  build_request w g name address input_path output_path h
  = match license_numbers !! license with
    | Some n =>
        (Done (code, verify_request g name address code ("v" +:+ version)
                       enabled runs evm n), h)
    | None => (Raised (KeyError (VStr license)), h)
    end.
Proof.
  intros (document & content & Hread & Hjson & Hv & He & Hen & Hr & Hl & Hcode).
  cbn [path] in Hv, He, Hen, Hr, Hl. revert Hv He Hen Hr Hl.
  destruct (field "metadata" content) as [metadata|] eqn:Emd; [|intros; discriminate].
  destruct (field "compiler" metadata) as [compiler|] eqn:Ecp; [|intros; discriminate].
  destruct (field "version" compiler) as [v|] eqn:Ev; [|intros; discriminate].
  intros [= ->].
  destruct (field "settings" metadata) as [settings|] eqn:Est; [|intros; discriminate].
  destruct (field "evmVersion" settings) as [ev|] eqn:Eev; [|intros; discriminate].
  intros [= ->].
  destruct (field "optimizer" settings) as [optimizer|] eqn:Eop; [|intros; discriminate].
  destruct (field "enabled" optimizer) as [en|] eqn:Een; [|intros; discriminate].
  intros [= ->].
  destruct (field "runs" optimizer) as [ru|] eqn:Eru; [|intros; discriminate].
  intros [= ->].
  destruct (field "sources" metadata) as [sources|] eqn:Eso; [|intros; discriminate].
  destruct (field input_path sources) as [source|] eqn:Esr; [|intros; discriminate].
  destruct (field "license" source) as [li|] eqn:Eli; [|intros; discriminate].
  intros [= ->].
  unfold build_request.
  rewrite (bind_done _ _ _ _ _ (load_artifact_parsed w _ h _ _ Hread Hjson)).
  rewrite (bind_done _ _ _ _ _ (getitem_field _ _ _ h Emd)).
  rewrite (bind_done _ _ _ _ _ (getitem_field _ _ _ h Ecp)).
  rewrite (bind_done _ _ _ _ _ (getitem_field _ _ _ h Ev)).
  cbn [str_add]. unfold bind at 1. unfold ret at 1.
  rewrite (bind_done _ _ _ _ _ (getitem_field _ _ _ h Est)).
  rewrite (bind_done _ _ _ _ _ (getitem_field _ _ _ h Eev)).
  rewrite (bind_done _ _ _ _ _ (getitem_field _ _ _ h Est)).
  rewrite (bind_done _ _ _ _ _ (getitem_field _ _ _ h Eop)).
  rewrite (bind_done _ _ _ _ _ (getitem_field _ _ _ h Een)).
  rewrite (bind_done _ _ _ _ _ (getitem_field _ _ _ h Est)).
  rewrite (bind_done _ _ _ _ _ (getitem_field _ _ _ h Eop)).
  rewrite (bind_done _ _ _ _ _ (getitem_field _ _ _ h Eru)).
  rewrite (bind_done _ _ _ _ _ (getitem_field _ _ _ h Eso)).
  rewrite (bind_done _ _ _ _ _ (getitem_field _ _ _ h Esr)).
  rewrite (bind_done _ _ _ _ _ (getitem_field _ _ _ h Eli)).
  unfold license_number_of.
  destruct (license_numbers !! license) as [n|]; [|reflexivity].
  unfold bind at 1. unfold ret at 1.
  rewrite (bind_done _ _ _ _ _ (open_read_text w _ h _ Hcode)).
  reflexivity.
Qed.

(** C5.  On an artifact whose license is "GPL-3.0-or-later" the request
    carries license type 5, on "AGPL-3.0-or-later" 13; on any other license
    string the lookup raises [KeyError], which leaves [verify_contract]
    before any request is made. *)
Theorem license_codes (w : world) (g : globals)
    (name address input_path output_path : string) (h : history)
    (version : string) (evm enabled runs : value) (license code : string) :
  artifact_ready w h input_path output_path version evm enabled runs (VStr license) code ->
  (license = "GPL-3.0-or-later" ->
   exists data,
     build_request w g name address input_path output_path h = (Done (code, data), h) /\
     dict_get "licenseType" data = Some (VInt 5)) /\
  (license = "AGPL-3.0-or-later" ->
   exists data,
     build_request w g name address input_path output_path h = (Done (code, data), h) /\
     dict_get "licenseType" data = Some (VInt 13)) /\
  (license <> "GPL-3.0-or-later" -> license <> "AGPL-3.0-or-later" ->
   license_number_of (VStr license) h = (Raised (KeyError (VStr license)), h) /\
   forall fuel,
     verify_contract w g fuel name address input_path output_path h
     = (Raised (KeyError (VStr license)), h)).
Proof.
  intros Hready.
  pose proof (build_request_ready w g name address input_path output_path h
                version evm enabled runs license code Hready) as Hb.
  split; [|split].
  - intros ->. eexists. split; [exact Hb|]. reflexivity.
  - intros ->. eexists. split; [exact Hb|]. reflexivity.
  - intros H1 H2. rewrite (license_other _ H1 H2) in Hb. split.
    + unfold license_number_of. rewrite (license_other _ H1 H2). reflexivity.
    + intros fuel. unfold verify_contract. rewrite (bind_raised _ _ _ _ _ Hb).
      reflexivity.
Qed.

Lemma license_codes_witness :
  (exists data,
     build_request
       (Sample.world_of Sample.args (Text Sample.toml) ("1" +:+ nl) "GPL-3.0-or-later" [])
       Sample.g0 "DssSpell" Sample.spell_address Sample.spell_source Sample.spell_artifact []
     = (Done (Sample.flat_source, data), []) /\
     dict_get "licenseType" data = Some (VInt 5)) /\
  (exists data,
     build_request
       (Sample.world_of Sample.args (Text Sample.toml) ("1" +:+ nl) "AGPL-3.0-or-later" [])
       Sample.g0 "DssSpell" Sample.spell_address Sample.spell_source Sample.spell_artifact []
     = (Done (Sample.flat_source, data), []) /\
     dict_get "licenseType" data = Some (VInt 13)) /\
  (license_number_of (VStr "MIT") [] = (Raised (KeyError (VStr "MIT")), []) /\
   forall fuel,
     verify_contract
       (Sample.world_of Sample.args (Text Sample.toml) ("1" +:+ nl) "MIT" [])
       Sample.g0 fuel "DssSpell" Sample.spell_address Sample.spell_source
       Sample.spell_artifact []
     = (Raised (KeyError (VStr "MIT")), [])).
Proof.
  split; [|split].
  - apply (fun H => proj1 (license_codes
             (Sample.world_of Sample.args (Text Sample.toml) ("1" +:+ nl) "GPL-3.0-or-later" [])
             Sample.g0 "DssSpell" Sample.spell_address
             Sample.spell_source Sample.spell_artifact []
             "0.8.16+commit.07a7930e" (VStr "london") (VBool true) (VInt 200)
             "GPL-3.0-or-later" Sample.flat_source H)).
    + exists (Sample.render (Sample.artifact "GPL-3.0-or-later")), (Sample.artifact "GPL-3.0-or-later").
      vm_compute. repeat split.
    + reflexivity.
  - apply (fun H => proj1 (proj2 (license_codes
             (Sample.world_of Sample.args (Text Sample.toml) ("1" +:+ nl) "AGPL-3.0-or-later" [])
             Sample.g0 "DssSpell" Sample.spell_address
             Sample.spell_source Sample.spell_artifact []
             "0.8.16+commit.07a7930e" (VStr "london") (VBool true) (VInt 200)
             "AGPL-3.0-or-later" Sample.flat_source H))).
    + exists (Sample.render (Sample.artifact "AGPL-3.0-or-later")), (Sample.artifact "AGPL-3.0-or-later").
      vm_compute. repeat split.
    + reflexivity.
  - apply (fun H => proj2 (proj2 (license_codes
             (Sample.world_of Sample.args (Text Sample.toml) ("1" +:+ nl) "MIT" [])
             Sample.g0 "DssSpell" Sample.spell_address
             Sample.spell_source Sample.spell_artifact []
             "0.8.16+commit.07a7930e" (VStr "london") (VBool true) (VInt 200)
             "MIT" Sample.flat_source H))).
    + exists (Sample.render (Sample.artifact "MIT")), (Sample.artifact "MIT").
      vm_compute. repeat split.
    + discriminate.
    + discriminate.
Defined.

(** ** The top level *)

Lemma prologue_done (w : world) (g : globals) (name address : string) (h' : history) :
  prologue w [] = (Done (g, name, address), h') -> configured w g name address.
Proof.
  unfold prologue, arguments, surroundings, getenv_or_exit, item, run, decode_utf8,
    resolve_library, try_except, get_library_address, read_file, print, emit,
    get_history, bind, ret, raise, exit, configured.
  cbn [app last_write].
  intros H.
  repeat (case_match; simplify_eq/=).
  all: repeat match goal with
         | H : negb _ = false |- _ => apply negb_false_iff in H
         | H : bool_decide _ = true |- _ => apply bool_decide_eq_true in H
         | H : (_ =? _)%nat = true |- _ => apply Nat.eqb_eq in H
         end.
  all: repeat split; eauto.
  all: match goal with
       | H : _ ∈ [3%nat; 4%nat] |- _ =>
           apply list_elem_of_In in H; simpl in H; intuition lia
       end.
Qed.

Section TopLevel.

Context (w : world) (P : event -> Prop).
Hypothesis others : forall e, is_post e = false -> P e.

Lemma emits_run (cmd : list string) (env : gmap string string) : emits P (run w cmd env).
Proof.
  unfold run. apply emits_bind; [apply emits_emit, others; reflexivity|]. intros _.
  destruct (subprocess_run w cmd env); [apply emits_raise | apply emits_ret].
Qed.

Lemma emits_resolve_library : emits P (resolve_library w).
Proof.
  unfold resolve_library. apply emits_try_except.
  - apply emits_bind.
    + unfold get_library_address.
      apply emits_bind; [emits_step|]. intros h.
      destruct (read_file w h "foundry.toml"); try apply emits_raise.
      destruct (re_search_library content); [apply emits_ret | apply emits_raise].
    + intros a. apply emits_bind; [apply emits_print, others|]. intros _. apply emits_ret.
  - intros e. destruct e; try apply emits_raise.
    apply emits_bind; [apply emits_print, others|]. intros _.
    apply emits_bind; [apply emits_print, others|]. intros _. apply emits_ret.
Qed.

Lemma emits_surroundings : emits P (surroundings w).
Proof.
  unfold surroundings.
  apply emits_bind; [apply emits_print, others|]. intros _.
  apply emits_bind; [apply emits_run|]. intros out.
  apply emits_bind; [emits_step|]. intros decoded.
  apply emits_bind; [apply emits_print, others|]. intros _.
  apply emits_bind; [apply emits_resolve_library|]. intros a. apply emits_ret.
Qed.

Lemma emits_arguments : emits P (arguments w).
Proof.
  unfold arguments, getenv_or_exit.
  apply emits_bind.
  { destruct (environ w !! "ETHERSCAN_API_KEY"); [apply emits_ret|].
    apply emits_bind; [apply emits_print, others|]. intros _. apply emits_exit. }
  intros key. apply emits_bind.
  { destruct (environ w !! "ETH_RPC_URL"); [apply emits_ret|].
    apply emits_bind; [apply emits_print, others|]. intros _. apply emits_exit. }
  intros url. destruct (negb _).
  { apply emits_bind; [apply emits_print, others|]. intros _. apply emits_exit. }
  apply emits_bind; [emits_step|]. intros name.
  apply emits_bind; [emits_step|]. intros address.
  apply emits_bind; [apply emits_print, others|]. intros _.
  destruct (negb _); [apply emits_exit|].
  apply emits_bind; [destruct (_ =? _)%nat; emits_step|]. intros ctor.
  apply emits_bind; [apply emits_print, others|]. intros _. apply emits_ret.
Qed.

Lemma emits_prologue : emits P (prologue w).
Proof.
  unfold prologue.
  apply emits_bind; [apply emits_arguments|]. intros [[[key name] address] ctor].
  apply emits_bind; [apply emits_run|]. intros _.
  apply emits_bind; [apply emits_surroundings|]. intros [chain library].
  apply emits_ret.
Qed.

Lemma emits_verify_both (g : globals) (fuel : nat) (name address : string) :
  (forall n a code version enabled runs evm license,
      n = name \/ n = "DssSpellAction" ->
      P (post (chain_params g)
              (verify_request g n a code version enabled runs evm license))) ->
  (forall guid, P (post (chain_params g) (status_request g guid))) ->
  emits P (verify_both w g fuel name address).
Proof.
  intros Hsubmit Hstatus. unfold verify_both, subdomain_of.
  apply emits_bind; [apply emits_verify_contract; auto|]. intros _.
  apply emits_bind.
  { destruct (etherscan_subdomains !! chain_id g); [apply emits_ret | apply emits_raise]. }
  intros sub.
  apply emits_bind; [apply emits_print, others|]. intros _.
  apply emits_bind; [apply emits_run|]. intros out.
  apply emits_bind; [emits_step|]. intros decoded.
  apply emits_bind; [apply emits_print, others|]. intros _.
  apply emits_bind; [apply emits_verify_contract; auto|]. intros _.
  apply emits_bind.
  { destruct (etherscan_subdomains !! chain_id g); [apply emits_ret | apply emits_raise]. }
  intros sub'. apply emits_print, others.
Qed.

End TopLevel.

(** Every request of a run of the script is built from variables that the
    first part of the script has set as [configured] says. *)
Lemma main_requests (w : world) (fuel : nat) :
  Forall (fun e =>
            is_post e = true ->
            exists g name address,
              configured w g name address /\
              request_shape g [name; "DssSpellAction"] e)
         (snd (main w fuel [])).
Proof.
  unfold main, bind.
  destruct (emits_prologue w (fun e => is_post e = false) (fun e H => H) [])
    as (t & Ht & Hquiet).
  assert (Hnone : Forall (fun e =>
            is_post e = true ->
            exists g name address,
              configured w g name address /\
              request_shape g [name; "DssSpellAction"] e) t).
  { eapply Forall_impl; [exact Hquiet|]. intros e He Hp. congruence. }
  destruct (prologue w []) as [[[[g name] address]| | |] h1] eqn:Hpro;
    simpl in Ht; subst h1; try exact Hnone.
  cbn [fst snd].
  pose proof (prologue_done w g name address _ Hpro) as Hconf.
  set (Q := fun e => is_post e = true -> request_shape g [name; "DssSpellAction"] e).
  destruct (emits_verify_both w Q (fun e H H' => ltac:(congruence)) g fuel name address)
    with (h := t) as (t' & Ht' & HQ).
  - intros n a code version enabled runs evm license Hn _.
    repeat split. left. exists n, a, code, version, enabled, runs, evm, license.
    split; [|reflexivity]. simpl. destruct Hn; auto.
  - intros guid _. repeat split. right. exists guid. reflexivity.
  - rewrite Ht'. apply Forall_app. split; [exact Hnone|].
    eapply Forall_impl; [exact HQ|]. intros e He Hp. exists g, name, address. auto.
Qed.

Lemma bind_assoc {A B C} (m : M A) (k : A -> M B) (k' : B -> M C) (h : history) :
  bind (bind m k) k' h = bind m (fun a => bind (k a) k') h.
Proof. unfold bind. destruct (m h) as [[a| | |] h']; reflexivity. Qed.

Lemma run_appends (w : world) (cmd : list string) (env : gmap string string) (h : history) :
  exists r, run w cmd env h = (r, h ++ [Run cmd env]).
Proof.
  unfold run, bind, emit.
  destruct (subprocess_run w cmd env); eexists; reflexivity.
Qed.

(** Lines 15-53 on an invocation with credentials and two or three
    arguments: the length of the address decides. *)
Lemma arguments_invoked (w : world) (name address : string) :
  invoked w name address ->
  exists key ctor,
    arguments w []
    = if (String.length address =? 42)%nat then
        (Done (key, name, address, ctor),
         [Print (VStr ("Attempting to verify contract " +:+ name +:+
                       " at address " +:+ address +:+ "..."));
          Print (VStr ("DssSpell address: " +:+ address))])
      else
        (Exited (Some "malformed address"),
         [Print (VStr ("Attempting to verify contract " +:+ name +:+
                       " at address " +:+ address +:+ "..."))]).
Proof.
  intros ([key Hkey] & [url Hurl] & Hlen & Hname & Haddress).
  assert (Hin : bool_decide (length (argv w) ∈ [3%nat; 4%nat]) = true).
  { apply bool_decide_eq_true. destruct Hlen as [-> | ->]; set_solver. }
  assert (Hctor : exists ctor,
    (if (length (argv w) =? 4)%nat then item (argv w) 3 else ret EmptyString)
    = ret ctor).
  { destruct (length (argv w) =? 4)%nat eqn:H4; [|eauto].
    apply Nat.eqb_eq in H4. unfold item.
    destruct (argv w !! 3%nat) as [c|] eqn:Hc; [eauto|].
    apply lookup_ge_None in Hc. lia. }
  destruct Hctor as [ctor Hctor]. exists key, ctor.
  unfold arguments, getenv_or_exit. rewrite Hkey, Hurl, Hin, Hctor.
  unfold item. rewrite Hname, Haddress.
  unfold bind, ret, print, emit, exit. cbn beta iota. cbn [negb app].
  destruct (String.length address =? 42)%nat; reflexivity.
Qed.

Lemma no_requests (h : history) :
  Forall (fun e => is_post e = false) h -> requests_sent h = 0%nat.
Proof. intros H. unfold requests_sent. rewrite (filter_none _ _ H). reflexivity. Qed.

(** C6.  With an address argument that is not exactly 42 characters long no
    request is ever posted, and on an invocation that has its credentials
    and two or three arguments the script ends with "malformed address",
    having done nothing but print its opening line. *)
Theorem malformed_address_stops (w : world) (name address : string) (fuel : nat) :
  argv w !! 2%nat = Some address ->
  String.length address <> 42%nat ->
  requests_sent (snd (main w fuel [])) = 0%nat /\
  (invoked w name address ->
   main w fuel []
   = (Exited (Some "malformed address"),
      [Print (VStr ("Attempting to verify contract " +:+ name +:+
                    " at address " +:+ address +:+ "..."))])).
Proof.
  intros Haddress Hlen. split.
  - apply no_requests.
    eapply Forall_impl; [apply (main_requests w fuel)|]. intros e He.
    destruct (is_post e) eqn:Hpost; [|reflexivity].
    destruct (He Hpost) as (g & n & a & Hconf & _).
    destruct Hconf as (_ & _ & _ & Ha & Hl & _). congruence.
  - intros Hinv. destruct (arguments_invoked w name address Hinv) as (key & ctor & Hargs).
    apply Nat.eqb_neq in Hlen. rewrite Hlen in Hargs.
    unfold main, prologue, bind. rewrite Hargs. reflexivity.
Qed.

Lemma malformed_address_stops_witness :
  requests_sent (snd (main Sample.short_world 3 [])) = 0%nat /\
  main Sample.short_world 3 []
  = (Exited (Some "malformed address"),
     [Print (VStr ("Attempting to verify contract " +:+ "DssSpell" +:+
                   " at address " +:+ "0x1234" +:+ "..."))]).
Proof.
  destruct (malformed_address_stops Sample.short_world "DssSpell" "0x1234" 3)
    as [Hnone Hexit].
  - reflexivity.
  - simpl. lia.
  - split; [exact Hnone|]. apply Hexit.
    repeat split; try (eexists; vm_compute; reflexivity). left. reflexivity.
Defined.

(** C9, as the specification has it, fails: an address of 42 characters that
    are not hexadecimal digits passes the check and is submitted. *)
Lemma non_hex_address_is_submitted :
  ~ (forall (w : world) (fuel : nat) (name address : string),
        invoked w name address ->
        String.length address = 42%nat ->
        hex_address address = false ->
        requests_sent (snd (main w fuel [])) = 0%nat).
Proof.
  intros H.
  specialize (H Sample.odd_world 3%nat "DssSpell" Sample.odd_address).
  assert (Hinv : invoked Sample.odd_world "DssSpell" Sample.odd_address).
  { repeat split; try (eexists; vm_compute; reflexivity). left. reflexivity. }
  specialize (H Hinv eq_refl eq_refl).
  vm_compute in H. discriminate H.
Qed.

(** C9, amended.  The argument loader checks the address for its length
    only: whatever the 42 characters of the address are, the script goes
    past the check and runs the flattening step, and with any other length it
    exits with "malformed address". *)
Theorem address_is_checked_for_length_only (w : world) (name address : string)
    (fuel : nat) :
  invoked w name address ->
  let opening :=
    Print (VStr ("Attempting to verify contract " +:+ name +:+
                 " at address " +:+ address +:+ "...")) in
  if (String.length address =? 42)%nat then
    exists rest,
      snd (main w fuel [])
      = [opening; Print (VStr ("DssSpell address: " +:+ address));
         Run flatten_command (environ w)] ++ rest
  else
    main w fuel [] = (Exited (Some "malformed address"), [opening]).
Proof.
  intros Hinv opening.
  destruct (arguments_invoked w name address Hinv) as (key & ctor & Hargs).
  destruct (String.length address =? 42)%nat.
  - unfold main, prologue.
    rewrite bind_assoc, (bind_done _ _ _ _ _ Hargs). cbn beta iota.
    rewrite bind_assoc.
    destruct (run_appends w flatten_command (environ w)
                [opening; Print (VStr ("DssSpell address: " +:+ address))]) as [r Hr].
    unfold bind at 1. fold opening. rewrite Hr.
    destruct r as [out| | |]; try (exists []; reflexivity).
    match goal with
    | |- context [snd (?m ?h)] =>
        assert (E : emits (fun _ => True) m); [|destruct (E h) as (t & Ht & _)]
    end.
    + apply emits_bind.
      * apply emits_bind; [apply emits_surroundings; auto|].
        intros [chain library]. apply emits_ret.
      * intros [[g n] a]. apply emits_verify_both; auto.
    + exists t. rewrite Ht. reflexivity.
  - unfold main, prologue, bind. rewrite Hargs. reflexivity.
Qed.

Lemma address_is_checked_for_length_only_witness :
  exists rest,
    snd (main Sample.odd_world 3 [])
    = [Print (VStr ("Attempting to verify contract " +:+ "DssSpell" +:+
                    " at address " +:+ Sample.odd_address +:+ "..."));
       Print (VStr ("DssSpell address: " +:+ Sample.odd_address));
       Run flatten_command (environ Sample.odd_world)] ++ rest.
Proof.
  apply (address_is_checked_for_length_only Sample.odd_world "DssSpell"
           Sample.odd_address 3).
  repeat split; try (eexists; vm_compute; reflexivity). left. reflexivity.
Defined.

Lemma submission_fields (g : globals) (names : list string) (e : event) :
  request_shape g names e -> is_submission e = true ->
  request_param "chainid" e = Some (VStr (chain_id g)) /\
  request_field "constructorArguements" e = Some (VStr (spell_constructor_arguments g)) /\
  request_field "libraryname1" e = Some (VStr "DssExecLib") /\
  request_field "libraryaddress1" e = Some (VStr (library_address g)) /\
  exists name, In name names /\ request_field "contractName" e = Some (VStr name).
Proof.
  destruct e; simpl; try discriminate.
  intros (_ & -> & [(n & a & code & version & enabled & runs & evm & license & Hn & ->)
                   | (guid & ->)]).
  - intros _. repeat split. exists n. split; [exact Hn | reflexivity].
  - simpl. discriminate.
Qed.

(** C7, as the specification has it, fails: without a foundry.toml the
    requests still name the library. *)
Lemma library_name_is_sent_without_library :
  ~ (forall (w : world) (fuel : nat),
        no_library w ->
        Forall (fun e =>
                  is_submission e = true ->
                  request_field "libraryname1" e = Some (VStr EmptyString) /\
                  request_field "libraryaddress1" e = Some (VStr EmptyString))
               (snd (main w fuel []))).
Proof.
  intros H. specialize (H Sample.bare_world 3%nat I).
  assert (Hx : snd (main Sample.bare_world 3 []) !! 9%nat
               = Some (post (chain_params Sample.g0) Sample.request)).
  { vm_compute. reflexivity. }
  destruct (Forall_lookup_1 _ _ _ _ H Hx eq_refl) as [Hname _].
  vm_compute in Hname. discriminate Hname.
Qed.

(** C7, amended.  When the library address cannot be resolved (no
    foundry.toml, one that cannot be read, or one without the pattern) the
    script prints the reason and a warning and goes on; every verification
    request it then makes carries an empty library address, and the library
    name "DssExecLib" as always. *)
Theorem unresolved_library_is_not_fatal (w : world) :
  no_library w ->
  (forall h,
      last_write "foundry.toml" h = None ->
      exists msg,
        resolve_library w h
        = (Done EmptyString,
           h ++ [Print (VStr msg);
                 Print (VStr "WARNING: Assuming this contract uses no libraries")])) /\
  (forall fuel,
      Forall (fun e =>
                is_submission e = true ->
                request_field "libraryname1" e = Some (VStr "DssExecLib") /\
                request_field "libraryaddress1" e = Some (VStr EmptyString))
             (snd (main w fuel []))).
Proof.
  intros Hno. split.
  - intros h Hh. unfold no_library in Hno.
    unfold resolve_library, try_except, get_library_address, bind, get_history, read_file.
    rewrite Hh.
    destruct (files w "foundry.toml") as [|msg|config].
    + exists "No foundry.toml found". unfold raise, print, emit, ret.
      rewrite <- app_assoc. reflexivity.
    + exists msg. unfold raise, print, emit, ret. rewrite <- app_assoc. reflexivity.
    + rewrite Hno. exists "No DssExecLib configured in foundry.toml".
      unfold raise, print, emit, ret. rewrite <- app_assoc. reflexivity.
  - intros fuel. eapply Forall_impl; [apply (main_requests w fuel)|].
    intros e He Hsub.
    assert (Hpost : is_post e = true) by (destruct e; try discriminate; reflexivity).
    destruct (He Hpost) as (g & name & address & Hconf & Hshape).
    destruct (submission_fields _ _ _ Hshape Hsub) as (_ & _ & Hname & Haddr & _).
    split; [exact Hname|]. rewrite Haddr.
    destruct Hconf as (_ & _ & _ & _ & _ & _ & _ & [-> | (config & Hfile & Hfound)]);
      [reflexivity|].
    unfold no_library in Hno. rewrite Hfile in Hno. congruence.
Qed.

Lemma unresolved_library_is_not_fatal_witness :
  (forall h,
      last_write "foundry.toml" h = None ->
      exists msg,
        resolve_library Sample.bare_world h
        = (Done EmptyString,
           h ++ [Print (VStr msg);
                 Print (VStr "WARNING: Assuming this contract uses no libraries")])) /\
  (forall fuel,
      Forall (fun e =>
                is_submission e = true ->
                request_field "libraryname1" e = Some (VStr "DssExecLib") /\
                request_field "libraryaddress1" e = Some (VStr EmptyString))
             (snd (main Sample.bare_world fuel []))).
Proof.
  apply (unresolved_library_is_not_fatal Sample.bare_world).
  vm_compute. exact I.
Defined.

(** C8, as the specification has it, fails: when the output of the chain-id
    query does not end in a newline, its last digit is lost. *)
Lemma chain_id_loses_its_last_digit :
  ~ (forall (w : world) (fuel : nat) (out : string),
        subprocess_run w ["cast"; "chain-id"] (environ w) = Completed (Some out) ->
        Forall (fun e =>
                  is_post e = true ->
                  request_param "chainid" e = Some (VStr (strip_trailing_newline out)))
               (snd (main w fuel []))).
Proof.
  intros H. specialize (H Sample.unterminated_world 3%nat "11155111" eq_refl).
  assert (Hx : snd (main Sample.unterminated_world 3 []) !! 8%nat
               = Some (post (chain_params Sample.g_cut) Sample.request_cut)).
  { vm_compute. reflexivity. }
  pose proof (Forall_lookup_1 _ _ _ _ H Hx eq_refl) as Hid.
  vm_compute in Hid. discriminate Hid.
Qed.

(** C8, amended.  The chain identifier sent with every request is the
    output of the chain-id query with its last character taken off, whatever
    that character is; when the output is a line ended by a newline, that
    line is the chain identifier. *)
Theorem chain_id_is_output_without_last_character (w : world) (out : string)
    (fuel : nat) :
  subprocess_run w ["cast"; "chain-id"] (environ w) = Completed (Some out) ->
  Forall (fun e =>
            is_post e = true ->
            request_param "chainid" e = Some (VStr (drop_last out)))
         (snd (main w fuel [])) /\
  (forall line, out = line +:+ nl -> drop_last out = line).
Proof.
  intros Hout. split.
  - eapply Forall_impl; [apply (main_requests w fuel)|].
    intros e He Hpost.
    destruct (He Hpost) as (g & name & address & Hconf & Hshape).
    destruct Hconf as (_ & _ & _ & _ & _ & (out' & Hout' & Hchain) & _).
    assert (out' = out) as -> by congruence.
    destruct e; try discriminate.
    destruct Hshape as (_ & -> & _). simpl. rewrite Hchain. reflexivity.
  - intros line ->. apply drop_last_snoc.
Qed.

Lemma chain_id_is_output_without_last_character_witness :
  Forall (fun e =>
            is_post e = true ->
            request_param "chainid" e = Some (VStr (drop_last Sample.chain_output)))
         (snd (main Sample.full_world 3 [])) /\
  (forall line, Sample.chain_output = line +:+ nl -> drop_last Sample.chain_output = line).
Proof.
  apply (chain_id_is_output_without_last_character Sample.full_world
           Sample.chain_output 3).
  reflexivity.
Defined.

(** C10.  When the third argument is given, every verification request of
    the run carries it as [constructorArguements], the one for the spell and
    the one for its action contract alike. *)
Theorem constructor_arguments_go_to_both (w : world) (ctor : string) (fuel : nat) :
  argv w !! 3%nat = Some ctor ->
  Forall (fun e =>
            is_submission e = true ->
            request_field "constructorArguements" e = Some (VStr ctor) /\
            exists name,
              (argv w !! 1%nat = Some name \/ name = "DssSpellAction") /\
              request_field "contractName" e = Some (VStr name))
         (snd (main w fuel [])).
Proof.
  intros Hctor. eapply Forall_impl; [apply (main_requests w fuel)|].
  intros e He Hsub.
  assert (Hpost : is_post e = true) by (destruct e; try discriminate; reflexivity).
  destruct (He Hpost) as (g & name & address & Hconf & Hshape).
  destruct (submission_fields _ _ _ Hshape Hsub) as (_ & Hargs & _ & _ & n & Hn & Hname).
  destruct Hconf as (_ & Hlen & Hfirst & _ & _ & _ & Hg & _).
  split.
  - rewrite Hargs, Hg. apply lookup_lt_Some in Hctor as Hlt.
    assert (length (argv w) = 4%nat) as -> by lia.
    simpl. rewrite Hctor. reflexivity.
  - exists n. split; [|exact Hname].
    simpl in Hn. destruct Hn as [<- | [<- | []]]; auto.
Qed.

Lemma constructor_arguments_go_to_both_witness :
  Forall (fun e =>
            is_submission e = true ->
            request_field "constructorArguements" e = Some (VStr "0xabcd") /\
            exists name,
              (argv Sample.full_world !! 1%nat = Some name \/ name = "DssSpellAction") /\
              request_field "contractName" e = Some (VStr name))
         (snd (main Sample.full_world 3 [])).
Proof.
  apply (constructor_arguments_go_to_both Sample.full_world "0xabcd" 3).
  reflexivity.
Defined.

(** The submissions of that run: the spell twice (it was told to wait
    once) and then the action contract, with the same arguments. *)
Example both_contracts_submitted :
  map (fun e => (request_field "contractName" e,
                 request_field "contractaddress" e,
                 request_field "constructorArguements" e))
      (List.filter is_submission (snd (main Sample.full_world 3 [])))
  = [(Some (VStr "DssSpell"), Some (VStr Sample.spell_address), Some (VStr "0xabcd"));
     (Some (VStr "DssSpell"), Some (VStr Sample.spell_address), Some (VStr "0xabcd"));
     (Some (VStr "DssSpellAction"), Some (VStr Sample.action_address),
      Some (VStr "0xabcd"))]
  /\ fst (main Sample.full_world 3 []) = Done tt.
Proof. vm_compute. split; reflexivity. Qed.

(** ** The library pattern *)

Lemma strip_prefix_some (p s rest : string) :
  strip_prefix p s = Some rest -> s = p +:+ rest.
Proof.
  revert s. induction p as [|a p IH]; intros s H; simpl in H.
  - injection H as ->. reflexivity.
  - destruct s as [|b s]; [discriminate|].
    destruct (Ascii.eqb a b) eqn:Hab; [|discriminate].
    apply Ascii.eqb_eq in Hab. subst b. rewrite append_cons, <- (IH _ H). reflexivity.
Qed.

Lemma strip_prefix_app (p rest : string) : strip_prefix p (p +:+ rest) = Some rest.
Proof.
  induction p as [|a p IH]; [reflexivity|].
  rewrite append_cons. simpl. rewrite Ascii.eqb_refl. exact IH.
Qed.

Lemma take_hex_some (n : nat) (s d : string) :
  take_hex n s = Some d ->
  exists rest,
    s = d +:+ rest /\ String.length d = n /\
    forallb is_hex_digit (list_ascii_of_string d) = true.
Proof.
  revert s d. induction n as [|n IH]; intros s d H; simpl in H.
  - injection H as <-. exists s. auto.
  - destruct s as [|c s]; [discriminate|].
    destruct (is_hex_digit c) eqn:Hc; [|discriminate].
    destruct (take_hex n s) as [d'|] eqn:Hd; [|discriminate].
    injection H as <-. destruct (IH _ _ Hd) as (rest & -> & Hlen & Hall).
    exists rest. rewrite append_cons. simpl. rewrite Hc, Hlen, Hall. auto.
Qed.

Lemma take_hex_app (d rest : string) :
  forallb is_hex_digit (list_ascii_of_string d) = true ->
  take_hex (String.length d) (d +:+ rest) = Some d.
Proof.
  induction d as [|c d IH]; intros H; [reflexivity|].
  simpl in H. apply andb_true_iff in H as [Hc Hd].
  rewrite append_cons. simpl. rewrite Hc, (IH Hd). reflexivity.
Qed.

Lemma match_library_here_some (s a : string) :
  match_library_here s = Some a ->
  hex_address a = true /\ exists after, s = ":DssExecLib:" +:+ a +:+ after.
Proof.
  unfold match_library_here.
  destruct (strip_prefix ":DssExecLib:0x" s) as [rest|] eqn:Hp; [|discriminate].
  destruct (take_hex 40 rest) as [d|] eqn:Hd; [|discriminate].
  intros [= <-]. apply strip_prefix_some in Hp.
  destruct (take_hex_some _ _ _ Hd) as (after & -> & Hlen & Hall).
  split.
  - change (hex_address (String "0" (String "x" d)) = true).
    simpl. rewrite Hall, Hlen. reflexivity.
  - exists after. rewrite Hp. reflexivity.
Qed.

Lemma hex_address_shape (a : string) :
  hex_address a = true ->
  exists digits,
    a = String "0" (String "x" digits) /\
    forallb is_hex_digit (list_ascii_of_string digits) = true /\
    String.length digits = 40%nat.
Proof.
  intros Ha. destruct a as [|c0 a]; [discriminate|].
  destruct c0 as [[] [] [] [] [] [] [] []]; try discriminate.
  destruct a as [|c1 digits]; [discriminate|].
  destruct c1 as [[] [] [] [] [] [] [] []]; try discriminate.
  simpl in Ha. apply andb_true_iff in Ha as [Hall Hlen]. apply Nat.eqb_eq in Hlen.
  exists digits. auto.
Qed.

Lemma match_library_here_entry (a after : string) :
  hex_address a = true ->
  match_library_here (":DssExecLib:" +:+ a +:+ after) = Some a.
Proof.
  intros Ha. destruct (hex_address_shape _ Ha) as (d & -> & Hall & Hlen).
  unfold match_library_here.
  change (":DssExecLib:" +:+ String "0" (String "x" d) +:+ after)
    with (":DssExecLib:0x" +:+ d +:+ after).
  rewrite strip_prefix_app, <- Hlen, (take_hex_app _ _ Hall). reflexivity.
Qed.

Lemma re_search_library_some (config a : string) :
  re_search_library config = Some a ->
  hex_address a = true /\ library_entry config a.
Proof.
  induction config as [|c config IH]; intros H; cbn [re_search_library] in H.
  - destruct (match_library_here EmptyString) as [a'|] eqn:Hm; [|discriminate].
    apply match_library_here_some in Hm as (_ & after & Hs). discriminate Hs.
  - destruct (match_library_here (String c config)) as [a'|] eqn:Hm.
    + injection H as ->.
      destruct (match_library_here_some _ _ Hm) as (Ha & after & Hs).
      split; [exact Ha|]. exists EmptyString, after. exact Hs.
    + destruct (IH H) as (Ha & before & after & ->).
      split; [exact Ha|]. exists (String c before), after. reflexivity.
Qed.

Lemma re_search_library_none (config : string) :
  re_search_library config = None ->
  forall before rest, config = before +:+ rest -> match_library_here rest = None.
Proof.
  intros H before. revert config H.
  induction before as [|c before IH]; intros config H rest ->.
  - change (EmptyString +:+ rest) with rest in H.
    destruct rest as [|c r]; cbn [re_search_library] in H.
    + destruct (match_library_here EmptyString); [discriminate | reflexivity].
    + destruct (match_library_here (String c r)); [discriminate | reflexivity].
  - rewrite append_cons in H. cbn [re_search_library] in H.
    destruct (match_library_here (String c (before +:+ rest))); [discriminate|].
    exact (IH _ H rest eq_refl).
Qed.

(** X1.  The search for the library pattern fails exactly when the
    configuration nowhere has ":DssExecLib:" followed by an address (0x and
    40 hexadecimal digits). *)
Theorem library_pattern_fails_without_entry (config : string) :
  re_search_library config = None <->
  forall a, library_entry config a -> hex_address a = false.
Proof.
  split.
  - intros H a (before & after & Hc).
    pose proof (re_search_library_none _ H before _ Hc) as Hm.
    destruct (hex_address a) eqn:Ha; [|reflexivity].
    rewrite (match_library_here_entry a after Ha) in Hm. discriminate.
  - intros H. destruct (re_search_library config) as [a|] eqn:Hs; [|reflexivity].
    destruct (re_search_library_some _ _ Hs) as [Ha He].
    rewrite (H a He) in Ha. discriminate.
Qed.

(** X2.  What [get_library_address] returns is an address (0x and 40
    hexadecimal digits, 42 characters) that stands in foundry.toml right
    after ":DssExecLib:"; it leaves the history alone. *)
Theorem library_address_comes_from_config (w : world) (h h' : history) (a : string) :
  get_library_address w h = (Done a, h') ->
  h' = h /\ hex_address a = true /\ String.length a = 42%nat /\
  exists config,
    read_file w h "foundry.toml" = Text config /\ library_entry config a.
Proof.
  unfold get_library_address, bind, get_history.
  destruct (read_file w h "foundry.toml") as [|msg|config]; try discriminate.
  destruct (re_search_library config) as [a'|] eqn:Hs; [|discriminate].
  intros [= -> ->]. destruct (re_search_library_some _ _ Hs) as [Ha He].
  repeat split; try assumption; [|eauto].
  destruct (hex_address_shape _ Ha) as (d & -> & _ & Hlen).
  simpl. rewrite Hlen. reflexivity.
Qed.

Lemma library_address_comes_from_config_witness :
  ([] : history) = [] /\
  hex_address "0xfD88CeE74f7D78697775aBDAE53f9Da1559728E4" = true /\
  String.length "0xfD88CeE74f7D78697775aBDAE53f9Da1559728E4" = 42%nat /\
  exists config,
    read_file Sample.full_world [] "foundry.toml" = Text config /\
    library_entry config "0xfD88CeE74f7D78697775aBDAE53f9Da1559728E4".
Proof.
  apply (library_address_comes_from_config Sample.full_world [] []
           "0xfD88CeE74f7D78697775aBDAE53f9Da1559728E4").
  vm_compute. reflexivity.
Defined.

(** X3.  Resolving the library never ends the script: whatever the
    configuration file is, [resolve_library] returns, with an address or
    with the empty string, having only printed. *)
Theorem library_resolution_never_fails (w : world) (h : history) :
  exists a t,
    resolve_library w h = (Done a, h ++ t) /\
    (a = EmptyString \/ hex_address a = true) /\
    Forall (fun e => exists v, e = Print v) t.
Proof.
  unfold resolve_library, try_except, get_library_address, bind, get_history.
  destruct (read_file w h "foundry.toml") as [|msg|config].
  - eexists EmptyString, [_; _]. unfold raise, print, emit, ret.
    rewrite <- app_assoc. split; [reflexivity|]. split; [auto|].
    repeat constructor; eauto.
  - eexists EmptyString, [_; _]. unfold raise, print, emit, ret.
    rewrite <- app_assoc. split; [reflexivity|]. split; [auto|].
    repeat constructor; eauto.
  - destruct (re_search_library config) as [a|] eqn:Hs.
    + exists a, [Print (VStr ("Using library " +:+ library_name +:+ " at address " +:+ a))].
      split; [reflexivity|]. split.
      * right. apply (re_search_library_some _ _ Hs).
      * repeat constructor; eauto.
    + eexists EmptyString, [_; _]. unfold raise, print, emit, ret.
      rewrite <- app_assoc. split; [reflexivity|]. split; [auto|].
      repeat constructor; eauto.
Qed.

(** ** What a run may append, kind by kind *)

Lemma emits_bind_ret {A B} (P : event -> Prop) (a : A) (k : A -> M B) :
  emits P (k a) -> emits P (bind (ret a) k).
Proof. intros H h. exact (H h). Qed.

Lemma kinds_run (w : world) (P : event -> Prop) (cmd : list string)
    (env : gmap string string) :
  P (Run cmd env) -> emits P (run w cmd env).
Proof.
  intros Hrun. unfold run.
  apply emits_bind; [apply emits_emit, Hrun|]. intros _.
  destruct (subprocess_run w cmd env); [apply emits_raise | apply emits_ret].
Qed.

Section Kinds.

Context (w : world) (P : event -> Prop).
Hypothesis P_print : forall v, P (Print v).
Hypothesis P_stderr : forall v, P (PrintErr v).
Hypothesis P_sleep : P (Sleep 15).

Lemma kinds_send (params data : dict) :
  P (post params data) -> emits P (send_etherscan_api_request w params data).
Proof.
  intros Hpost. unfold send_etherscan_api_request.
  apply emits_bind; [apply emits_emit, P_print|]. intros _.
  apply emits_bind; [emits_step|]. intros h.
  apply emits_bind; [apply emits_emit, Hpost|]. intros _.
  destruct (http w (requests_sent h)); [apply emits_raise|].
  destruct (json_loads w text); [apply emits_ret|].
  apply emits_bind; [apply emits_emit, P_stderr|]. intros _.
  apply emits_raise.
Qed.

Lemma kinds_submit_loop (params data : dict) :
  P (post params data) ->
  forall fuel c, emits P (submit_loop w fuel params data c).
Proof.
  intros Hpost. induction fuel as [|fuel IH]; intros c; cbn [submit_loop].
  - apply emits_bind; [emits_step|]. intros [|]; [apply emits_out_of_fuel | apply emits_ret].
  - apply emits_bind; [emits_step|]. intros [|]; [|apply emits_ret].
    apply emits_bind; [emits_step|]. intros r.
    apply emits_bind; [apply emits_emit, P_print|]. intros _.
    apply emits_bind; [apply emits_emit, P_print|]. intros _.
    apply emits_bind; [apply emits_emit, P_sleep|]. intros _.
    apply emits_bind; [apply kinds_send, Hpost|]. intros c'. apply IH.
Qed.

Lemma kinds_submit (params data : dict) (fuel : nat) :
  P (post params data) -> emits P (submit w fuel params data).
Proof.
  intros Hpost. unfold submit.
  apply emits_bind; [apply kinds_send, Hpost|]. intros c.
  apply kinds_submit_loop, Hpost.
Qed.

Lemma kinds_poll_loop (g : globals) (params : dict) (guid : value) :
  P (post params (status_request g guid)) ->
  forall fuel c, emits P (poll_loop w fuel g params guid c).
Proof.
  intros Hpost. induction fuel as [|fuel IH]; intros c; cbn [poll_loop].
  - apply emits_bind; [destruct (is_empty_dict c); emits_step|].
    intros [|]; [apply emits_out_of_fuel | apply emits_ret].
  - apply emits_bind; [destruct (is_empty_dict c); emits_step|].
    intros [|]; [|apply emits_ret].
    apply emits_bind.
    + destruct (negb (is_empty_dict c)); [|apply emits_ret].
      apply emits_bind; [emits_step|]. intros r.
      apply emits_bind; [apply emits_emit, P_print|]. intros _.
      apply emits_bind; [apply emits_emit, P_print|]. intros _.
      apply emits_emit, P_sleep.
    + intros _. apply emits_bind; [apply kinds_send, Hpost|]. intros c'. apply IH.
Qed.

Lemma kinds_poll (g : globals) (fuel : nat) (params : dict) (code : string) (guid : value) :
  P (post params (status_request g guid)) ->
  P (Write (log_name w) code) ->
  emits P (poll w g fuel params code guid).
Proof.
  intros Hpost Hwrite. unfold poll.
  apply emits_bind; [apply kinds_poll_loop, Hpost|]. intros c.
  apply emits_bind; [emits_step|]. intros [|]; [|apply emits_ret].
  apply emits_bind; [emits_step|]. intros r.
  apply emits_bind; [emits_step|]. intros line.
  apply emits_bind; [apply emits_emit, P_print|]. intros _.
  apply emits_bind; [emits_step|]. intros [|]; [apply emits_ret|].
  apply emits_bind; [apply emits_emit, Hwrite|]. intros _.
  apply emits_bind; [apply emits_emit, P_print|]. intros _.
  apply emits_raise.
Qed.

Lemma kinds_verify_contract (g : globals) (fuel : nat)
    (name address input_path output_path : string) :
  (forall code version enabled runs evm license,
      P (post (chain_params g)
              (verify_request g name address code version enabled runs evm license))) ->
  (forall guid, P (post (chain_params g) (status_request g guid))) ->
  (forall code, P (Write (log_name w) code)) ->
  emits P (verify_contract w g fuel name address input_path output_path).
Proof.
  intros Hsubmit Hstatus Hwrite. unfold verify_contract.
  eapply emits_bind_gives; [apply gives_build_request|].
  intros [code data] (version & enabled & runs & evm & license & Hdata).
  simpl in Hdata. subst data. cbn [fst snd].
  apply emits_bind; [apply kinds_submit, Hsubmit|]. intros c.
  apply emits_bind; [emits_step|]. intros [|].
  - apply emits_bind; [emits_step|]. intros r.
    apply emits_bind; [emits_step|]. intros line.
    apply emits_bind; [apply emits_emit, P_print|]. intros _.
    apply emits_bind; [emits_step|]. intros [|]; [apply emits_ret | apply emits_raise].
  - apply emits_bind; [emits_step|]. intros r.
    apply emits_bind; [emits_step|]. intros line.
    apply emits_bind; [apply emits_emit, P_print|]. intros _.
    apply emits_bind; [emits_step|]. intros guid.
    apply kinds_poll; auto.
Qed.

(** A program is run; what follows knows what it printed. *)
Lemma kinds_bind_run {B} (cmd : list string) (env : gmap string string)
    (k : option string -> M B) :
  P (Run cmd env) ->
  (forall out, subprocess_run w cmd env = Completed out -> emits P (k out)) ->
  emits P (bind (run w cmd env) k).
Proof.
  intros Hrun Hk h. unfold run, bind, emit.
  destruct (subprocess_run w cmd env) as [p|out] eqn:Hout.
  - exists [Run cmd env]. split; [reflexivity|]. repeat constructor. exact Hrun.
  - destruct (Hk out eq_refl (h ++ [Run cmd env])) as (t & Ht & HP).
    exists (Run cmd env :: t). unfold ret. rewrite Ht, <- app_assoc.
    split; [reflexivity|]. constructor; assumption.
Qed.

Lemma kinds_resolve_library : emits P (resolve_library w).
Proof.
  unfold resolve_library. apply emits_try_except.
  - apply emits_bind.
    + unfold get_library_address.
      apply emits_bind; [emits_step|]. intros h.
      destruct (read_file w h "foundry.toml"); try apply emits_raise.
      destruct (re_search_library content); [apply emits_ret | apply emits_raise].
    + intros a. apply emits_bind; [apply emits_emit, P_print|]. intros _. apply emits_ret.
  - intros e. destruct e; try apply emits_raise.
    apply emits_bind; [apply emits_emit, P_print|]. intros _.
    apply emits_bind; [apply emits_emit, P_print|]. intros _. apply emits_ret.
Qed.

Lemma kinds_arguments : emits P (arguments w).
Proof.
  unfold arguments, getenv_or_exit.
  apply emits_bind.
  { destruct (environ w !! "ETHERSCAN_API_KEY"); [apply emits_ret|].
    apply emits_bind; [apply emits_emit, P_print|]. intros _. apply emits_exit. }
  intros key. apply emits_bind.
  { destruct (environ w !! "ETH_RPC_URL"); [apply emits_ret|].
    apply emits_bind; [apply emits_emit, P_print|]. intros _. apply emits_exit. }
  intros url. destruct (negb _).
  { apply emits_bind; [apply emits_emit, P_print|]. intros _. apply emits_exit. }
  apply emits_bind; [emits_step|]. intros name.
  apply emits_bind; [emits_step|]. intros address.
  apply emits_bind; [apply emits_emit, P_print|]. intros _.
  destruct (negb _); [apply emits_exit|].
  apply emits_bind; [destruct (_ =? _)%nat; emits_step|]. intros ctor.
  apply emits_bind; [apply emits_emit, P_print|]. intros _. apply emits_ret.
Qed.

Lemma kinds_prologue :
  P (Run flatten_command (environ w)) ->
  P (Run ["cast"; "chain-id"] (environ w)) ->
  emits P (prologue w).
Proof.
  intros Hflatten Hchain. unfold prologue.
  apply emits_bind; [apply kinds_arguments|]. intros [[[key name] address] ctor].
  apply kinds_bind_run; [exact Hflatten|]. intros _ _.
  apply emits_bind.
  - unfold surroundings.
    apply emits_bind; [apply emits_emit, P_print|]. intros _.
    apply kinds_bind_run; [exact Hchain|]. intros out _.
    apply emits_bind; [emits_step|]. intros decoded.
    apply emits_bind; [apply emits_emit, P_print|]. intros _.
    apply emits_bind; [apply kinds_resolve_library|]. intros a. apply emits_ret.
  - intros [chain library]. apply emits_ret.
Qed.

Lemma kinds_verify_both (g : globals) (fuel : nat) (name address : string) :
  (forall code version enabled runs evm license,
      P (post (chain_params g)
              (verify_request g name address code version enabled runs evm license))) ->
  (forall out code version enabled runs evm license,
      subprocess_run w (call_command address) (call_environment w)
      = Completed (Some out) ->
      P (post (chain_params g)
              (verify_request g "DssSpellAction" (drop_last out) code version
                 enabled runs evm license))) ->
  (forall guid, P (post (chain_params g) (status_request g guid))) ->
  (forall code, P (Write (log_name w) code)) ->
  P (Run (call_command address) (call_environment w)) ->
  emits P (verify_both w g fuel name address).
Proof.
  intros Hspell Haction Hstatus Hwrite Hrun. unfold verify_both, subdomain_of.
  apply emits_bind; [apply kinds_verify_contract; auto|]. intros _.
  apply emits_bind.
  { destruct (etherscan_subdomains !! chain_id g); [apply emits_ret | apply emits_raise]. }
  intros sub.
  apply emits_bind; [apply emits_emit, P_print|]. intros _.
  apply kinds_bind_run; [exact Hrun|]. intros [out|] Hout; [|apply emits_raise].
  apply emits_bind_ret.
  apply emits_bind; [apply emits_emit, P_print|]. intros _.
  apply emits_bind; [apply kinds_verify_contract; auto|].
  intros _. apply emits_bind.
  { destruct (etherscan_subdomains !! chain_id g); [apply emits_ret | apply emits_raise]. }
  intros sub'. apply emits_emit, P_print.
Qed.

(** The whole script, for a property that may look at the spell's name and
    address. *)
Lemma kinds_main (fuel : nat) :
  P (Run flatten_command (environ w)) ->
  P (Run ["cast"; "chain-id"] (environ w)) ->
  (forall g name address,
      configured w g name address ->
      (forall code version enabled runs evm license,
          P (post (chain_params g)
               (verify_request g name address code version enabled runs evm license))) /\
      (forall out code version enabled runs evm license,
          subprocess_run w (call_command address) (call_environment w)
          = Completed (Some out) ->
          P (post (chain_params g)
               (verify_request g "DssSpellAction" (drop_last out) code version
                  enabled runs evm license))) /\
      (forall guid, P (post (chain_params g) (status_request g guid))) /\
      (forall code, P (Write (log_name w) code)) /\
      P (Run (call_command address) (call_environment w))) ->
  Forall P (snd (main w fuel [])).
Proof.
  intros Hflatten Hchain Hrest. unfold main, bind.
  destruct (kinds_prologue Hflatten Hchain []) as (t & Ht & Hquiet).
  destruct (prologue w []) as [[[[g name] address]| | |] h1] eqn:Hpro;
    simpl in Ht; subst h1; try exact Hquiet.
  cbn [fst snd].
  destruct (Hrest g name address (prologue_done w g name address _ Hpro))
    as (H1 & H2 & H3 & H4 & H5).
  destruct (kinds_verify_both g fuel name address H1 H2 H3 H4 H5 t) as (t' & Ht' & HP).
  rewrite Ht'. apply Forall_app. auto.
Qed.

End Kinds.

(** X4.  Besides printing, a run of the script only ever sleeps for 15
    seconds, writes the one log file, runs forge flatten, cast chain-id and
    cast call on the address given as argument, and posts to the API URL with
    an empty user agent. *)
Theorem run_does_only_what_is_permitted (w : world) (fuel : nat) :
  Forall (permitted w) (snd (main w fuel [])).
Proof.
  apply kinds_main; try (intros; exact I); try reflexivity.
  - left. auto.
  - right. left. auto.
  - intros g name address Hconf.
    repeat split.
    right. right. exists address. repeat split.
    apply Hconf.
Qed.


(** X6.  Every verification request of a run is either for the contract
    named by the first argument at the address given as second argument, or
    for DssSpellAction at what [cast call] printed for that address, less its
    last character. *)
Theorem requests_are_aimed (w : world) (fuel : nat) (name address : string) :
  argv w !! 1%nat = Some name ->
  argv w !! 2%nat = Some address ->
  Forall (aimed_at w name address) (snd (main w fuel [])).
Proof.
  intros Hname Haddress.
  apply kinds_main; try (intros; intros Hsub; discriminate Hsub).
  intros g name' address' Hconf.
  destruct Hconf as (_ & _ & Hn & Ha & _).
  assert (name' = name) as -> by congruence.
  assert (address' = address) as -> by congruence.
  repeat split; try (intros; intros Hsub; discriminate Hsub).
  - intros. intros _. left. split; reflexivity.
  - intros out code version enabled runs evm license Hout _.
    right. split; [reflexivity|]. exists out. split; [exact Hout | reflexivity].
Qed.

Lemma requests_are_aimed_witness :
  Forall (aimed_at Sample.full_world "DssSpell" Sample.spell_address)
         (snd (main Sample.full_world 3 [])).
Proof.
  apply (requests_are_aimed Sample.full_world 3 "DssSpell" Sample.spell_address);
    reflexivity.
Defined.

(** ** When the log is written *)

Lemma wor_emits {A} (e : exn) (m : M A) :
  emits (fun x => is_write x = false) m -> writes_only_raising e m.
Proof. intros H h. destruct (H h) as (t & Ht & HP). exists t. auto. Qed.

Lemma wor_bind {A B} (e : exn) (m : M A) (k : A -> M B) :
  writes_only_raising e m -> (forall a, writes_only_raising e (k a)) ->
  writes_only_raising e (bind m k).
Proof.
  intros Hm Hk h. destruct (Hm h) as (t & Ht & Hcase). unfold bind.
  destruct (m h) as [[a|e'|c|] h']; simpl in Ht, Hcase; subst h'.
  - destruct Hcase as [Hquiet | [Hr _]]; [|discriminate].
    destruct (Hk a (h ++ t)) as (t' & Ht' & Hcase').
    exists (t ++ t'). rewrite Ht', app_assoc. split; [reflexivity|].
    destruct Hcase' as [Hquiet' | (Hr & before & path & content & -> & Hb)].
    + left. apply Forall_app. auto.
    + right. split; [exact Hr|].
      exists (t ++ before), path, content. rewrite app_assoc.
      split; [reflexivity|]. apply Forall_app. auto.
  - exists t. split; [reflexivity|].
    destruct Hcase as [Hquiet | [Hr Hshape]]; [left; exact Hquiet|].
    right. split; [|exact Hshape]. simpl. congruence.
  - exists t. split; [reflexivity|].
    destruct Hcase as [Hquiet | [Hr _]]; [left; exact Hquiet | discriminate].
  - exists t. split; [reflexivity|].
    destruct Hcase as [Hquiet | [Hr _]]; [left; exact Hquiet | discriminate].
Qed.

Lemma wor_poll (w : world) (g : globals) (fuel : nat) (params : dict)
    (code : string) (guid : value) :
  writes_only_raising (Exception "Failed to get verification status")
    (poll w g fuel params code guid).
Proof.
  unfold poll.
  apply wor_bind; [apply wor_emits, kinds_poll_loop; reflexivity|]. intros c.
  apply wor_bind; [apply wor_emits; emits_step|]. intros [|];
    [|apply wor_emits, emits_ret].
  apply wor_bind; [apply wor_emits; emits_step|]. intros r.
  apply wor_bind; [apply wor_emits; emits_step|]. intros line.
  apply wor_bind; [apply wor_emits, emits_emit; reflexivity|]. intros _.
  apply wor_bind; [apply wor_emits; emits_step|]. intros [|];
    [apply wor_emits, emits_ret|].
  intros h.
  exists [Write (log_name w) code; Print (VStr ("log written to " +:+ log_name w))].
  split.
  - unfold bind, emit, print, emit, raise. cbn [snd]. rewrite <- app_assoc. reflexivity.
  - right. split; [reflexivity|].
    exists [], (log_name w), code. split; [reflexivity|]. constructor.
Qed.

Lemma wor_verify_contract (w : world) (g : globals) (fuel : nat)
    (name address input_path output_path : string) :
  writes_only_raising (Exception "Failed to get verification status")
    (verify_contract w g fuel name address input_path output_path).
Proof.
  unfold verify_contract.
  apply wor_bind; [apply wor_emits; emits_step|]. intros [code data]. cbn [fst snd].
  apply wor_bind; [apply wor_emits, kinds_submit; reflexivity|]. intros c.
  apply wor_bind; [apply wor_emits; emits_step|]. intros [|].
  - apply wor_emits.
    apply emits_bind; [emits_step|]. intros r.
    apply emits_bind; [emits_step|]. intros line.
    apply emits_bind; [apply emits_emit; reflexivity|]. intros _.
    apply emits_bind; [emits_step|]. intros [|]; [apply emits_ret | apply emits_raise].
  - apply wor_bind; [apply wor_emits; emits_step|]. intros r.
    apply wor_bind; [apply wor_emits; emits_step|]. intros line.
    apply wor_bind; [apply wor_emits, emits_emit; reflexivity|]. intros _.
    apply wor_bind; [apply wor_emits; emits_step|]. intros guid.
    apply wor_poll.
Qed.

Lemma wor_main (w : world) (fuel : nat) :
  writes_only_raising (Exception "Failed to get verification status") (main w fuel).
Proof.
  unfold main.
  apply wor_bind; [apply wor_emits, kinds_prologue; reflexivity|].
  intros [[g name] address]. cbn [fst snd]. unfold verify_both, subdomain_of.
  apply wor_bind; [apply wor_verify_contract|]. intros _.
  apply wor_bind.
  { apply wor_emits.
    destruct (etherscan_subdomains !! chain_id g); [apply emits_ret | apply emits_raise]. }
  intros sub.
  apply wor_bind; [apply wor_emits, emits_emit; reflexivity|]. intros _.
  apply wor_bind.
  { apply wor_emits, kinds_run. reflexivity. }
  intros out.
  apply wor_bind; [apply wor_emits; emits_step|]. intros decoded.
  apply wor_bind; [apply wor_emits, emits_emit; reflexivity|]. intros _.
  apply wor_bind; [apply wor_verify_contract|]. intros _.
  apply wor_bind.
  { apply wor_emits.
    destruct (etherscan_subdomains !! chain_id g); [apply emits_ret | apply emits_raise]. }
  intros sub'. apply wor_emits, emits_emit. reflexivity.
Qed.

(** X7.  A run of the script writes a file only when it ends by raising
    "Failed to get verification status": then the write and the print of the
    log's name are the last two things it does, and it is the only write;
    every other run writes nothing. *)
Theorem log_is_written_only_on_failed_status (w : world) (fuel : nat) :
  let run := main w fuel [] in
  List.filter is_write (snd run) = [] \/
  (fst run = Raised (Exception "Failed to get verification status") /\
   exists before content,
     snd run = before ++ [Write (log_name w) content;
                          Print (VStr ("log written to " +:+ log_name w))] /\
     List.filter is_write before = []).
Proof.
  intros run. destruct (wor_main w fuel []) as (t & Ht & Hcase).
  fold run in Ht, Hcase. simpl in Ht. rewrite Ht.
  destruct Hcase as [Hquiet | (Hr & before & path & content & -> & Hb)].
  - left. apply filter_none, Hquiet.
  - right. split; [exact Hr|].
    assert (Hperm : Forall (fun e => match e with
                                     | Write path _ => path = log_name w
                                     | _ => True
                                     end) (snd (main w fuel []))).
    { apply kinds_main; try (intros; exact I). intros; repeat split. }
    fold run in Hperm. rewrite Ht in Hperm.
    apply Forall_app in Hperm as [_ Hlast].
    apply Forall_cons in Hlast as [Hw _]. simpl in Hw. subst path.
    exists before, content. split; [reflexivity|].
    apply filter_none, Hb.
Qed.

(** ** Answers and artifacts that are not as expected *)

Lemma send_not_json (w : world) (params data : dict) (h : history) (text : string) :
  http w (requests_sent h) = Response text -> json_loads w text = None ->
  send_etherscan_api_request w params data h
  = (Raised (Exception "Error: Etherscan responded with invalid JSON."),
     h ++ [sending; post params data; PrintErr (VStr text)]).
Proof.
  intros Hhttp Hjson.
  unfold send_etherscan_api_request, bind, print, emit, get_history.
  rewrite requests_sent_app, Nat.add_0_r, Hhttp, Hjson.
  unfold raise. rewrite <- !app_assoc. reflexivity.
Qed.

(** X8.  An answer to the submission that is not JSON ends the call at
    once: the body goes to the error output, "Error: Etherscan responded
    with invalid JSON." is raised, and the request is not made again. *)
Theorem answer_that_is_not_json_ends_the_call (w : world) (g : globals) (fuel : nat)
    (name address input_path output_path : string) (h : history)
    (code : string) (data : dict) (text : string) :
  build_request w g name address input_path output_path h = (Done (code, data), h) ->
  http w (requests_sent h) = Response text ->
  json_loads w text = None ->
  verify_contract w g fuel name address input_path output_path h
  = (Raised (Exception "Error: Etherscan responded with invalid JSON."),
     h ++ [sending; post (chain_params g) data; PrintErr (VStr text)]).
Proof.
  intros Hbuilt Hhttp Hjson. unfold verify_contract.
  rewrite (bind_done _ _ _ _ _ Hbuilt). cbn [fst snd]. unfold submit.
  rewrite bind_assoc.
  rewrite (bind_raised _ _ _ _ _ (send_not_json w _ data h text Hhttp Hjson)).
  reflexivity.
Qed.

Lemma answer_that_is_not_json_ends_the_call_witness :
  verify_contract Sample.html_world Sample.g0 3 "DssSpell" Sample.spell_address
    Sample.spell_source Sample.spell_artifact []
  = (Raised (Exception "Error: Etherscan responded with invalid JSON."),
     [] ++ [sending; post (chain_params Sample.g0) Sample.request;
            PrintErr (VStr "<html>Bad Gateway</html>")]).
Proof.
  apply (answer_that_is_not_json_ends_the_call Sample.html_world Sample.g0 3
           "DssSpell" Sample.spell_address Sample.spell_source Sample.spell_artifact []
           Sample.flat_source Sample.request "<html>Bad Gateway</html>").
  - vm_compute. reflexivity.
  - reflexivity.
  - vm_compute. reflexivity.
Defined.

(** X9.  Without the artifact [verify_contract] raises "run forge build
    first", and with an artifact that is not JSON "run forge build again";
    in both cases nothing has been posted or printed. *)
Theorem artifact_that_cannot_be_loaded_is_reported (w : world) (g : globals)
    (fuel : nat) (name address input_path output_path : string) (h : history)
    (advice : string) :
  (read_file w h output_path = Absent /\ advice = "run forge build first")
  \/ (exists document,
         read_file w h output_path = Text document /\
         json_loads w document = None /\ advice = "run forge build again") ->
  verify_contract w g fuel name address input_path output_path h
  = (Raised (Exception advice), h).
Proof.
  intros Hcase.
  assert (Hload : load_artifact w output_path h = (Raised (Exception advice), h)).
  { unfold load_artifact, bind, get_history.
    destruct Hcase as [[-> ->] | (document & -> & -> & ->)]; reflexivity. }
  unfold verify_contract, build_request.
  rewrite bind_assoc, (bind_raised _ _ _ _ _ Hload). reflexivity.
Qed.

Lemma artifact_that_cannot_be_loaded_is_reported_witness :
  verify_contract Sample.unbuilt_world Sample.g0 3 "DssSpell" Sample.spell_address
    Sample.spell_source Sample.spell_artifact []
  = (Raised (Exception "run forge build first"), [])
  /\
  verify_contract Sample.garbled_world Sample.g0 3 "DssSpell" Sample.spell_address
    Sample.spell_source Sample.spell_artifact []
  = (Raised (Exception "run forge build again"), []).
Proof.
  split.
  - apply (artifact_that_cannot_be_loaded_is_reported Sample.unbuilt_world Sample.g0 3
             "DssSpell" Sample.spell_address Sample.spell_source Sample.spell_artifact []).
    left. split; reflexivity.
  - apply (artifact_that_cannot_be_loaded_is_reported Sample.garbled_world Sample.g0 3
             "DssSpell" Sample.spell_address Sample.spell_source Sample.spell_artifact []).
    right. exists "<<<<". repeat split; vm_compute; reflexivity.
Defined.

Lemma path_cons (k : string) (ks : list string) (d : dict) (x y : value) :
  dict_get k d = Some x -> path ks x = Some y -> path (k :: ks) (VDict d) = Some y.
Proof. intros H1 H2. simpl. rewrite H1. exact H2. Qed.

(** Lines 120-166 read backwards: a request that is built was built from a
    complete artifact with a license of the table. *)
Lemma build_request_done (w : world) (g : globals)
    (name address input_path output_path : string) (h h' : history)
    (code : string) (data : dict) :
  build_request w g name address input_path output_path h = (Done (code, data), h') ->
  exists version evm enabled runs license number,
    artifact_ready w h input_path output_path version evm enabled runs
      (VStr license) code /\
    license_numbers !! license = Some number.
Proof.
  unfold build_request, load_artifact, open_read, license_number_of, getitem, str_add,
    bind, get_history, ret, raise.
  intros H.
  repeat (case_match; simplify_eq/=).
  do 6 eexists. split; [|eassumption].
  do 2 eexists. split; [eassumption|]. split; [eassumption|].
  repeat split; try eassumption;
    repeat (eapply path_cons; [eassumption|]); reflexivity.
Qed.

(** X10.  [verify_contract] gets to its request exactly when the artifact
    has every field the script reads, with a version and a license that are
    strings and a license of the table, and the flattened source can be
    read; the request is then made of these: the compiler version is the
    artifact's after a "v", the optimization flag is '1' or '0' by the truth
    of the artifact's, and the source code is the flattened file. *)
Theorem request_is_built_from_the_artifact (w : world) (g : globals)
    (name address input_path output_path : string) (h h' : history)
    (code : string) (data : dict) :
  build_request w g name address input_path output_path h = (Done (code, data), h') <->
  h' = h /\
  exists version evm enabled runs license number,
    artifact_ready w h input_path output_path version evm enabled runs
      (VStr license) code /\
    license_numbers !! license = Some number /\
    data = verify_request g name address code ("v" +:+ version) enabled runs evm number.
Proof.
  split.
  - intros H.
    destruct (gives_build_request w g name address input_path output_path h) as [Hh _].
    rewrite H in Hh. simpl in Hh. subst h'. split; [reflexivity|].
    destruct (build_request_done _ _ _ _ _ _ _ _ _ _ H)
      as (version & evm & enabled & runs & license & number & Hready & Hlic).
    exists version, evm, enabled, runs, license, number.
    split; [exact Hready|]. split; [exact Hlic|].
    pose proof (build_request_ready w g name address input_path output_path h
                  version evm enabled runs license code Hready) as Hb.
    rewrite Hlic, H in Hb. congruence.
  - intros (-> & version & evm & enabled & runs & license & number & Hready & Hlic & ->).
    rewrite (build_request_ready w g name address input_path output_path h
               version evm enabled runs license code Hready), Hlic.
    reflexivity.
Qed.

(** X11.  [verify_contract] does nothing to the outside unless the artifact
    has every field the script reads (with a version and a license that are
    strings), the license is in the table, and the flattened source can be
    read. *)
Theorem nothing_happens_without_a_complete_artifact (w : world) (g : globals)
    (fuel : nat) (name address input_path output_path : string) (h : history) :
  snd (verify_contract w g fuel name address input_path output_path h) <> h ->
  exists version evm enabled runs license code number,
    artifact_ready w h input_path output_path version evm enabled runs
      (VStr license) code /\
    license_numbers !! license = Some number.
Proof.
  intros Hmoved.
  destruct (gives_build_request w g name address input_path output_path h) as [Hh _].
  destruct (build_request w g name address input_path output_path h)
    as [[[code data]| e | c |] h'] eqn:Hb; simpl in Hh; subst h'.
  - destruct (build_request_done _ _ _ _ _ _ _ _ _ _ Hb)
      as (version & evm & enabled & runs & license & number & Hready & Hlic).
    exists version, evm, enabled, runs, license, code, number. auto.
  - exfalso. apply Hmoved. unfold verify_contract, bind. rewrite Hb. reflexivity.
  - exfalso. apply Hmoved. unfold verify_contract, bind. rewrite Hb. reflexivity.
  - exfalso. apply Hmoved. unfold verify_contract, bind. rewrite Hb. reflexivity.
Qed.

Lemma nothing_happens_without_a_complete_artifact_witness :
  exists version evm enabled runs license code number,
    artifact_ready (Sample.built_world [Sample.accepted; Sample.passed]) []
      Sample.spell_source Sample.spell_artifact version evm enabled runs
      (VStr license) code /\
    license_numbers !! license = Some number.
Proof.
  apply (nothing_happens_without_a_complete_artifact
           (Sample.built_world [Sample.accepted; Sample.passed]) Sample.g0 3
           "DssSpell" Sample.spell_address Sample.spell_source Sample.spell_artifact []).
  vm_compute. discriminate.
Defined.

(** X12.  When the answer that ends the submission is not a success and
    does not say "already verified", [verify_contract] raises "Failed to
    verify": it never asks for a status and writes no log. *)
Theorem refused_submission_fails (w : world) (g : globals) (fuel : nat)
    (name address input_path output_path : string) (h : history)
    (code : string) (data : dict) (rs : list string)
    (status message : value) (r : string) :
  build_request w g name address input_path output_path h = (Done (code, data), h) ->
  settles w "locate" (requests_sent h) rs status message r ->
  ok_pair status message = false ->
  mentions "already verified" r = false ->
  (length rs <= fuel)%nat ->
  let events :=
    submission_events (chain_params g) data rs ++ [Print (VStr ("Error: " +:+ r))] in
  verify_contract w g fuel name address input_path output_path h
  = (Raised (Exception "Failed to verify"), h ++ events) /\
  List.filter is_status_query events = [] /\
  List.filter is_write events = [].
Proof.
  intros Hbuilt Hs Hbad Hnot Hfuel events. split; [|split].
  - rewrite (verify_contract_refused w g fuel name address input_path output_path
               h code data Hbuilt rs status message r Hs Hbad Hfuel).
    rewrite Hnot. reflexivity.
  - destruct (built_request _ _ _ _ _ _ _ _ _ _ Hbuilt)
      as (version & enabled & runs & evm & license & ->).
    unfold events. rewrite List.filter_app.
    rewrite (filter_none _ _ (no_queries_in_submission g (chain_params g) name address
                                code version enabled runs evm license rs)).
    reflexivity.
  - unfold events. rewrite List.filter_app.
    rewrite (filter_none _ _ (no_writes_in_submission _ _ _)). reflexivity.
Qed.

Lemma refused_submission_fails_witness :
  let events :=
    submission_events (chain_params Sample.g0) Sample.request
      ["Unable to locate ContractCode at 0x11"]
    ++ [Print (VStr ("Error: " +:+ "Fail - Unable to verify"))] in
  verify_contract (Sample.built_world [Sample.located; Sample.rejected]) Sample.g0 1
    "DssSpell" Sample.spell_address Sample.spell_source Sample.spell_artifact []
  = (Raised (Exception "Failed to verify"), [] ++ events) /\
  List.filter is_status_query events = [] /\
  List.filter is_write events = [].
Proof.
  apply (refused_submission_fails (Sample.built_world [Sample.located; Sample.rejected])
           Sample.g0 1 "DssSpell" Sample.spell_address
           Sample.spell_source Sample.spell_artifact []
           Sample.flat_source Sample.request
           ["Unable to locate ContractCode at 0x11"] (VStr "0") (VStr "NOTOK")
           "Fail - Unable to verify").
  - vm_compute. reflexivity.
  - vm_compute. repeat split.
  - reflexivity.
  - reflexivity.
  - simpl. lia.
Defined.

Lemma result_mentions_error (needle : string) (p : value) (e : exn) (h : history) :
  result_error p = Some e -> result_mentions needle p h = (Raised e, h).
Proof.
  unfold result_error, result_mentions, getitem, bind.
  destruct p as [| | | | | |d]; try (intros [= <-]; reflexivity).
  destruct (dict_get "result" d) as [[]|]; intros [= <-]; reflexivity.
Qed.

(** X13.  An answer to the submission whose result cannot be searched for
    "locate" ends the call with the exception of that step: [TypeError]
    when the answer is not an object, [KeyError] for 'result' when it has no
    such field, [AttributeError] when the result is not a string. *)
Theorem answer_without_result_text_raises (w : world) (g : globals) (fuel : nat)
    (name address input_path output_path : string) (h : history)
    (code : string) (data : dict) (p : value) (e : exn) :
  build_request w g name address input_path output_path h = (Done (code, data), h) ->
  answer_of w (requests_sent h) = Some p ->
  result_error p = Some e ->
  verify_contract w g fuel name address input_path output_path h
  = (Raised e, h ++ [sending; post (chain_params g) data]).
Proof.
  intros Hbuilt Hanswer Herror. unfold verify_contract.
  rewrite (bind_done _ _ _ _ _ Hbuilt). cbn [fst snd]. unfold submit.
  rewrite bind_assoc.
  rewrite (bind_done _ _ _ _ _ (send_answered w _ data h p Hanswer)).
  assert (Hloop : submit_loop w fuel [("chainid", VStr (chain_id g))] data p
                    (h ++ [sending; post [("chainid", VStr (chain_id g))] data])
                  = (Raised e, h ++ [sending; post [("chainid", VStr (chain_id g))] data])).
  { destruct fuel; cbn [submit_loop];
      rewrite (bind_raised _ _ _ _ _ (result_mentions_error _ _ _ _ Herror));
      reflexivity. }
  rewrite (bind_raised _ _ _ _ _ Hloop). reflexivity.
Qed.

Lemma answer_without_result_text_raises_witness :
  verify_contract (Sample.built_world [Sample.resultless]) Sample.g0 3
    "DssSpell" Sample.spell_address Sample.spell_source Sample.spell_artifact []
  = (Raised (KeyError (VStr "result")),
     [] ++ [sending; post (chain_params Sample.g0) Sample.request])
  /\
  verify_contract (Sample.built_world [Sample.null_result]) Sample.g0 3
    "DssSpell" Sample.spell_address Sample.spell_source Sample.spell_artifact []
  = (Raised AttributeError,
     [] ++ [sending; post (chain_params Sample.g0) Sample.request])
  /\
  verify_contract (Sample.built_world [VList []]) Sample.g0 3
    "DssSpell" Sample.spell_address Sample.spell_source Sample.spell_artifact []
  = (Raised TypeError,
     [] ++ [sending; post (chain_params Sample.g0) Sample.request]).
Proof.
  split; [|split].
  - apply (answer_without_result_text_raises (Sample.built_world [Sample.resultless])
             Sample.g0 3 "DssSpell" Sample.spell_address
             Sample.spell_source Sample.spell_artifact []
             Sample.flat_source Sample.request Sample.resultless).
    + vm_compute. reflexivity.
    + vm_compute. reflexivity.
    + reflexivity.
  - apply (answer_without_result_text_raises (Sample.built_world [Sample.null_result])
             Sample.g0 3 "DssSpell" Sample.spell_address
             Sample.spell_source Sample.spell_artifact []
             Sample.flat_source Sample.request Sample.null_result).
    + vm_compute. reflexivity.
    + vm_compute. reflexivity.
    + reflexivity.
  - apply (answer_without_result_text_raises (Sample.built_world [VList []])
             Sample.g0 3 "DssSpell" Sample.spell_address
             Sample.spell_source Sample.spell_artifact []
             Sample.flat_source Sample.request (VList [])).
    + vm_compute. reflexivity.
    + vm_compute. reflexivity.
    + reflexivity.
Defined.

Lemma getitem_missing (d : dict) (k : string) (h : history) :
  dict_get k d = None -> getitem (VDict d) k h = (Raised (KeyError (VStr k)), h).
Proof. intros H. simpl. rewrite H. reflexivity. Qed.

(** X14.  The message of an answer is looked at only when its status is
    '1'.  With any other status the answer is a refusal whether or not it
    has a message; with status '1' and no message field the call ends in
    [KeyError] for 'message'. *)
Theorem message_is_read_only_after_status_one (w : world) (g : globals) (fuel : nat)
    (name address input_path output_path : string) (h : history)
    (code : string) (data : dict) (p status : value) (r : string) :
  build_request w g name address input_path output_path h = (Done (code, data), h) ->
  answer_of w (requests_sent h) = Some p ->
  field "result" p = Some (VStr r) ->
  mentions "locate" r = false ->
  field "status" p = Some status ->
  let run := verify_contract w g fuel name address input_path output_path h in
  let asked := [sending; post (chain_params g) data] in
  (status <> VStr "1" ->
   run = (if mentions "already verified" r then Done tt
          else Raised (Exception "Failed to verify"),
          h ++ asked ++ [Print (VStr ("Error: " +:+ r))])) /\
  (status = VStr "1" -> field "message" p = None ->
   run = (Raised (KeyError (VStr "message")), h ++ asked)).
Proof.
  intros Hbuilt Hanswer Hr Hno Hst run asked.
  assert (Hsub : submit w fuel [("chainid", VStr (chain_id g))] data h
                 = (Done p, h ++ asked)).
  { rewrite (submit_located w _ data p r [] fuel h Hr Hno).
    - reflexivity.
    - simpl. lia.
    - exact I.
    - simpl. rewrite Nat.add_0_r. exact Hanswer. }
  unfold run, verify_contract.
  rewrite (bind_done _ _ _ _ _ Hbuilt). cbn [fst snd].
  rewrite (bind_done _ _ _ _ _ Hsub).
  unfold not_ok. rewrite bind_assoc.
  rewrite (bind_done _ _ _ _ _ (getitem_field _ _ _ _ Hst)).
  split.
  - intros Hne.
    assert (Hd : differs_from_str status "1" = true).
    { destruct status; try reflexivity. simpl.
      destruct (String.eqb s "1") eqn:E; [|reflexivity].
      apply String.eqb_eq in E. congruence. }
    rewrite Hd. unfold bind at 1. unfold ret at 1.
    rewrite (bind_done _ _ _ _ _ (getitem_field _ _ _ _ Hr)).
    cbn [str_add]. unfold bind at 1. unfold ret at 1.
    unfold print at 1. unfold bind at 1. unfold emit at 1.
    rewrite (bind_done _ _ _ _ _ (result_mentions_field _ _ _ _ Hr)).
    unfold asked. rewrite <- !app_assoc.
    destruct (mentions "already verified" r); reflexivity.
  - intros -> Hm. cbn [differs_from_str String.eqb Ascii.eqb Bool.eqb negb].
    destruct p as [| | | | | |d]; try discriminate. simpl in Hm.
    rewrite bind_assoc, (bind_raised _ _ _ _ _ (getitem_missing _ _ _ Hm)).
    reflexivity.
Qed.

Lemma message_is_read_only_after_status_one_witness :
  verify_contract (Sample.built_world [Sample.curt]) Sample.g0 3
    "DssSpell" Sample.spell_address Sample.spell_source Sample.spell_artifact []
  = (Done tt,
     [] ++ [sending; post (chain_params Sample.g0) Sample.request]
        ++ [Print (VStr ("Error: " +:+ "already verified"))])
  /\
  verify_contract (Sample.built_world [Sample.messageless]) Sample.g0 3
    "DssSpell" Sample.spell_address Sample.spell_source Sample.spell_artifact []
  = (Raised (KeyError (VStr "message")),
     [] ++ [sending; post (chain_params Sample.g0) Sample.request]).
Proof.
  split.
  - apply (message_is_read_only_after_status_one (Sample.built_world [Sample.curt])
             Sample.g0 3 "DssSpell" Sample.spell_address
             Sample.spell_source Sample.spell_artifact []
             Sample.flat_source Sample.request Sample.curt (VStr "0") "already verified").
    + vm_compute. reflexivity.
    + vm_compute. reflexivity.
    + reflexivity.
    + reflexivity.
    + reflexivity.
    + discriminate.
  - apply (message_is_read_only_after_status_one (Sample.built_world [Sample.messageless])
             Sample.g0 3 "DssSpell" Sample.spell_address
             Sample.spell_source Sample.spell_artifact []
             Sample.flat_source Sample.request Sample.messageless (VStr "1") "guid-1").
    + vm_compute. reflexivity.
    + vm_compute. reflexivity.
    + reflexivity.
    + reflexivity.
    + reflexivity.
    + reflexivity.
    + reflexivity.
Defined.

(** ** The start of the script and the chain it runs on *)

(** X15.  Without ETHERSCAN_API_KEY, without ETH_RPC_URL (the key being
    set), or with a number of arguments other than two or three (both being
    set), the script prints the help text of that case (in that order of
    precedence) and exits with no exit code: no program is run and nothing
    is posted. *)
Theorem incomplete_setup_prints_help_and_exits (w : world) (fuel : nat) (h : history)
    (help : string) :
  (environ w !! "ETHERSCAN_API_KEY" = None /\ help = api_key_help)
  \/ (is_Some (environ w !! "ETHERSCAN_API_KEY") /\
      environ w !! "ETH_RPC_URL" = None /\ help = rpc_url_help)
  \/ (is_Some (environ w !! "ETHERSCAN_API_KEY") /\
      is_Some (environ w !! "ETH_RPC_URL") /\
      length (argv w) <> 3%nat /\ length (argv w) <> 4%nat /\ help = usage) ->
  main w fuel h = (Exited None, h ++ [Print (VStr help)]).
Proof.
  intros Hcase.
  assert (Hargs : arguments w h = (Exited None, h ++ [Print (VStr help)])).
  { unfold arguments, getenv_or_exit.
    destruct Hcase as [[Hkey ->] | [([key Hkey] & Hurl & ->)
                                   | ([key Hkey] & [url Hurl] & H3 & H4 & ->)]].
    - rewrite Hkey. reflexivity.
    - rewrite Hkey, Hurl. reflexivity.
    - rewrite Hkey, Hurl.
      assert (Hn : bool_decide (length (argv w) ∈ [3; 4]%nat) = false).
      { apply bool_decide_eq_false. rewrite !elem_of_cons, elem_of_nil. tauto. }
      unfold bind at 1. unfold ret at 1. unfold bind at 1. unfold ret at 1.
      rewrite Hn. reflexivity. }
  unfold main, prologue.
  unfold bind at 1. unfold bind at 1. rewrite Hargs. reflexivity.
Qed.

Lemma incomplete_setup_prints_help_and_exits_witness :
  main Sample.keyless_world 3 [] = (Exited None, [] ++ [Print (VStr api_key_help)]) /\
  main Sample.urlless_world 3 [] = (Exited None, [] ++ [Print (VStr rpc_url_help)]) /\
  main Sample.crowded_world 3 [] = (Exited None, [] ++ [Print (VStr usage)]).
Proof.
  split; [|split].
  - apply (incomplete_setup_prints_help_and_exits Sample.keyless_world 3 []).
    left. split; reflexivity.
  - apply (incomplete_setup_prints_help_and_exits Sample.urlless_world 3 []).
    right. left. split; [|split]; [eexists; reflexivity | reflexivity | reflexivity].
  - apply (incomplete_setup_prints_help_and_exits Sample.crowded_world 3 []).
    right. right.
    split; [eexists; reflexivity|]. split; [eexists; reflexivity|].
    split; [simpl; lia|]. split; [simpl; lia | reflexivity].
Defined.

(** X16.  On a chain the script has no explorer subdomain for (any chain id
    but '1' and '11155111'), a run never ends normally and never runs
    [cast call]: after the spell's verification the lookup of the subdomain
    raises, so the action contract is not looked up. *)
Theorem unknown_chain_never_reaches_the_action (w : world) (fuel : nat) (out : string) :
  subprocess_run w ["cast"; "chain-id"] (environ w) = Completed (Some out) ->
  etherscan_subdomains !! drop_last out = None ->
  let run := main w fuel [] in
  fst run <> Done tt /\
  Forall (fun e => forall address env, e <> Run (call_command address) env) (snd run).
Proof.
  intros Hout Hnone run.
  set (P := fun e : event => forall address env, e <> Run (call_command address) env).
  assert (Pprint : forall v, P (Print v)) by (intros v a env; discriminate).
  assert (Pstderr : forall v, P (PrintErr v)) by (intros v a env; discriminate).
  assert (Psleep : P (Sleep 15)) by (intros a env; discriminate).
  assert (Pflatten : P (Run flatten_command (environ w))) by (intros a env; discriminate).
  assert (Pchain : P (Run ["cast"; "chain-id"] (environ w))) by (intros a env; discriminate).
  unfold run, main, bind.
  destruct (kinds_prologue w P Pprint Pflatten Pchain []) as (t & Ht & Hquiet).
  destruct (prologue w []) as [[[[g name] address]| | |] h1] eqn:Hpro;
    simpl in Ht; subst h1; cbn [fst snd]; try (split; [discriminate | exact Hquiet]).
  destruct (prologue_done w g name address _ Hpro)
    as (_ & _ & _ & _ & _ & (out' & Hout' & Hchain) & _).
  assert (out' = out) as -> by congruence.
  unfold verify_both, subdomain_of. rewrite Hchain, Hnone.
  destruct (kinds_verify_contract w P Pprint Pstderr Psleep g fuel name address
              "src/DssSpell.sol" "out/DssSpell.sol/DssSpell.json"
              ltac:(intros; intros a env; discriminate)
              ltac:(intros; intros a env; discriminate)
              ltac:(intros; intros a env; discriminate) t) as (t' & Ht' & HP).
  unfold bind.
  destruct (verify_contract w g fuel name address _ _ t) as [[[]| | |] h2];
    simpl in Ht'; subst h2; cbn [fst snd raise];
    (split; [discriminate | apply Forall_app; auto]).
Qed.

Lemma unknown_chain_never_reaches_the_action_witness :
  let run := main Sample.holesky_world 3 [] in
  fst run <> Done tt /\
  Forall (fun e => forall address env, e <> Run (call_command address) env) (snd run).
Proof.
  apply (unknown_chain_never_reaches_the_action Sample.holesky_world 3
           ("17000" +:+ nl)).
  - reflexivity.
  - vm_compute. reflexivity.
Defined.

(** X17.  Every request of a run carries the API key of the environment
    and the module 'contract', and its action is 'verifysourcecode' or
    'checkverifystatus'. *)
Theorem requests_carry_the_key (w : world) (fuel : nat) (key : string) :
  environ w !! "ETHERSCAN_API_KEY" = Some key ->
  Forall (fun e =>
            is_post e = true ->
            request_field "apikey" e = Some (VStr key) /\
            request_field "module" e = Some (VStr "contract") /\
            (request_field "action" e = Some (VStr "verifysourcecode") \/
             request_field "action" e = Some (VStr "checkverifystatus")))
         (snd (main w fuel [])).
Proof.
  intros Hkey.
  pose proof (main_requests w fuel) as Hshape.
  rewrite Forall_forall in Hshape. apply Forall_forall. intros e He Hpost.
  destruct (Hshape e He Hpost) as (g & name & address & Hconf & Hreq).
  destruct Hconf as (Hk & _).
  assert (api_key g = key) as <- by congruence.
  destruct e as [| | | url headers params data | |]; try discriminate.
  destruct Hreq as (-> & -> & [Hv | [guid ->]]).
  - destruct Hv as (n & a & code & version & enabled & runs & evm & license & _ & ->).
    repeat split; auto.
  - repeat split; auto.
Qed.

Lemma requests_carry_the_key_witness :
  Forall (fun e =>
            is_post e = true ->
            request_field "apikey" e = Some (VStr "KEY") /\
            request_field "module" e = Some (VStr "contract") /\
            (request_field "action" e = Some (VStr "verifysourcecode") \/
             request_field "action" e = Some (VStr "checkverifystatus")))
         (snd (main Sample.full_world 3 [])).
Proof.
  apply (requests_carry_the_key Sample.full_world 3 "KEY"). reflexivity.
Defined.

(** ** Loops that do not come to an end *)

Lemma poll_loop_hollow (w : world) (g : globals) (params : dict) (guid : value) :
  forall (k fuel : nat) (h : history),
    (forall n, (requests_sent h <= n < requests_sent h + k)%nat ->
               answer_of w n = Some (VDict [])) ->
    poll_loop w (k + fuel) g params guid (VDict []) h
    = poll_loop w fuel g params guid (VDict [])
        (h ++ bare_queries params (status_request g guid) k).
Proof.
  induction k as [|k IH]; intros fuel h Hempty.
  - cbn [bare_queries Nat.add]. rewrite app_nil_r. reflexivity.
  - change (S k + fuel)%nat with (S (k + fuel)).
    cbn [poll_loop is_empty_dict negb].
    unfold bind at 1. unfold ret at 1. unfold bind at 1. unfold ret at 1.
    rewrite (bind_done _ _ _ _ _
               (send_answered w params (status_request g guid) h (VDict [])
                  (Hempty (requests_sent h) ltac:(lia)))).
    rewrite IH.
    + cbn [bare_queries]. rewrite <- app_assoc. reflexivity.
    + intros n Hn. apply Hempty.
      rewrite requests_sent_app in Hn. cbn in Hn. lia.
Qed.

(** X18.  Status answers that are the empty object are asked for again at
    once: [k] of them in a row cost [k] requests with no print of a result
    and no sleep in between, and the loop then stands where it started; as
    long as they keep coming it does not end. *)
Theorem empty_status_answers_are_asked_again_at_once (w : world) (g : globals)
    (params : dict) (guid : value) (k fuel : nat) (h : history) :
  (forall n, (requests_sent h <= n < requests_sent h + k)%nat ->
             answer_of w n = Some (VDict [])) ->
  poll_loop w (k + fuel) g params guid (VDict []) h
  = poll_loop w fuel g params guid (VDict [])
      (h ++ bare_queries params (status_request g guid) k)
  /\
  poll_loop w k g params guid (VDict []) h
  = (OutOfFuel, h ++ bare_queries params (status_request g guid) k).
Proof.
  intros Hempty. split.
  - apply poll_loop_hollow, Hempty.
  - rewrite <- (Nat.add_0_r k) at 1.
    rewrite (poll_loop_hollow w g params guid k 0 h Hempty). reflexivity.
Qed.

Lemma empty_status_answers_are_asked_again_at_once_witness :
  poll_loop Sample.hollow_world (3 + 2) Sample.g0 (chain_params Sample.g0)
    (VStr "guid-1") (VDict []) []
  = poll_loop Sample.hollow_world 2 Sample.g0 (chain_params Sample.g0)
      (VStr "guid-1") (VDict [])
      ([] ++ bare_queries (chain_params Sample.g0)
               (status_request Sample.g0 (VStr "guid-1")) 3)
  /\
  poll_loop Sample.hollow_world 3 Sample.g0 (chain_params Sample.g0)
    (VStr "guid-1") (VDict []) []
  = (OutOfFuel,
     [] ++ bare_queries (chain_params Sample.g0)
             (status_request Sample.g0 (VStr "guid-1")) 3).
Proof.
  apply (empty_status_answers_are_asked_again_at_once Sample.hollow_world Sample.g0
           (chain_params Sample.g0) (VStr "guid-1") 3 2 []).
  intros n _. vm_compute. reflexivity.
Defined.

Lemma stalls_head (w : world) (needle : string) (n : nat) (rs : list string) (r : string) :
  stalls w needle n (rs ++ [r]) ->
  exists c r0, answer_of w n = Some c /\ field "result" c = Some (VStr r0) /\
               mentions needle r0 = true.
Proof.
  destruct rs as [|r0 rs]; simpl; intros (Hr & Hm & _).
  - destruct (result_at_answer w _ _ Hr) as (c & Hc & Hres). eauto.
  - destruct (result_at_answer w _ _ Hr) as (c & Hc & Hres). eauto.
Qed.

Lemma submit_loop_stalled (w : world) (params data : dict) (r : string) :
  forall (rs : list string) (n : nat) (c : value) (h : history),
    requests_sent h = S n ->
    answer_of w n = Some c ->
    stalls w "locate" n (rs ++ [r]) ->
    submit_loop w (length rs) params data c h
    = (OutOfFuel, h ++ flat_map (resubmission params data) rs).
Proof.
  induction rs as [|r0 rs IH]; intros n c h Hn Hc Hst.
  - destruct Hst as (Hr & Hm & _).
    destruct (result_at_answer w _ _ Hr) as (c' & Hc' & Hres).
    assert (c' = c) as -> by congruence.
    cbn [length submit_loop flat_map].
    rewrite (bind_done _ _ _ _ _ (result_mentions_field _ _ _ h Hres)), Hm.
    rewrite app_nil_r. reflexivity.
  - destruct Hst as (Hr & Hm & Hst).
    destruct (result_at_answer w _ _ Hr) as (c' & Hc' & Hres).
    assert (c' = c) as -> by congruence.
    destruct (stalls_head w _ _ _ _ Hst) as (c1 & r1 & Hc1 & _).
    cbn [length submit_loop].
    rewrite (bind_done _ _ _ _ _ (result_mentions_field _ _ _ h Hres)), Hm.
    rewrite (bind_done _ _ _ _ _ (getitem_field _ _ _ h Hres)).
    unfold print_value, print, sleep, emit, bind at 1 2 3.
    set (h1 := ((h ++ _) ++ _) ++ _).
    assert (Hh1 : requests_sent h1 = S n).
    { unfold h1. rewrite !requests_sent_app, Hn. cbn. lia. }
    rewrite (bind_done _ _ _ _ _
               (send_answered w params data h1 c1 ltac:(rewrite Hh1; exact Hc1))).
    rewrite (IH (S n) c1); try assumption.
    + f_equal. unfold h1. cbn [flat_map resubmission]. rewrite <- !app_assoc. reflexivity.
    + rewrite requests_sent_app, Hh1. cbn. lia.
Qed.

(** X19.  The submission has no limit of its own: when the answers to the
    first N+1 submissions all mention "locate", the script has slept and
    submitted again N times and is still in the loop. *)
Theorem submission_is_repeated_without_limit (w : world) (g : globals)
    (name address input_path output_path : string) (h : history)
    (code : string) (data : dict) (rs : list string) (r : string) :
  build_request w g name address input_path output_path h = (Done (code, data), h) ->
  stalls w "locate" (requests_sent h) (rs ++ [r]) ->
  verify_contract w g (length rs) name address input_path output_path h
  = (OutOfFuel, h ++ submission_events (chain_params g) data rs).
Proof.
  intros Hbuilt Hst.
  destruct (stalls_head w _ _ _ _ Hst) as (c & r0 & Hc & _).
  unfold verify_contract.
  rewrite (bind_done _ _ _ _ _ Hbuilt). cbn [fst snd]. unfold submit.
  rewrite bind_assoc.
  rewrite (bind_done _ _ _ _ _ (send_answered w _ data h c Hc)).
  assert (Hloop :
    submit_loop w (length rs) [("chainid", VStr (chain_id g))] data c
      (h ++ [sending; post [("chainid", VStr (chain_id g))] data])
    = (OutOfFuel,
       (h ++ [sending; post [("chainid", VStr (chain_id g))] data])
       ++ flat_map (resubmission [("chainid", VStr (chain_id g))] data) rs)).
  { apply (submit_loop_stalled w _ data r rs (requests_sent h)); try assumption.
    rewrite requests_sent_app. cbn. lia. }
  unfold bind at 1. rewrite Hloop.
  unfold submission_events, chain_params. rewrite <- app_assoc. reflexivity.
Qed.

Lemma submission_is_repeated_without_limit_witness :
  verify_contract Sample.unlocated_world Sample.g0
    (length ["Unable to locate ContractCode at 0x11";
             "Unable to locate ContractCode at 0x11"])
    "DssSpell" Sample.spell_address Sample.spell_source Sample.spell_artifact []
  = (OutOfFuel,
     [] ++ submission_events (chain_params Sample.g0) Sample.request
             ["Unable to locate ContractCode at 0x11";
              "Unable to locate ContractCode at 0x11"]).
Proof.
  apply (submission_is_repeated_without_limit Sample.unlocated_world Sample.g0
           "DssSpell" Sample.spell_address Sample.spell_source Sample.spell_artifact []
           Sample.flat_source Sample.request
           ["Unable to locate ContractCode at 0x11";
            "Unable to locate ContractCode at 0x11"]
           "Unable to locate ContractCode at 0x11").
  - vm_compute. reflexivity.
  - vm_compute. repeat split.
Defined.

Lemma poll_loop_stalled (w : world) (g : globals) (params : dict) (guid : value)
    (r : string) :
  forall (rs : list string) (n : nat) (c : value) (h : history),
    requests_sent h = S n ->
    answer_of w n = Some c ->
    stalls w "pending" n (rs ++ [r]) ->
    poll_loop w (length rs) g params guid c h
    = (OutOfFuel, h ++ flat_map (requery params (status_request g guid)) rs).
Proof.
  induction rs as [|r0 rs IH]; intros n c h Hn Hc Hst.
  - destruct Hst as (Hr & Hm & _).
    destruct (result_at_answer w _ _ Hr) as (c' & Hc' & Hres).
    assert (c' = c) as -> by congruence.
    cbn [length poll_loop flat_map]. rewrite (field_not_empty _ _ _ Hres).
    rewrite (bind_done _ _ _ _ _ (result_mentions_field _ _ _ h Hres)), Hm.
    rewrite app_nil_r. reflexivity.
  - destruct Hst as (Hr & Hm & Hst).
    destruct (result_at_answer w _ _ Hr) as (c' & Hc' & Hres).
    assert (c' = c) as -> by congruence.
    destruct (stalls_head w _ _ _ _ Hst) as (c1 & r1 & Hc1 & _).
    cbn [length poll_loop]. rewrite (field_not_empty _ _ _ Hres).
    rewrite (bind_done _ _ _ _ _ (result_mentions_field _ _ _ h Hres)), Hm.
    cbn [negb].
    set (h1 := ((h ++ [Print (VStr r0)]) ++
                [Print (VStr "Waiting for 15 seconds for Etherscan to process the request...")])
               ++ [Sleep 15]).
    assert (Hwait :
      (result <- getitem c "result";;
       print_value result;;;
       print "Waiting for 15 seconds for Etherscan to process the request...";;;
       sleep 15) h = (Done tt, h1)).
    { rewrite (bind_done _ _ _ _ _ (getitem_field _ _ _ h Hres)). reflexivity. }
    rewrite (bind_done _ _ _ _ _ Hwait).
    assert (Hh1 : requests_sent h1 = S n).
    { unfold h1. rewrite !requests_sent_app, Hn. cbn. lia. }
    rewrite (bind_done _ _ _ _ _
      (send_answered w params (status_request g guid) h1 c1
         ltac:(rewrite Hh1; exact Hc1))).
    rewrite (IH (S n) c1); try assumption.
    + f_equal. unfold h1. cbn [flat_map requery]. rewrite <- !app_assoc. reflexivity.
    + rewrite requests_sent_app, Hh1. cbn. lia.
Qed.

(** X20.  Nor has the polling a limit: after an accepted submission, when
    the answers to the first N+1 status queries all mention "pending", the
    script has slept and asked again N times and is still in the loop. *)
Theorem polling_is_repeated_without_limit (w : world) (g : globals)
    (name address input_path output_path : string) (h : history)
    (code : string) (data : dict) (ls : list string) (guid : string)
    (ps : list string) (r : string) :
  build_request w g name address input_path output_path h = (Done (code, data), h) ->
  settles w "locate" (requests_sent h) ls (VStr "1") (VStr "OK") guid ->
  (length ls <= S (length ps))%nat ->
  stalls w "pending" (requests_sent h + S (length ls)) (ps ++ [r]) ->
  verify_contract w g (S (length ps)) name address input_path output_path h
  = (OutOfFuel,
     h ++ submission_events (chain_params g) data ls
       ++ [Print (VStr ("Sent verification request with guid " +:+ guid))]
       ++ polling_events (chain_params g) (status_request g (VStr guid)) ps).
Proof.
  intros Hbuilt Hs Hfuel Hst.
  rewrite (verify_contract_accepted w g (S (length ps)) name address input_path
             output_path h code data Hbuilt ls guid Hs Hfuel).
  set (h1 := h ++ submission_events (chain_params g) data ls
               ++ [Print (VStr ("Sent verification request with guid " +:+ guid))]).
  assert (Hh1 : requests_sent h1 = (requests_sent h + S (length ls))%nat).
  { unfold h1. rewrite !requests_sent_app, requests_sent_submission. cbn. lia. }
  rewrite <- Hh1 in Hst.
  destruct (stalls_head w _ _ _ _ Hst) as (c & r0 & Hc & _).
  unfold poll. cbn [poll_loop is_empty_dict negb].
  unfold bind at 2. unfold ret at 1. unfold bind at 2. unfold ret at 1.
  rewrite bind_assoc.
  rewrite (bind_done _ _ _ _ _
             (send_answered w (chain_params g) (status_request g (VStr guid)) h1 c Hc)).
  assert (Hloop :
    poll_loop w (length ps) g (chain_params g) (VStr guid) c
      (h1 ++ [sending; post (chain_params g) (status_request g (VStr guid))])
    = (OutOfFuel,
       (h1 ++ [sending; post (chain_params g) (status_request g (VStr guid))])
       ++ flat_map (requery (chain_params g) (status_request g (VStr guid))) ps)).
  { apply (poll_loop_stalled w g _ (VStr guid) r ps (requests_sent h1)); try assumption.
    rewrite requests_sent_app. cbn. lia. }
  unfold bind at 1. rewrite Hloop.
  unfold h1, polling_events. rewrite <- !app_assoc. reflexivity.
Qed.

Lemma polling_is_repeated_without_limit_witness :
  verify_contract Sample.unsettled_world Sample.g0
    (S (length ["Pending in queue"; "Pending in queue"]))
    "DssSpell" Sample.spell_address Sample.spell_source Sample.spell_artifact []
  = (OutOfFuel,
     [] ++ submission_events (chain_params Sample.g0) Sample.request []
        ++ [Print (VStr ("Sent verification request with guid " +:+ "guid-1"))]
        ++ polling_events (chain_params Sample.g0)
             (status_request Sample.g0 (VStr "guid-1"))
             ["Pending in queue"; "Pending in queue"]).
Proof.
  apply (polling_is_repeated_without_limit Sample.unsettled_world Sample.g0
           "DssSpell" Sample.spell_address Sample.spell_source Sample.spell_artifact []
           Sample.flat_source Sample.request [] "guid-1"
           ["Pending in queue"; "Pending in queue"] "Pending in queue").
  - vm_compute. reflexivity.
  - vm_compute. repeat split.
  - simpl. lia.
  - vm_compute. repeat split.
Defined.
